(** * AskStash guest mode: local persistence, context assembly, lifecycle

    A shallow embedding of [src/services/guestService.ts] (class
    [GuestService] and the two page-lifecycle listeners registered next to
    it; [guestService.js] is the same code with another host name) and of
    the guest branch of [handleSendMessage] in the dashboard page, together
    with the part of the browser platform that code runs on: [localStorage],
    [JSON.parse] / [JSON.stringify], property access and the array methods
    the service calls on parsed values.

    Strings are [String.string]; a character stands for one code unit below
    256, which is the alphabet on which the JSON text produced by
    [JSON.stringify] is modelled exactly.

    The clock and the network are inputs: a function that calls
    [Date.now()] takes the reading as an argument, and [generateAIResponse]
    takes the behaviour of [fetch]. Not modelled: [console.error], the
    storage quota, and the React state of the page other than the parts
    the guest handlers read and write. *)

From Stdlib Require Import ZArith Ascii String List Bool Lia.
From stdpp Require Import gmap strings list pretty.

Import ListNotations.

(** ** JSON values

    What [JSON.parse] can return. A number keeps the literal it was read
    from; JavaScript would turn it into a double, but no record written by
    the guest service contains a number, so numbers only matter as foreign
    data in a slot. An object keeps its properties in the order of the text.
    The JavaScript value [undefined] is not a JSON value: where the code can
    meet it, the embedding uses [option json] with [None] for [undefined]. *)

Unset Elimination Schemes.
Inductive json : Type :=
| JNull
| JBool (b : bool)
| JNum (lit : string)
| JStr (s : string)
| JArr (items : list json)
| JObj (props : list (string * json)).
Set Elimination Schemes.

Module Json.

(** *** Characters *)

Abbreviation dquote := ("034"%char) (only parsing).
Abbreviation backslash := ("092"%char) (only parsing).

Definition code (c : ascii) : N := N_of_ascii c.

Definition hex_digit (n : N) : ascii :=
  if (n <? 10)%N then ascii_of_N (48 + n) else ascii_of_N (87 + n).

Definition hex_val (c : ascii) : option N :=
  let n := code c in
  if ((48 <=? n) && (n <=? 57))%N then Some (n - 48)%N
  else if ((97 <=? n) && (n <=? 102))%N then Some (n - 87)%N
  else if ((65 <=? n) && (n <=? 70))%N then Some (n - 55)%N
  else None.

Definition is_digit (c : ascii) : bool :=
  ((48 <=? code c) && (code c <=? 57))%N.

Definition is_ws (c : ascii) : bool :=
  match c with
  | " "%char | "009"%char | "010"%char | "013"%char => true
  | _ => false
  end.

(** *** JSON.stringify (no indentation)

    [quote_char] is QuoteJSONString on one code unit: the two-character
    escapes, [\u00xx] with lower-case digits for the other control
    characters, the character itself otherwise. *)

Definition quote_char (c : ascii) : string :=
  match c with
  | "008"%char => "\b"
  | "009"%char => "\t"
  | "010"%char => "\n"
  | "012"%char => "\f"
  | "013"%char => "\r"
  | "034"%char => String backslash (String dquote EmptyString)
  | "092"%char => "\\"
  | _ =>
      if (code c <? 32)%N
      then "\u00" +:+ String (hex_digit (code c / 16))
                              (String (hex_digit (code c mod 16)) EmptyString)
      else String c EmptyString
  end.

Fixpoint quote_body (s : string) : string :=
  match s with
  | EmptyString => EmptyString
  | String c r => quote_char c +:+ quote_body r
  end.

Definition quote (s : string) : string :=
  String dquote (quote_body s +:+ String dquote EmptyString).

Fixpoint stringify (v : json) : string :=
  match v with
  | JNull => "null"
  | JBool true => "true"
  | JBool false => "false"
  | JNum lit => lit
  | JStr s => quote s
  | JArr items => "[" +:+ String.concat "," (map stringify items) +:+ "]"
  | JObj props =>
      "{" +:+ String.concat ","
                (map (fun kv => quote (fst kv) +:+ ":" +:+ stringify (snd kv)) props)
          +:+ "}"
  end.

(** *** JSON.parse

    A recursive-descent reader of the JSON grammar (RFC 8259). [None]
    stands for the [SyntaxError] that [JSON.parse] throws. An escape
    [\uXXXX] above [00ff] names a code unit outside the modelled alphabet:
    the reader has no value for such a text and gives [None] there too,
    where [JSON.parse] returns one. [in_alphabet] below tells the texts
    without such an escape; a fact that draws a conclusion from a refused
    text assumes it. *)

Fixpoint skip_ws (s : string) : string :=
  match s with
  | String c r => if is_ws c then skip_ws r else s
  | EmptyString => s
  end.

Definition unescape (e : ascii) : option ascii :=
  match e with
  | "034"%char => Some dquote
  | "092"%char => Some backslash
  | "/"%char => Some "/"%char
  | "b"%char => Some "008"%char
  | "f"%char => Some "012"%char
  | "n"%char => Some "010"%char
  | "r"%char => Some "013"%char
  | "t"%char => Some "009"%char
  | _ => None
  end.

Definition hex4 (a b c d : ascii) : option N :=
  match hex_val a, hex_val b, hex_val c, hex_val d with
  | Some x, Some y, Some z, Some w => Some (((x * 16 + y) * 16 + z) * 16 + w)%N
  | _, _, _, _ => None
  end.

Definition prepend (c : ascii) (r : option (string * string)) : option (string * string) :=
  match r with
  | Some (s, rest) => Some (String c s, rest)
  | None => None
  end.

(** The characters of a string literal, read after its opening quote up
    to and including the closing one. *)
Fixpoint parse_chars (s : string) : option (string * string) :=
  match s with
  | EmptyString => None
  | String c r =>
      if Ascii.eqb c dquote then Some (EmptyString, r)
      else if Ascii.eqb c backslash then
        match r with
        | String e r1 =>
            if Ascii.eqb e "u"%char then
              match r1 with
              | String h1 (String h2 (String h3 (String h4 r2))) =>
                  match hex4 h1 h2 h3 h4 with
                  | Some n =>
                      if (n <? 256)%N then prepend (ascii_of_N n) (parse_chars r2) else None
                  | None => None
                  end
              | _ => None
              end
            else
              match unescape e with
              | Some x => prepend x (parse_chars r1)
              | None => None
              end
        | EmptyString => None
        end
      else if (code c <? 32)%N then None
      else prepend c (parse_chars r)
  end.

(** A number token is the longest run of the characters a number can
    contain; it is accepted when it follows the grammar of
    RFC 8259: an optional minus sign, an integer part without leading
    zero, an optional fraction, an optional exponent. In a JSON
    text a number is always followed by white space, a comma, a closing
    bracket or the end of the text, so this reads the same numbers as a
    left-to-right scan and refuses the same texts. *)

Definition is_numchar (c : ascii) : bool :=
  is_digit c || Ascii.eqb c "-"%char || Ascii.eqb c "+"%char
  || Ascii.eqb c "."%char || Ascii.eqb c "e"%char || Ascii.eqb c "E"%char.

Fixpoint span (p : ascii -> bool) (s : string) : string * string :=
  match s with
  | String c r =>
      if p c then let '(xs, rest) := span p r in (String c xs, rest)
      else (EmptyString, s)
  | EmptyString => (EmptyString, s)
  end.

Definition after_digits (s : string) : option string :=
  match span is_digit s with
  | (EmptyString, _) => None
  | (_, rest) => Some rest
  end.

Definition after_int (s : string) : option string :=
  match s with
  | String c r =>
      if Ascii.eqb c "0"%char then Some r
      else if is_digit c then Some (snd (span is_digit r))
      else None
  | EmptyString => None
  end.

Definition after_frac (s : string) : option string :=
  match s with
  | String "."%char r => after_digits r
  | _ => Some s
  end.

Definition after_exp (s : string) : option string :=
  match s with
  | String c r =>
      if Ascii.eqb c "e"%char || Ascii.eqb c "E"%char then
        match r with
        | String "+"%char r' => after_digits r'
        | String "-"%char r' => after_digits r'
        | _ => after_digits r
        end
      else Some s
  | EmptyString => Some s
  end.

Definition is_number (lit : string) : bool :=
  let unsigned :=
    match lit with
    | String "-"%char r => r
    | _ => lit
    end in
  match after_int unsigned with
  | Some s1 =>
      match after_frac s1 with
      | Some s2 =>
          match after_exp s2 with
          | Some EmptyString => true
          | _ => false
          end
      | None => false
      end
  | None => false
  end.

Definition scan_number (s : string) : option (string * string) :=
  let '(lit, rest) := span is_numchar s in
  if is_number lit then Some (lit, rest) else None.

Definition starts_with (c : ascii) (s : string) : option string :=
  match s with
  | String d r => if Ascii.eqb c d then Some r else None
  | EmptyString => None
  end.

Fixpoint strip (p s : string) : option string :=
  match p with
  | EmptyString => Some s
  | String c p' =>
      match starts_with c s with
      | Some r => strip p' r
      | None => None
      end
  end.

Definition tagged {A B : Type} (f : A -> B) (r : option (A * string)) : option (B * string) :=
  match r with
  | Some (x, rest) => Some (f x, rest)
  | None => None
  end.

Definition keyword_unit (r : option string) : option (unit * string) :=
  match r with
  | Some rest => Some (tt, rest)
  | None => None
  end.

Definition keyword (v : json) (r : option string) : option (json * string) :=
  match r with
  | Some rest => Some (v, rest)
  | None => None
  end.

Fixpoint parse_value (fuel : nat) (s : string) {struct fuel} : option (json * string) :=
  match fuel with
  | O => None
  | S fuel' =>
      match skip_ws s with
      | EmptyString => None
      | String c r =>
          if Ascii.eqb c "n"%char then keyword JNull (strip "ull" r)
          else if Ascii.eqb c "t"%char then keyword (JBool true) (strip "rue" r)
          else if Ascii.eqb c "f"%char then keyword (JBool false) (strip "alse" r)
          else if Ascii.eqb c dquote then tagged JStr (parse_chars r)
          else if Ascii.eqb c "["%char then
            match starts_with "]"%char (skip_ws r) with
            | Some rest => Some (JArr [], rest)
            | None => tagged JArr (parse_items fuel' r)
            end
          else if Ascii.eqb c "{"%char then
            match starts_with "}"%char (skip_ws r) with
            | Some rest => Some (JObj [], rest)
            | None => tagged JObj (parse_members fuel' r)
            end
          else tagged JNum (scan_number (String c r))
      end
  end
with parse_items (fuel : nat) (s : string) {struct fuel} : option (list json * string) :=
  match fuel with
  | O => None
  | S fuel' =>
      match parse_value fuel' s with
      | Some (v, r) =>
          match starts_with ","%char (skip_ws r) with
          | Some r' => tagged (cons v) (parse_items fuel' r')
          | None => tagged (fun _ : unit => [v]) (keyword_unit (starts_with "]"%char (skip_ws r)))
          end
      | None => None
      end
  end
with parse_members (fuel : nat) (s : string) {struct fuel}
  : option (list (string * json) * string) :=
  match fuel with
  | O => None
  | S fuel' =>
      match starts_with dquote (skip_ws s) with
      | Some r =>
          match parse_chars r with
          | Some (k, r1) =>
              match starts_with ":"%char (skip_ws r1) with
              | Some r2 =>
                  match parse_value fuel' r2 with
                  | Some (v, r3) =>
                      match starts_with ","%char (skip_ws r3) with
                      | Some r4 => tagged (cons (k, v)) (parse_members fuel' r4)
                      | None =>
                          tagged (fun _ : unit => [(k, v)])
                                 (keyword_unit (starts_with "}"%char (skip_ws r3)))
                      end
                  | None => None
                  end
              | None => None
              end
          | None => None
          end
      | None => None
      end
  end.

(** The whole text must be one value, white space apart. Every level of
    nesting and every further element consumes a character, so the length
    of the text is fuel enough. *)
Definition parse (s : string) : option json :=
  match parse_value (S (String.length s)) s with
  | Some (v, rest) =>
      match skip_ws rest with
      | EmptyString => Some v
      | _ => None
      end
  | None => None
  end.

(** The texts in which no escape [\uXXXX] names a code unit above [00ff].
    The scan pairs each backslash with the character it escapes, as the
    grammar of strings does, so an escaped backslash followed by a [u] is
    not taken for an escape. On these texts a refusal by [parse] is a
    [SyntaxError] of [JSON.parse]. *)
Fixpoint in_alphabet (s : string) : bool :=
  match s with
  | EmptyString => true
  | String c r =>
      if Ascii.eqb c backslash then
        match r with
        | String e r1 =>
            if Ascii.eqb e "u"%char then
              match r1 with
              | String h1 (String h2 (String h3 (String h4 r2))) =>
                  match hex4 h1 h2 h3 h4 with
                  | Some n => (n <? 256)%N && in_alphabet r2
                  | None => in_alphabet r2
                  end
              | _ => true
              end
            else in_alphabet r1
        | EmptyString => true
        end
      else in_alphabet r
  end.

End Json.


(** ** JavaScript on JSON values

    The fragment of the language the guest service uses on what it reads
    from storage: exceptions, property access, the array methods, string
    conversion. *)

Record exn : Type := Exn { exn_name : string; exn_message : string }.

(** The message of an exception raised by the engine or the browser is
    implementation defined; the texts below are placeholders and nothing
    depends on them. *)
Definition SyntaxError : exn := Exn "SyntaxError" "Unexpected token in JSON".
Definition TypeError : exn := Exn "TypeError" "not a function or not an object".
Definition SecurityError : exn := Exn "SecurityError" "The operation is insecure.".

(** [Error.prototype.toString], which a template literal applies to a
    caught error. *)
Definition render_error (e : exn) : string :=
  match exn_name e, exn_message e with
  | name, EmptyString => name
  | EmptyString, message => message
  | name, message => name +:+ ": " +:+ message
  end.

Inductive result (A : Type) : Type :=
| Ok (a : A)
| Throw (e : exn).
Arguments Ok {A} a.
Arguments Throw {A} e.

Definition result_bind {A B : Type} (r : result A) (k : A -> result B) : result B :=
  match r with
  | Ok a => k a
  | Throw e => Throw e
  end.

Declare Scope result_scope.
Delimit Scope result_scope with R.
Bind Scope result_scope with result.
Notation "'let*' x ':=' r 'in' k" := (result_bind r (fun x => k))
  (at level 10, x binder, r at level 100, k at level 200) : result_scope.

Definition nl : string := String "010"%char EmptyString.

(** [obj[k]] for an own data property: with a repeated name in a JSON text
    the last member wins. *)
Fixpoint lookup_prop (k : string) (props : list (string * json)) : option json :=
  match props with
  | [] => None
  | (k', v) :: rest =>
      match lookup_prop k rest with
      | Some w => Some w
      | None => if String.eqb k k' then Some v else None
      end
  end.

(** [v.k] for a property name that no built-in prototype defines ([id],
    [filename], [content], [response]): [TypeError] on [null], [undefined]
    on the other primitives and on arrays. *)
Definition get_prop (v : json) (k : string) : result (option json) :=
  match v with
  | JNull => Throw TypeError
  | JObj props => Ok (lookup_prop k props)
  | _ => Ok None
  end.

(** An object literal; a property whose value is [undefined] is left out,
    which [JSON.stringify] and property reads do not tell from its being
    absent. *)
Fixpoint object_literal (fields : list (string * option json)) : list (string * json) :=
  match fields with
  | [] => []
  | (k, Some v) :: rest => (k, v) :: object_literal rest
  | (_, None) :: rest => object_literal rest
  end.

(** ToString, as a template literal applies it. A number is shown by its
    literal. *)
Fixpoint ToString (v : json) : string :=
  match v with
  | JNull => "null"
  | JBool true => "true"
  | JBool false => "false"
  | JNum lit => lit
  | JStr s => s
  | JArr items =>
      String.concat ","
        (map (fun x => match x with JNull => EmptyString | _ => ToString x end) items)
  | JObj _ => "[object Object]"
  end.

Definition ToString_value (v : option json) : string :=
  match v with
  | Some x => ToString x
  | None => "undefined"
  end.

(** [v === s] for a string [s]. *)
Definition strict_equals_string (v : option json) (s : string) : bool :=
  match v with
  | Some (JStr x) => String.eqb x s
  | _ => false
  end.

(** [list.includes(v)] for a list of strings. *)
Definition includes (list : list string) (v : option json) : bool :=
  existsb (strict_equals_string v) list.

(** ToBoolean. Zero is recognised on a literal by its digits. *)
Fixpoint has_char (p : ascii -> bool) (s : string) : bool :=
  match s with
  | EmptyString => false
  | String c r => p c || has_char p r
  end.

Definition mantissa_nonzero (lit : string) : bool :=
  let mantissa :=
    fst (Json.span (fun c => negb (Ascii.eqb c "e"%char || Ascii.eqb c "E"%char)) lit) in
  has_char (fun c => Json.is_digit c && negb (Ascii.eqb c "0"%char)) mantissa.

Definition truthy (v : json) : bool :=
  match v with
  | JNull => false
  | JBool b => b
  | JNum lit => mantissa_nonzero lit
  | JStr s => negb (String.eqb s EmptyString)
  | JArr _ | JObj _ => true
  end.

(** The receiver of an array method: a value without that method makes the
    call throw. *)
Definition as_array (v : json) : result (list json) :=
  match v with
  | JArr items => Ok items
  | _ => Throw TypeError
  end.

Fixpoint map_result {A B : Type} (f : A -> result B) (l : list A) : result (list B) :=
  match l with
  | [] => Ok []
  | x :: rest =>
      (let* y := f x in
       let* ys := map_result f rest in
       Ok (y :: ys))%R
  end.

Fixpoint filter_result {A : Type} (f : A -> result bool) (l : list A) : result (list A) :=
  match l with
  | [] => Ok []
  | x :: rest =>
      (let* keep := f x in
       let* ys := filter_result f rest in
       Ok (if keep then x :: ys else ys))%R
  end.

Fixpoint find_result {A : Type} (f : A -> result bool) (l : list A) : result (option A) :=
  match l with
  | [] => Ok None
  | x :: rest =>
      (let* hit := f x in
       if hit then Ok (Some x) else find_result f rest)%R
  end.

(** ** localStorage

    A store is a finite map from keys to strings. [denied] stands for a
    browser that refuses access to storage: every operation throws. Quota
    is not modelled. *)

Record Storage : Type := { items : gmap string string; denied : bool }.

Definition emptyStorage : Storage := {| items := ∅; denied := false |}.

(** Computations that read and write the store and may throw. An
    exception leaves the writes made before it in place. *)
Definition M (A : Type) : Type := Storage -> result A * Storage.

Declare Scope M_scope.
Delimit Scope M_scope with M.
Bind Scope M_scope with M.
Open Scope M_scope.

Definition ret {A : Type} (a : A) : M A := fun st => (Ok a, st).
Definition throw {A : Type} (e : exn) : M A := fun st => (Throw e, st).
Definition bind {A B : Type} (m : M A) (k : A -> M B) : M B :=
  fun st =>
    match m st with
    | (Ok a, st') => k a st'
    | (Throw e, st') => (Throw e, st')
    end.
Definition try_catch {A : Type} (m : M A) (handler : exn -> M A) : M A :=
  fun st =>
    match m st with
    | (Ok a, st') => (Ok a, st')
    | (Throw e, st') => handler e st'
    end.
Definition lift {A : Type} (r : result A) : M A := fun st => (r, st).

Notation "'let*' x ':=' m 'in' k" := (bind m (fun x => k))
  (at level 10, x binder, m at level 100, k at level 200) : M_scope.

Definition getItem (key : string) : M (option string) :=
  fun st => if denied st then (Throw SecurityError, st) else (Ok (items st !! key), st).

Definition setItem (key value : string) : M unit :=
  fun st =>
    if denied st then (Throw SecurityError, st)
    else (Ok tt, {| items := <[key := value]> (items st); denied := denied st |}).

Definition removeItem (key : string) : M unit :=
  fun st =>
    if denied st then (Throw SecurityError, st)
    else (Ok tt, {| items := delete key (items st); denied := denied st |}).

Definition JSON_parse (text : string) : M json :=
  match Json.parse text with
  | Some v => ret v
  | None => throw SyntaxError
  end.

(** [stored ? JSON.parse(stored) : []]: [null] and the empty string are
    falsy. *)
Definition parse_or_empty (stored : option string) : M json :=
  match stored with
  | Some (String c r) => JSON_parse (String c r)
  | Some EmptyString | None => ret (JArr [])
  end.

(** ** The guest service ([class GuestService]) *)

Definition documentsKey : string := "guestDocuments".
Definition chatHistoryKey : string := "guestChatHistory".

(** One reading of the clock: [Date.now()] and
    [new Date().toISOString()]. *)
Record Clock : Type := { Date_now : Z; toISOString : string }.

(** [Date.now().toString()] *)
Definition timestamp_id (t : Clock) : string := pretty (Date_now t).

Definition getDocuments : M json :=
  try_catch
    (let* stored := getItem documentsKey in
     parse_or_empty stored)
    (fun error => ret (JArr [])).

(** The argument of [saveDocument], as the upload handler builds it:
    [{ filename, content, file_type }]. *)
Record DocumentData : Type :=
  { data_filename : string; data_content : string; data_file_type : string }.

Definition DocumentData_props (d : DocumentData) : list (string * json) :=
  [ ("filename", JStr (data_filename d));
    ("content", JStr (data_content d));
    ("file_type", JStr (data_file_type d)) ].

(** [{ ...document, id: Date.now().toString(), created_at: new Date().toISOString() }] *)
Definition newDocument (document : DocumentData) (t : Clock) : json :=
  JObj (DocumentData_props document
        ++ [ ("id", JStr (timestamp_id t)); ("created_at", JStr (toISOString t)) ]).

(** [documents.push(x)], giving the array after the call. *)
Definition push (documents : json) (x : json) : result json :=
  (let* items := as_array documents in
   Ok (JArr (items ++ [x])))%R.

Definition saveDocument (document : DocumentData) (t : Clock) : M json :=
  let* documents := getDocuments in
  let created := newDocument document t in
  let* documents := lift (push documents created) in
  let* _ := setItem documentsKey (Json.stringify documents) in
  ret created.

(** [doc => doc.id !== documentId] *)
Definition id_differs (documentId : string) (doc : json) : result bool :=
  (let* id := get_prop doc "id" in
   Ok (negb (strict_equals_string id documentId)))%R.

(** [doc => doc.id === documentId] *)
Definition id_equals (documentId : string) (doc : json) : result bool :=
  (let* id := get_prop doc "id" in
   Ok (strict_equals_string id documentId))%R.

Definition deleteDocument (documentId : string) : M bool :=
  try_catch
    (let* documents := getDocuments in
     let* filteredDocuments :=
       lift (let* items := as_array documents in
             filter_result (id_differs documentId) items)%R in
     let* _ := setItem documentsKey (Json.stringify (JArr filteredDocuments)) in
     ret true)
    (fun error => ret false).

(** [documents.find(doc => doc.id === documentId) || null] *)
Definition getDocument (documentId : string) : M json :=
  let* documents := getDocuments in
  let* found :=
    lift (let* items := as_array documents in find_result (id_equals documentId) items)%R in
  ret (match found with
       | Some doc => if truthy doc then doc else JNull
       | None => JNull
       end).

Definition getChatHistory : M json :=
  try_catch
    (let* stored := getItem chatHistoryKey in
     parse_or_empty stored)
    (fun error => ret (JArr [])).

(** The argument of [saveChatMessage], as the dashboard builds it:
    [{ message, response, context_documents }]. [response] is whatever
    [generateAIResponse] returned in that field. *)
Record MessageData : Type :=
  { data_message : string;
    data_response : option json;
    data_context_documents : option string }.

Definition MessageData_props (m : MessageData) : list (string * json) :=
  object_literal
    [ ("message", Some (JStr (data_message m)));
      ("response", data_response m);
      ("context_documents", JStr <$> data_context_documents m) ].

Definition newMessage (message : MessageData) (t : Clock) : json :=
  JObj (MessageData_props message
        ++ [ ("id", JStr (timestamp_id t)); ("created_at", JStr (toISOString t)) ]).

Definition saveChatMessage (message : MessageData) (t : Clock) : M json :=
  let* history := getChatHistory in
  let created := newMessage message t in
  let* history := lift (push history created) in
  let* _ := setItem chatHistoryKey (Json.stringify history) in
  ret created.

(** *** Context assembly and the chat request *)

(** [doc => `--- Document: ${doc.filename} ---\n${doc.content}`] *)
Definition document_block (doc : json) : result string :=
  (let* filename := get_prop doc "filename" in
   let* content := get_prop doc "content" in
   Ok ("--- Document: " +:+ ToString_value filename +:+ " ---" +:+ nl
       +:+ ToString_value content))%R.

(** [doc => ({ id: doc.id, filename: doc.filename })] *)
Definition context_source (doc : json) : result json :=
  (let* id := get_prop doc "id" in
   let* filename := get_prop doc "filename" in
   Ok (JObj (object_literal [ ("id", id); ("filename", filename) ])))%R.

(** [docs.map(...).join('\n\n')] and [docs.map(...)] *)
Definition context_of (docs : list json) : result (string * list json) :=
  (let* blocks := map_result document_block docs in
   let* sources := map_result context_source docs in
   Ok (String.concat (nl +:+ nl) blocks, sources))%R.

(** [doc => selectedDocuments.includes(doc.id)] *)
Definition is_selected (selectedDocuments : list string) (doc : json) : result bool :=
  (let* id := get_prop doc "id" in
   Ok (includes selectedDocuments id))%R.

(** The first statement of the [try] block of [generateAIResponse]: the
    values of [context] and [contextSources] when [fetch] is called.
    [selectedDocuments] and [useAllDocuments] are optional parameters;
    [None] is [undefined]. *)
Definition assembleContext (selectedDocuments : option (list string))
    (useAllDocuments : option bool) : M (string * list json) :=
  if default false useAllDocuments then
    let* allDocs := getDocuments in
    lift (let* items := as_array allDocs in context_of items)%R
  else
    match selectedDocuments with
    | Some (first :: others) =>
        let* allDocs := getDocuments in
        lift (let* items := as_array allDocs in
              let* selectedDocs := filter_result (is_selected (first :: others)) items in
              context_of selectedDocs)%R
    | Some [] | None => ret (EmptyString, [])
    end.

Definition chat_url : string := "https://vaibhavmurarka14.pythonanywhere.com/api/guest/chat".

(** The request body:
    [JSON.stringify({ message, context, context_sources: contextSources })]. *)
Definition chat_body (message context : string) (contextSources : list json) : string :=
  Json.stringify
    (JObj [ ("message", JStr message);
            ("context", JStr context);
            ("context_sources", JArr contextSources) ]).

(** What [await fetch(url, { method: 'POST', ..., body })] does: the promise
    rejects (no network), or an HTTP response arrives with its [ok] flag
    and a body for [response.json()] to read. *)
Inductive FetchOutcome : Type :=
| Rejected (error : exn)
| Response (ok : bool) (body : string).

Definition Fetch : Type := string -> string -> FetchOutcome.

(** A reply whose body, if there is one, is within the alphabet of the
    JSON reader. *)
Definition reply_in_alphabet (outcome : FetchOutcome) : bool :=
  match outcome with
  | Rejected _ => true
  | Response _ body => Json.in_alphabet body
  end.

Record AIResponse : Type :=
  { response : option json;
    context_used : bool;
    context_sources : list json }.

Definition apology (error : exn) : string :=
  "I apologize, but I encountered an error while processing your request: "
  +:+ render_error error.

Definition generateAIResponse (fetch : Fetch) (message : string)
    (selectedDocuments : option (list string)) (useAllDocuments : option bool)
  : M AIResponse :=
  try_catch
    (let* '(context, contextSources) := assembleContext selectedDocuments useAllDocuments in
     match fetch chat_url (chat_body message context contextSources) with
     | Rejected error => throw error
     | Response false _ => throw (Exn "Error" "Failed to get AI response")
     | Response true body =>
         let* data := JSON_parse body in
         let* answer := lift (get_prop data "response") in
         ret {| response := answer;
                context_used := negb (length contextSources =? 0)%nat;
                context_sources := contextSources |}
     end)
    (fun error =>
       ret {| response := Some (JStr (apology error));
              context_used := false;
              context_sources := [] |}).

(** *** Teardown and storage usage *)

Definition clearAllData : M unit :=
  let* _ := removeItem documentsKey in
  let* _ := removeItem chatHistoryKey in
  removeItem "guestMode".

(** [(a / b).toFixed(1)] for [0 <= a] and a power of two [b]: the quotient
    of two integers below [2^53] by a power of two is exact in double
    precision, and [toFixed(1)] prints the integer [n] for which [n / 10]
    is nearest to it, the larger one of two, with one digit after the
    point. *)
Definition toFixed1 (a b : Z) : string :=
  let n := ((2 * 10 * a + b) / (2 * b))%Z in
  pretty (n / 10)%Z +:+ "." +:+ pretty (n mod 10)%Z.

(** The conditional that computes [estimatedSize]. *)
Definition estimatedSize_of (totalBytes : Z) : string :=
  if (totalBytes <? 1024)%Z then pretty totalBytes +:+ " bytes"
  else if (totalBytes <? 1024 * 1024)%Z then toFixed1 totalBytes 1024 +:+ " KB"
  else toFixed1 totalBytes (1024 * 1024) +:+ " MB".

(** [v.length] *)
Definition get_length (v : json) : result (option json) :=
  match v with
  | JNull => Throw TypeError
  | JArr items => Ok (Some (JNum (pretty (Z.of_nat (length items)))))
  | JStr s => Ok (Some (JNum (pretty (Z.of_nat (String.length s)))))
  | JObj props => Ok (lookup_prop "length" props)
  | JBool _ | JNum _ => Ok None
  end.

Record StorageInfo : Type :=
  { documentsCount : option json;
    chatMessagesCount : option json;
    estimatedSize : string }.

Definition totalBytes_of (documents chatHistory : json) : Z :=
  Z.of_nat (String.length (Json.stringify documents))
  + Z.of_nat (String.length (Json.stringify chatHistory)).

Definition getStorageInfo : M StorageInfo :=
  let* documents := getDocuments in
  let* chatHistory := getChatHistory in
  let totalBytes := totalBytes_of documents chatHistory in
  let shown := estimatedSize_of totalBytes in
  let* documentsCount := lift (get_length documents) in
  let* chatMessagesCount := lift (get_length chatHistory) in
  ret {| documentsCount := documentsCount;
         chatMessagesCount := chatMessagesCount;
         estimatedSize := shown |}.

(** ** Page lifecycle (the listeners registered next to the service) *)

(** White space as [trim] and [parseInt] skip it, on code units below
    256. *)
Definition is_js_space (c : ascii) : bool :=
  match c with
  | "009"%char | "010"%char | "011"%char | "012"%char | "013"%char | " "%char | "160"%char => true
  | _ => false
  end.

Fixpoint drop_while (p : ascii -> bool) (s : string) : string :=
  match s with
  | String c r => if p c then drop_while p r else s
  | EmptyString => s
  end.

Definition digit_value (radix : Z) (c : ascii) : option Z :=
  match Json.hex_val c with
  | Some d => if (Z.of_N d <? radix)%Z then Some (Z.of_N d) else None
  | None => None
  end.

(** The value of the longest prefix of digits; [None] when it is empty. *)
Fixpoint digits_prefix (radix : Z) (acc : option Z) (s : string) : option Z :=
  match s with
  | String c r =>
      match digit_value radix c with
      | Some d => digits_prefix radix (Some (default 0 acc * radix + d)%Z) r
      | None => acc
      end
  | EmptyString => acc
  end.

(** [parseInt(s)] without a radix; [None] is [NaN]. The result is the
    exact integer, as JavaScript computes it below [2^53]. *)
Definition parseInt (s : string) : option Z :=
  let s1 := drop_while is_js_space s in
  let '(sign, s2) :=
    match s1 with
    | String "-"%char r => ((-1)%Z, r)
    | String "+"%char r => (1%Z, r)
    | _ => (1%Z, s1)
    end in
  let '(radix, s3) :=
    match s2 with
    | String "0"%char (String "x"%char r) => (16%Z, r)
    | String "0"%char (String "X"%char r) => (16%Z, r)
    | _ => (10%Z, s2)
    end in
  Z.mul sign <$> digits_prefix radix None s3.

(** [localStorage.getItem('guestMode') === 'true'] *)
Definition isGuestMode : M bool :=
  let* flag := getItem "guestMode" in
  ret (match flag with
       | Some s => String.eqb s "true"
       | None => false
       end).

(** The [beforeunload] listener. *)
Definition onBeforeUnload : M unit :=
  let* guest := isGuestMode in
  if guest then clearAllData else ret tt.

Inductive VisibilityState : Type := hidden | visible.

(** [30 * 60 * 1000] *)
Definition expiry_ms : Z := 30 * 60 * 1000.

(** The [visibilitychange] listener; [now] is the reading of [Date.now()]
    and the result tells whether [window.location.reload()] was called.
    [isGuestMode && lastActive] holds for a flag that is set and a
    timestamp that is neither absent nor empty; with [NaN] for
    [parseInt(lastActive)] the comparison is false. *)
Definition onVisibilityChange (visibilityState : VisibilityState) (now : Z) : M bool :=
  match visibilityState with
  | hidden =>
      let* guest := isGuestMode in
      if guest then
        let* _ := setItem "guestModeLastActive" (pretty now) in
        ret false
      else ret false
  | visible =>
      let* guest := isGuestMode in
      let* lastActive := getItem "guestModeLastActive" in
      if guest then
        match lastActive with
        | Some (String c r) =>
            match parseInt (String c r) with
            | Some hiddenAt =>
                let timeDiff := (now - hiddenAt)%Z in
                if (timeDiff >? expiry_ms)%Z then
                  let* _ := clearAllData in
                  ret true
                else ret false
            | None => ret false
            end
        | Some EmptyString | None => ret false
        end
      else ret false
  end.

(** ** The dashboard: sending a message in guest mode *)

Inductive ContextMode : Type := mode_none | mode_selected | mode_all.

(** An entry of the [messages] state of the page. *)
Record UiMessage : Type :=
  { ui_id : option Z;
    ui_user_id : Z;
    ui_message : string;
    ui_response : option json;
    ui_context_documents : option json;
    ui_created_at : option json }.

(** [!inputMessage.trim()] *)
Definition blank (s : string) : bool :=
  match drop_while is_js_space s with
  | EmptyString => true
  | String _ _ => false
  end.

(** [parseInt(v)] on a property value. *)
Definition parseInt_value (v : option json) : option Z := parseInt (ToString_value v).

(** [response.context_sources.length > 0 ? JSON.stringify(response.context_sources) : undefined] *)
Definition context_documents_of (sources : list json) : option string :=
  match sources with
  | [] => None
  | _ :: _ => Some (Json.stringify (JArr sources))
  end.

(** [contextMode === 'selected' ? selectedDocuments.map(id => id.toString()) : undefined] *)
Definition useSelectedDocs_of (contextMode : ContextMode) (selectedDocuments : list Z)
  : option (list string) :=
  match contextMode with
  | mode_selected => Some (map pretty selectedDocuments)
  | _ => None
  end.

(** [contextMode === 'all'] *)
Definition useAllDocs_of (contextMode : ContextMode) : bool :=
  match contextMode with
  | mode_all => true
  | _ => false
  end.

(** [handleSendMessage] with [isGuestMode] true and the guest user
    ([id: -1]). [selectedDocuments] holds the numbers the page keeps for
    the ticked documents; [t0] is the clock when the pending entry is
    made, [t1] when the answer is saved. The result is the entry that ends
    up in the last slot of [messages]; [None] when the handler returns at
    its first line. *)
Definition handleSendMessage (fetch : Fetch) (inputMessage : string) (isLoading : bool)
    (contextMode : ContextMode) (selectedDocuments : list Z) (t0 t1 : Clock)
  : M (option UiMessage) :=
  if blank inputMessage || isLoading then ret None
  else
    let userMessage := inputMessage in
    try_catch
      (let useSelectedDocs := useSelectedDocs_of contextMode selectedDocuments in
       let useAllDocs := useAllDocs_of contextMode in
       let* answer := generateAIResponse fetch userMessage useSelectedDocs (Some useAllDocs) in
       let* guestMessage :=
         saveChatMessage
           {| data_message := userMessage;
              data_response := response answer;
              data_context_documents := context_documents_of (context_sources answer) |}
           t1 in
       let* id := lift (get_prop guestMessage "id") in
       let* context_documents := lift (get_prop guestMessage "context_documents") in
       let* created_at := lift (get_prop guestMessage "created_at") in
       ret (Some {| ui_id := parseInt_value id;
                    ui_user_id := -1;
                    ui_message := userMessage;
                    ui_response := response answer;
                    ui_context_documents := context_documents;
                    ui_created_at := created_at |}))
      (fun error =>
         ret (Some {| ui_id := Some (Date_now t0);
                      ui_user_id := -1;
                      ui_message := userMessage;
                      ui_response := Some (JStr "Sorry, I encountered an error. Please try again.");
                      ui_context_documents := None;
                      ui_created_at := Some (JStr (toISOString t0)) |})).

(** ** Records as the data model names them *)

Record GuestDocument : Type :=
  { doc_filename : string;
    doc_content : string;
    doc_file_type : string;
    doc_id : string;
    doc_created_at : string }.

(** The object [saveDocument] stores for a document. *)
Definition document_json (d : GuestDocument) : json :=
  JObj [ ("filename", JStr (doc_filename d));
         ("content", JStr (doc_content d));
         ("file_type", JStr (doc_file_type d));
         ("id", JStr (doc_id d));
         ("created_at", JStr (doc_created_at d)) ].

(** A run of [saveDocument] calls, one clock reading each. *)
Fixpoint saveDocuments (calls : list (DocumentData * Clock)) : M (list json) :=
  match calls with
  | [] => ret []
  | (document, t) :: rest =>
      let* created := saveDocument document t in
      let* others := saveDocuments rest in
      ret (created :: others)
  end.

(** ** Notions used to state the facts about the JSON codec *)

Import Json.

Fixpoint all_chars (p : ascii -> bool) (s : string) : bool :=
  match s with
  | EmptyString => true
  | String c r => p c && all_chars p r
  end.

Definition number_literal (lit : string) : bool :=
  all_chars is_numchar lit && is_number lit.

Fixpoint wf (v : json) : bool :=
  match v with
  | JNum lit => number_literal lit
  | JArr items => forallb wf items
  | JObj props => forallb (fun kv => wf (snd kv)) props
  | _ => true
  end.

Definition wf_value (v : option json) : bool :=
  match v with
  | Some x => wf x
  | None => true
  end.

Fixpoint weight (v : json) : nat :=
  match v with
  | JArr items => S (list_sum (map (fun x => S (weight x)) items))
  | JObj props => S (list_sum (map (fun kv => S (weight (snd kv))) props))
  | _ => 1
  end.

Definition stringify_items (items : list json) : string :=
  String.concat "," (map stringify items).

Definition stringify_props (props : list (string * json)) : string :=
  String.concat "," (map (fun kv => quote (fst kv) +:+ ":" +:+ stringify (snd kv)) props).

(** A text that cannot continue a number token. *)
Definition delimited (rest : string) : bool :=
  match rest with
  | EmptyString => true
  | String c _ => negb (is_numchar c)
  end.

Definition reads_back (v : json) : Prop :=
  forall fuel rest, weight v <= fuel -> delimited rest = true ->
    parse_value fuel (stringify v +:+ rest) = Some (v, rest).

(** The first character of a printed value. *)
Definition opens_value (c : ascii) : bool :=
  match c with
  | "n"%char | "t"%char | "f"%char | "034"%char | "["%char | "{"%char | "-"%char => true
  | _ => is_digit c
  end.


(** A piece of text after which the scan of [in_alphabet] is where it
    would be without it. *)
Definition scans_through (p : string) : Prop :=
  forall rest, in_alphabet (p +:+ rest) = in_alphabet rest.

(** ** Notions used to state the facts about the service *)

(** What a read of a collection slot yields: the parsed text of the slot,
    and the empty array when storage is denied, the slot is absent or
    empty, or its text is not JSON. *)
Definition collection (key : string) (st : Storage) : json :=
  if denied st then JArr []
  else
    match items st !! key with
    | Some (String c r) => default (JArr []) (Json.parse (String c r))
    | Some EmptyString | None => JArr []
    end.

(** The store after [setItem key value]. *)
Definition written (key value : string) (st : Storage) : Storage :=
  {| items := <[key := value]> (items st); denied := denied st |}.

(** [doc.id === documentId], false where the access throws. *)
Definition has_id (documentId : string) (doc : json) : bool :=
  match get_prop doc "id" with
  | Ok v => strict_equals_string v documentId
  | Throw _ => false
  end.

Definition is_null (v : json) : bool :=
  match v with
  | JNull => true
  | _ => false
  end.

(** The record [saveDocument] creates in a call. *)
Definition created_document (call : DocumentData * Clock) : GuestDocument :=
  {| doc_filename := data_filename (fst call);
     doc_content := data_content (fst call);
     doc_file_type := data_file_type (fst call);
     doc_id := timestamp_id (snd call);
     doc_created_at := toISOString (snd call) |}.

(** The block of a document in the context blob: a header line naming the
    file, then the content. *)
Definition document_text (d : GuestDocument) : string :=
  "--- Document: " +:+ doc_filename d +:+ " ---" +:+ nl +:+ doc_content d.

(** The [{ id, filename }] pair of a document. *)
Definition document_source (d : GuestDocument) : json :=
  JObj [ ("id", JStr (doc_id d)); ("filename", JStr (doc_filename d)) ].

(** Blocks separated by a blank line. *)
Definition blob (docs : list GuestDocument) : string :=
  String.concat (nl +:+ nl) (map document_text docs).

(** The documents of a collection whose id is in the selection, in the
    order of the collection. *)
Definition selected_of (selection : list string) (docs : list GuestDocument)
  : list GuestDocument :=
  List.filter (fun d => bool_decide (doc_id d ∈ selection)) docs.

(** The decimal numeral with one digit after the point whose value is
    [m / 10], for [0 <= m]. *)
Definition tenths (m : Z) : string :=
  pretty (m / 10)%Z +:+ "." +:+ pretty (m mod 10)%Z.

(** ** Sample data *)

(** A store whose document slot holds the JSON text of an empty object. *)
Definition object_in_slot : Storage :=
  {| items := {[ documentsKey := "{}" ]}; denied := false |}.

Definition notes_txt : DocumentData :=
  {| data_filename := "notes.txt"; data_content := "hello"; data_file_type := "text/plain" |}.

Definition todo_txt : DocumentData :=
  {| data_filename := "todo.txt"; data_content := "milk"; data_file_type := "text/plain" |}.

Definition tick : Clock :=
  {| Date_now := 1700000000000; toISOString := "2023-11-14T22:13:20.000Z" |}.

Definition later : Clock :=
  {| Date_now := 1700000600000; toISOString := "2023-11-14T22:23:20.000Z" |}.

(** Two uploads within one millisecond. *)
Definition same_tick_uploads : list (DocumentData * Clock) :=
  [ (notes_txt, tick); (todo_txt, tick) ].

Definition same_tick_store : Storage := snd (saveDocuments same_tick_uploads emptyStorage).

(** Two uploads ten minutes apart. *)
Definition two_uploads : list (DocumentData * Clock) :=
  [ (notes_txt, tick); (todo_txt, later) ].

Definition two_uploads_store : Storage := snd (saveDocuments two_uploads emptyStorage).

(** A guest session holding the two uploads, hidden at [tick]. *)
Definition guest_store : Storage :=
  written "guestMode" "true" two_uploads_store.

Definition hidden_store : Storage :=
  snd (onVisibilityChange hidden (Date_now tick) guest_store).

(** One document padded to a chosen size. *)
Fixpoint filler (n : nat) : string :=
  match n with
  | O => EmptyString
  | S k => String "a"%char (filler k)
  end.

Definition padded_store (n : nat) : Storage :=
  snd (saveDocument
         {| data_filename := "pad.txt"; data_content := filler n; data_file_type := "text/plain" |}
         tick emptyStorage).


(** A backend that answers with a sentence. *)
Definition hello_answer : Fetch :=
  fun _ _ => Response true (Json.stringify (JObj [ ("response", JStr "It says hello.") ])).




(** The session of the specification's scenario: guest mode on, one
    upload, then "summarize" sent with every document as context. *)
Definition scenario_store : Storage :=
  snd (handleSendMessage hello_answer "summarize" false mode_all [] tick later
         (written "guestMode" "true" (snd (saveDocument notes_txt tick emptyStorage)))).

(** * More of the code

    The rest of [GuestService], the other guest-mode handlers of the
    dashboard page and the session functions of the authentication
    context. *)

(** ** Text extraction ([GuestService.extractTextFromFile]) *)

(** A [File] as the service uses it: its name, its MIME type, and the text
    [FileReader.readAsText] delivers, [None] when reading fails. *)
Record File : Type :=
  { file_name : string; file_type : string; file_text : option string }.

Definition extract_url : string :=
  "https://vaibhavmurarka14.pythonanywhere.com/api/guest/extract-text".

(** [fetch(url, { method: 'POST', body: formData })] with the file in the
    form. *)
Definition FetchFile : Type := string -> File -> FetchOutcome.

(** [toLowerCase] on code units below 256. *)
Definition lower_char (c : ascii) : ascii :=
  let n := Json.code c in
  if (((65 <=? n) && (n <=? 90))
      || ((192 <=? n) && (n <=? 222) && negb (n =? 215)))%N
  then ascii_of_N (n + 32)
  else c.

Fixpoint toLowerCase (s : string) : string :=
  match s with
  | EmptyString => EmptyString
  | String c r => String (lower_char c) (toLowerCase r)
  end.

Fixpoint startsWith (prefix s : string) : bool :=
  match prefix with
  | EmptyString => true
  | String c p =>
      match s with
      | String d r => Ascii.eqb c d && startsWith p r
      | EmptyString => false
      end
  end.

Definition endsWith (suffix s : string) : bool :=
  startsWith (String.rev suffix) (String.rev s).

Definition catch_result {A : Type} (r : result A) (handler : exn -> result A) : result A :=
  match r with
  | Ok a => Ok a
  | Throw e => handler e
  end.

(** The promise around [reader.readAsText(file)]. *)
Definition readAsText (file : File) : result (option json) :=
  match file_text file with
  | Some text => Ok (Some (JStr text))
  | None => Throw (Exn "Error" "Failed to read text file")
  end.

(** [file.type.startsWith('text/') || file.name.toLowerCase().endsWith('.txt')] *)
Definition is_text_file (file : File) : bool :=
  startsWith "text/" (file_type file) || endsWith ".txt" (toLowerCase (file_name file)).

(** The value the returned promise resolves to, or the error it rejects
    with. *)
Definition extractTextFromFile (fetch : FetchFile) (file : File) : result (option json) :=
  catch_result
    (match fetch extract_url file with
     | Rejected error => Throw error
     | Response false _ => Throw (Exn "Error" "Failed to extract text from file")
     | Response true body =>
         match Json.parse body with
         | Some data => get_prop data "extracted_text"
         | None => Throw SyntaxError
         end
     end)
    (fun error =>
       if is_text_file file then readAsText file
       else Ok (Some (JStr ("[Error extracting text from " +:+ file_name file +:+ "]: "
                            +:+ render_error error)))).

(** ** The lists of the dashboard page in guest mode *)

(** An entry of the [documents] state. A number is [option Z], [None] for
    [NaN]. *)
Record UiDocument : Type :=
  { ui_doc_id : option Z;
    ui_doc_filename : option json;
    ui_doc_file_type : option json;
    ui_doc_created_at : option json;
    ui_doc_content_length : option json }.

(** [doc.content.length] *)
Definition content_length_of (content : option json) : result (option json) :=
  match content with
  | Some v => get_length v
  | None => Throw TypeError
  end.

(** The callback of [guestDocs.map] in [loadDocuments]. *)
Definition convert_document (doc : json) : result UiDocument :=
  (let* id := get_prop doc "id" in
   let* filename := get_prop doc "filename" in
   let* file_type := get_prop doc "file_type" in
   let* created_at := get_prop doc "created_at" in
   let* content := get_prop doc "content" in
   let* content_length := content_length_of content in
   Ok {| ui_doc_id := parseInt_value id;
         ui_doc_filename := filename;
         ui_doc_file_type := file_type;
         ui_doc_created_at := created_at;
         ui_doc_content_length := content_length |})%R.

(** [loadDocuments] in guest mode: the list given to [setDocuments], [None]
    when the [catch] is taken and the state is left alone. *)
Definition loadDocuments : M (option (list UiDocument)) :=
  try_catch
    (let* guestDocs := getDocuments in
     let* convertedDocs :=
       lift (let* items := as_array guestDocs in map_result convert_document items)%R in
     ret (Some convertedDocs))
    (fun error => ret None).

(** An entry of the [messages] state as [loadChatHistory] makes it. *)
Record HistoryEntry : Type :=
  { entry_id : option Z;
    entry_user_id : Z;
    entry_message : option json;
    entry_response : option json;
    entry_context_documents : option json;
    entry_created_at : option json }.

(** The callback of [guestHistory.map] in [loadChatHistory]. *)
Definition convert_message (msg : json) : result HistoryEntry :=
  (let* id := get_prop msg "id" in
   let* message := get_prop msg "message" in
   let* answer := get_prop msg "response" in
   let* context_documents := get_prop msg "context_documents" in
   let* created_at := get_prop msg "created_at" in
   Ok {| entry_id := parseInt_value id;
         entry_user_id := -1;
         entry_message := message;
         entry_response := answer;
         entry_context_documents := context_documents;
         entry_created_at := created_at |})%R.

Definition loadChatHistory : M (option (list HistoryEntry)) :=
  try_catch
    (let* guestHistory := getChatHistory in
     let* convertedMessages :=
       lift (let* items := as_array guestHistory in map_result convert_message items)%R in
     ret (Some convertedMessages))
    (fun error => ret None).

(** ** Uploading a file in guest mode ([handleFileUpload]) *)

(** [saveDocument] on a document object given by its own properties, none
    of them named [id] or [created_at]. *)
Definition saveDocumentProps (document : list (string * json)) (t : Clock) : M json :=
  let* documents := getDocuments in
  let created :=
    JObj (document ++ [ ("id", JStr (timestamp_id t)); ("created_at", JStr (toISOString t)) ]) in
  let* documents := lift (push documents created) in
  let* _ := setItem documentsKey (Json.stringify documents) in
  ret created.

(** [file.type || 'unknown'] *)
Definition type_or_unknown (file : File) : string :=
  match file_type file with
  | EmptyString => "unknown"
  | String c r => String c r
  end.

(** [{ filename: file.name, content: extractedText, file_type: file.type || 'unknown' }] *)
Definition upload_props (file : File) (extractedText : option json) : list (string * json) :=
  object_literal
    [ ("filename", Some (JStr (file_name file)));
      ("content", extractedText);
      ("file_type", Some (JStr (type_or_unknown file))) ].

(** The entry added to [messages] after an upload. *)
Definition upload_message (file : File) (t : Clock) : UiMessage :=
  {| ui_id := Some (Date_now t);
     ui_user_id := -1;
     ui_message := "Uploaded document: " +:+ file_name file;
     ui_response :=
       Some (JStr ("Successfully uploaded " +:+ String "034"%char (file_name file)
                   +:+ String "034"%char ". You can now ask questions about this document."));
     ui_context_documents := None;
     ui_created_at := Some (JStr (toISOString t)) |}.

Inductive UploadOutcome : Type :=
| NoFile
| UploadFailed
| Uploaded (listed : option (list UiDocument)) (message : UiMessage).

(** [handleFileUpload] with [isGuestMode] true. [file] is
    [e.target.files?.[0]]; [t] is the clock when the document is saved,
    [t'] when the message is made. [Uploaded listed message] tells what
    [loadDocuments] gave to [setDocuments] and which entry was added to
    [messages]; [UploadFailed] is the [catch], which changes neither. *)
Definition handleFileUpload (fetch : FetchFile) (file : option File) (t t' : Clock)
  : M UploadOutcome :=
  match file with
  | None => ret NoFile
  | Some file =>
      try_catch
        (let* extractedText := lift (extractTextFromFile fetch file) in
         let* _ := saveDocumentProps (upload_props file extractedText) t in
         let* listed := loadDocuments in
         ret (Uploaded listed (upload_message file t')))
        (fun error => ret UploadFailed)
  end.

(** ** Selecting and deleting documents on the page *)

(** SameValueZero on numbers, which [includes] uses: [NaN] is found. *)
Definition same_value_zero (a b : option Z) : bool :=
  match a, b with
  | Some x, Some y => (x =? y)%Z
  | None, None => true
  | _, _ => false
  end.

(** [a !== b] on numbers: [NaN] differs from everything. *)
Definition strict_differs (a b : option Z) : bool :=
  match a, b with
  | Some x, Some y => negb (x =? y)%Z
  | _, _ => true
  end.

(** The updater [handleDocumentSelect] gives to [setSelectedDocuments]. *)
Definition handleDocumentSelect (documentId : option Z) (prev : list (option Z))
  : list (option Z) :=
  if existsb (fun id => same_value_zero id documentId) prev
  then List.filter (fun id => strict_differs id documentId) prev
  else prev ++ [documentId].

(** The part of the page state the document handlers use. *)
Record Page : Type :=
  { page_documents : list UiDocument;
    page_selectedDocuments : list (option Z);
    page_contextMode : ContextMode;
    page_documentToDelete : option (option Z);
    page_isModalOpen : bool }.

Definition initial_page : Page :=
  {| page_documents := [];
     page_selectedDocuments := [];
     page_contextMode := mode_none;
     page_documentToDelete := None;
     page_isModalOpen := false |}.

Definition handleContextModeChange (mode : ContextMode) (page : Page) : Page :=
  {| page_documents := page_documents page;
     page_selectedDocuments :=
       match mode with
       | mode_none | mode_all => []
       | mode_selected => page_selectedDocuments page
       end;
     page_contextMode := mode;
     page_documentToDelete := page_documentToDelete page;
     page_isModalOpen := page_isModalOpen page |}.

Definition handleDeleteDocument (documentId : option Z) (page : Page) : Page :=
  {| page_documents := page_documents page;
     page_selectedDocuments := page_selectedDocuments page;
     page_contextMode := page_contextMode page;
     page_documentToDelete := Some documentId;
     page_isModalOpen := true |}.

(** [!documentToDelete]: [null], [0] and [NaN] are falsy. *)
Definition nothing_to_delete (documentToDelete : option (option Z)) : bool :=
  match documentToDelete with
  | Some (Some z) => (z =? 0)%Z
  | Some None | None => true
  end.

(** The integers that a JavaScript number holds exactly and prints in
    full: up to [Number.MAX_SAFE_INTEGER] in absolute value. *)
Definition safe_integer (z : Z) : bool := (Z.abs z <=? 9007199254740991)%Z.

(** [n.toString()] for a safe integer or [NaN]. (Beyond the safe range
    JavaScript prints the shortest digits that identify the double, and
    switches to exponent form from [1e21]; the facts about
    [confirmDelete] assume [safe_integer].) *)
Definition number_toString (n : option Z) : string :=
  match n with
  | Some z => pretty z
  | None => "NaN"
  end.

(** The two [filter] updates after a successful delete. *)
Definition without_document (documentToDelete : option Z) (page : Page) : Page :=
  {| page_documents :=
       List.filter (fun doc => strict_differs (ui_doc_id doc) documentToDelete)
                   (page_documents page);
     page_selectedDocuments :=
       List.filter (fun id => strict_differs id documentToDelete) (page_selectedDocuments page);
     page_contextMode := page_contextMode page;
     page_documentToDelete := page_documentToDelete page;
     page_isModalOpen := page_isModalOpen page |}.

(** The [finally] block. *)
Definition close_modal (page : Page) : Page :=
  {| page_documents := page_documents page;
     page_selectedDocuments := page_selectedDocuments page;
     page_contextMode := page_contextMode page;
     page_documentToDelete := None;
     page_isModalOpen := false |}.

(** [confirmDelete] with [isGuestMode] true. *)
Definition confirmDelete (page : Page) : M Page :=
  match page_documentToDelete page with
  | Some documentToDelete =>
      if nothing_to_delete (Some documentToDelete) then ret page
      else
        let* page' :=
          try_catch
            (let* success := deleteDocument (number_toString documentToDelete) in
             ret (if success then without_document documentToDelete page else page))
            (fun error => ret page) in
        ret (close_modal page')
  | None => ret page
  end.

(** What the user can do to the selection: the mode radio buttons, the
    check box of a listed document, which is rendered in [selected] mode
    only, and a confirmed delete. *)
Inductive SelectionEvent : Type :=
| ChangeMode (mode : ContextMode)
| Tick (documentId : option Z)
| Deleted (documentId : option Z).

Definition selection_step (event : SelectionEvent) (page : Page) : Page :=
  match event with
  | ChangeMode mode => handleContextModeChange mode page
  | Tick documentId =>
      match page_contextMode page with
      | mode_selected =>
          {| page_documents := page_documents page;
             page_selectedDocuments := handleDocumentSelect documentId (page_selectedDocuments page);
             page_contextMode := page_contextMode page;
             page_documentToDelete := page_documentToDelete page;
             page_isModalOpen := page_isModalOpen page |}
      | _ => page
      end
  | Deleted documentId => without_document documentId page
  end.

Fixpoint selection_run (events : list SelectionEvent) (page : Page) : Page :=
  match events with
  | [] => page
  | event :: rest => selection_run rest (selection_step event page)
  end.

(** ** The session ([AuthProvider]) *)

Record AuthState : Type :=
  { auth_user : json;
    auth_isGuestMode : bool;
    auth_isLoading : bool }.

(** [{ id: -1, email: 'guest@example.com', full_name: 'Guest User' }] *)
Definition guest_user : json :=
  JObj [ ("id", JNum "-1"); ("email", JStr "guest@example.com");
         ("full_name", JStr "Guest User") ].

Definition signed_out : AuthState :=
  {| auth_user := JNull; auth_isGuestMode := false; auth_isLoading := false |}.

Definition guest_session : AuthState :=
  {| auth_user := guest_user; auth_isGuestMode := true; auth_isLoading := false |}.

(** The effect that runs when the provider mounts, from the initial state
    ([user] null, [isGuestMode] false, [isLoading] true). *)
Definition restoreSession : M AuthState :=
  let* token := getItem "token" in
  let* storedUser := getItem "user" in
  let* guestMode := getItem "guestMode" in
  if match guestMode with
     | Some flag => String.eqb flag "true"
     | None => false
     end
  then ret guest_session
  else
    match token, storedUser with
    | Some (String _ _), Some (String c r) =>
        try_catch
          (let* user := JSON_parse (String c r) in
           ret {| auth_user := user; auth_isGuestMode := false; auth_isLoading := false |})
          (fun error =>
             let* _ := removeItem "token" in
             let* _ := removeItem "user" in
             ret signed_out)
    | _, _ => ret signed_out
    end.

Definition enterGuestMode (s : AuthState) : M AuthState :=
  let* _ := setItem "guestMode" "true" in
  ret {| auth_user := guest_user; auth_isGuestMode := true; auth_isLoading := auth_isLoading s |}.

Definition logout (s : AuthState) : M AuthState :=
  let* _ := removeItem "token" in
  let* _ := removeItem "user" in
  let* _ := removeItem "guestMode" in
  let* _ := removeItem "guestDocuments" in
  let* _ := removeItem "guestChatHistory" in
  ret {| auth_user := JNull; auth_isGuestMode := false; auth_isLoading := auth_isLoading s |}.

(** ** A guest session as a run of actions *)

Inductive GuestAction : Type :=
| DoUpload (document : DocumentData) (t : Clock)
| DoDelete (documentId : string)
| DoSend (fetch : Fetch) (inputMessage : string) (isLoading : bool)
         (contextMode : ContextMode) (selectedDocuments : list Z) (t0 t1 : Clock)
| DoHide (now : Z).

(** The store after one action; an exception ends the handler, not the
    session. *)
Definition after_action (action : GuestAction) (st : Storage) : Storage :=
  match action with
  | DoUpload document t => snd (saveDocument document t st)
  | DoDelete documentId => snd (deleteDocument documentId st)
  | DoSend fetch inputMessage isLoading contextMode selectedDocuments t0 t1 =>
      snd (handleSendMessage fetch inputMessage isLoading contextMode selectedDocuments t0 t1 st)
  | DoHide now => snd (onVisibilityChange hidden now st)
  end.

Fixpoint after_actions (actions : list GuestAction) (st : Storage) : Storage :=
  match actions with
  | [] => st
  | action :: rest => after_actions rest (after_action action st)
  end.

(** ** More notions for the facts *)

Definition is_array (v : json) : bool :=
  match v with
  | JArr _ => true
  | _ => false
  end.

(** The keys [clearAllData] removes. *)
Definition guest_keys : list string := [ documentsKey; chatHistoryKey; "guestMode" ].

(** The keys [logout] removes. *)
Definition session_keys : list string :=
  [ "token"; "user"; "guestMode"; "guestDocuments"; "guestChatHistory" ].

(** The store without the given keys. *)
Definition without_keys (keys : list string) (st : Storage) : Storage :=
  {| items := foldr delete (items st) keys; denied := denied st |}.

(** The entry of the page's document list for a stored document. *)
Definition listed_document (d : GuestDocument) : UiDocument :=
  {| ui_doc_id := parseInt (doc_id d);
     ui_doc_filename := Some (JStr (doc_filename d));
     ui_doc_file_type := Some (JStr (doc_file_type d));
     ui_doc_created_at := Some (JStr (doc_created_at d));
     ui_doc_content_length := Some (JNum (pretty (Z.of_nat (String.length (doc_content d))))) |}.

(** The document an upload stores when the extracted text is a string. *)
Definition uploaded_document (file : File) (text : string) (t : Clock) : GuestDocument :=
  {| doc_filename := file_name file;
     doc_content := text;
     doc_file_type := type_or_unknown file;
     doc_id := timestamp_id t;
     doc_created_at := toISOString t |}.

(** The object an upload stores when the extracted text is [undefined]. *)
Definition document_without_content (file : File) (t : Clock) : json :=
  JObj [ ("filename", JStr (file_name file));
         ("file_type", JStr (type_or_unknown file));
         ("id", JStr (timestamp_id t));
         ("created_at", JStr (toISOString t)) ].

(** A shown message as [loadChatHistory] would list it. *)
Definition entry_of (m : UiMessage) : HistoryEntry :=
  {| entry_id := ui_id m;
     entry_user_id := ui_user_id m;
     entry_message := Some (JStr (ui_message m));
     entry_response := ui_response m;
     entry_context_documents := ui_context_documents m;
     entry_created_at := ui_created_at m |}.

(** The entry the [catch] of [handleSendMessage] puts in the last slot. *)
Definition sorry_message (userMessage : string) (t0 : Clock) : UiMessage :=
  {| ui_id := Some (Date_now t0);
     ui_user_id := -1;
     ui_message := userMessage;
     ui_response := Some (JStr "Sorry, I encountered an error. Please try again.");
     ui_context_documents := None;
     ui_created_at := Some (JStr (toISOString t0)) |}.

(** What the backend's reply holds under a key, when the reply is a
    success with a JSON body. *)
Definition reply_field (outcome : FetchOutcome) (key : string) : option (option json) :=
  match outcome with
  | Response true body =>
      match Json.parse body with
      | Some data =>
          match get_prop data key with
          | Ok v => Some v
          | Throw _ => None
          end
      | None => None
      end
  | _ => None
  end.

(** ** More sample data *)

Definition notes_file : File :=
  {| file_name := "Notes.TXT"; file_type := EmptyString; file_text := Some "hello" |}.

Definition scan_file : File :=
  {| file_name := "scan.pdf"; file_type := "application/pdf"; file_text := None |}.

(** An extraction backend that is down. *)
Definition no_extraction : FetchFile :=
  fun _ _ => Response false EmptyString.

Definition unreadable_file : File :=
  {| file_name := "notes.txt"; file_type := "text/plain"; file_text := None |}.

(** An extraction backend that answers with an empty object. *)
Definition empty_extraction : FetchFile :=
  fun _ _ => Response true "{}".

(** A store whose document slot holds text that is not JSON. *)
Definition garbled_store : Storage :=
  {| items := {[ documentsKey := "not json" ]}; denied := false |}.

(** A store holding a login whose user text is damaged. *)
Definition damaged_login_store : Storage :=
  {| items := {[ "token" := "abc"; "user" := "{oops" ]}; denied := false |}.

(** A store that refuses access. *)
Definition denied_store : Storage :=
  {| items := ∅; denied := true |}.

(** A page listing the two uploads, the second one ticked. *)
Definition two_uploads_page : Page :=
  {| page_documents := map listed_document (map created_document two_uploads);
     page_selectedDocuments := [ Some 1700000600000%Z ];
     page_contextMode := mode_selected;
     page_documentToDelete := None;
     page_isModalOpen := false |}.

(** * Facts *)

(** ** The JSON codec *)

Section JsonFacts.

#[local] Arguments String.append : simpl nomatch.

Lemma weight_item_lt x items : In x items -> weight x < weight (JArr items).
Proof.
  simpl. induction items as [ | y ys IH ]; simpl; [ tauto | ].
  intros [ -> | Hin ]; [ lia | specialize (IH Hin); lia ].
Qed.

Lemma weight_prop_lt kv props : In kv props -> weight (snd kv) < weight (JObj props).
Proof.
  simpl. induction props as [ | y ys IH ]; simpl; [ tauto | ].
  intros [ -> | Hin ]; [ lia | specialize (IH Hin); lia ].
Qed.

Lemma json_induction (P : json -> Prop) :
  P JNull -> (forall b, P (JBool b)) -> (forall l, P (JNum l)) -> (forall s, P (JStr s)) ->
  (forall items, Forall P items -> P (JArr items)) ->
  (forall props, Forall (fun kv => P (snd kv)) props -> P (JObj props)) ->
  forall v, P v.
Proof.
  intros Hn Hb Hl Hs Ha Ho v.
  remember (weight v) as n eqn:Hsz.
  revert v Hsz. induction n as [n IH] using lt_wf_ind. intros v ->.
  destruct v as [ | b | l | s | items | props ]; auto.
  - apply Ha, Forall_forall. intros x Hx.
    apply (IH (weight x)); [ apply weight_item_lt, list_elem_of_In, Hx | reflexivity ].
  - apply Ho, Forall_forall. intros kv Hkv.
    apply (IH (weight (snd kv))); [ apply weight_prop_lt, list_elem_of_In, Hkv | reflexivity ].
Qed.

Lemma append_assoc (a b c : string) : (a +:+ b) +:+ c = a +:+ (b +:+ c).
Proof. induction a as [ | x a' IH ]; simpl; [ reflexivity | f_equal; exact IH ]. Qed.

Lemma length_append (a b : string) :
  String.length (a +:+ b) = String.length a + String.length b.
Proof. induction a as [ | x a' IH ]; simpl; [ reflexivity | now rewrite IH ]. Qed.

Lemma append_empty (a : string) : a +:+ EmptyString = a.
Proof. induction a as [ | x a' IH ]; simpl; [ reflexivity | now rewrite IH ]. Qed.

Lemma list_sum_cons a l : list_sum (a :: l) = a + list_sum l.
Proof. reflexivity. Qed.

(** *** String literals *)

Lemma parse_chars_quote_char c r :
  parse_chars (quote_char c +:+ r) = prepend c (parse_chars r).
Proof. destruct c as [[] [] [] [] [] [] [] []]; reflexivity. Qed.

Lemma parse_chars_quote_body s rest :
  parse_chars (quote_body s +:+ String dquote rest) = Some (s, rest).
Proof.
  induction s as [ | c s IH ]; [ reflexivity | ].
  cbn [quote_body]. rewrite append_assoc, parse_chars_quote_char, IH. reflexivity.
Qed.

Lemma quote_app k tail :
  quote k +:+ tail = String dquote (quote_body k +:+ String dquote tail).
Proof. unfold quote. simpl. now rewrite append_assoc. Qed.

(** *** Number tokens *)

Lemma span_spec p s :
  s = fst (span p s) +:+ snd (span p s) /\ all_chars p (fst (span p s)) = true.
Proof.
  induction s as [ | c s IH ]; simpl; [ auto | ].
  destruct (p c) eqn:Hc; [ | auto ].
  destruct (span p s) as [xs rest]; simpl in *.
  destruct IH as [IH1 IH2]. rewrite Hc, IH2. split; [ f_equal; exact IH1 | reflexivity ].
Qed.

Lemma span_app p xs rest :
  all_chars p xs = true ->
  match rest with EmptyString => True | String c _ => p c = false end ->
  span p (xs +:+ rest) = (xs, rest).
Proof.
  intros Hxs Hrest. induction xs as [ | c xs IH ]; simpl in *.
  - destruct rest as [ | c r ]; simpl; [ reflexivity | now rewrite Hrest ].
  - apply andb_prop in Hxs as [Hc Hxs]. rewrite Hc, (IH Hxs). reflexivity.
Qed.

Lemma scan_number_literal lit rest :
  number_literal lit = true -> delimited rest = true ->
  scan_number (lit +:+ rest) = Some (lit, rest).
Proof.
  unfold number_literal, scan_number. intros Hlit Hrest.
  apply andb_prop in Hlit as [Hall Hnum].
  rewrite span_app; [ now rewrite Hnum | exact Hall | ].
  destruct rest as [ | c r ]; [ exact I | ]. simpl in Hrest.
  now apply negb_true_iff in Hrest.
Qed.

Lemma scan_number_sound s lit rest :
  scan_number s = Some (lit, rest) -> number_literal lit = true.
Proof.
  unfold scan_number, number_literal.
  pose proof (span_spec is_numchar s) as [_ Hall].
  destruct (span is_numchar s) as [xs r]; simpl in Hall.
  destruct (is_number xs) eqn:Hnum; [ | discriminate ].
  intros [= <- <-]. now rewrite Hall, Hnum.
Qed.

Lemma number_literal_head lit :
  number_literal lit = true ->
  exists c r, lit = String c r /\ (is_digit c || Ascii.eqb c "-"%char) = true.
Proof.
  unfold number_literal, is_number. intros H. apply andb_prop in H as [_ H].
  destruct lit as [ | c r ]; [ discriminate | ].
  exists c, r. split; [ reflexivity | ].
  destruct (Ascii.eqb c "-"%char) eqn:Hm; [ now rewrite orb_true_r | ].
  rewrite orb_false_r.
  assert (Hu : match String c r with String "-"%char r' => r' | _ => String c r end = String c r).
  { destruct c as [[] [] [] [] [] [] [] []]; try reflexivity; discriminate. }
  rewrite Hu in H. simpl in H.
  destruct (Ascii.eqb c "0"%char) eqn:H0.
  - apply Ascii.eqb_eq in H0 as ->. reflexivity.
  - destruct (is_digit c); [ reflexivity | discriminate ].
Qed.

(** *** Values *)

Lemma opens_value_spec c :
  opens_value c = true ->
  is_ws c = false /\ Ascii.eqb "]"%char c = false /\ Ascii.eqb "}"%char c = false
  /\ Ascii.eqb ","%char c = false.
Proof. destruct c as [[] [] [] [] [] [] [] []]; try discriminate; auto. Qed.

Lemma opens_number c :
  (is_digit c || Ascii.eqb c "-"%char) = true ->
  opens_value c = true
  /\ Ascii.eqb c "n"%char = false /\ Ascii.eqb c "t"%char = false
  /\ Ascii.eqb c "f"%char = false /\ Ascii.eqb c dquote = false
  /\ Ascii.eqb c "["%char = false /\ Ascii.eqb c "{"%char = false.
Proof. destruct c as [[] [] [] [] [] [] [] []]; try discriminate; repeat split. Qed.

Lemma stringify_head v :
  wf v = true -> exists c r, stringify v = String c r /\ opens_value c = true.
Proof.
  destruct v as [ | [] | l | s | items | props ]; simpl; intros H; eauto.
  destruct (number_literal_head l H) as (c & r & -> & Hc).
  exists c, r. split; [ reflexivity | ]. now apply opens_number.
Qed.

Lemma skip_ws_opens c r : opens_value c = true -> skip_ws (String c r) = String c r.
Proof. intros H. apply opens_value_spec in H as [H _]. simpl. now rewrite H. Qed.

Lemma stringify_items_one v : stringify_items [v] = stringify v.
Proof. reflexivity. Qed.

Lemma stringify_items_cons v w ws :
  stringify_items (v :: w :: ws) = stringify v +:+ "," +:+ stringify_items (w :: ws).
Proof. reflexivity. Qed.

Lemma stringify_props_one k v :
  stringify_props [(k, v)] = quote k +:+ ":" +:+ stringify v.
Proof. reflexivity. Qed.

Lemma stringify_props_cons k v p ps :
  stringify_props ((k, v) :: p :: ps)
  = (quote k +:+ ":" +:+ stringify v) +:+ "," +:+ stringify_props (p :: ps).
Proof. reflexivity. Qed.

Lemma stringify_arr_app items rest :
  stringify (JArr items) +:+ rest = String "[" (stringify_items items +:+ String "]" rest).
Proof. cbn [stringify]. fold (stringify_items items). now rewrite !append_assoc. Qed.

Lemma stringify_obj_app props rest :
  stringify (JObj props) +:+ rest = String "{" (stringify_props props +:+ String "}" rest).
Proof. cbn [stringify]. fold (stringify_props props). now rewrite !append_assoc. Qed.

Lemma stringify_items_head v vs tail :
  wf v = true ->
  exists c r, stringify_items (v :: vs) +:+ tail = String c r /\ opens_value c = true.
Proof.
  intros Hv. destruct (stringify_head v Hv) as (c & r & Hr & Hc).
  destruct vs as [ | w ws ].
  - rewrite stringify_items_one, Hr. simpl. eauto.
  - rewrite stringify_items_cons, Hr. simpl. eauto.
Qed.

Lemma stringify_props_head k v ps tail :
  exists r, stringify_props ((k, v) :: ps) +:+ tail = String dquote r.
Proof.
  destruct ps as [ | p ps ].
  - rewrite stringify_props_one, !append_assoc, quote_app. eauto.
  - rewrite stringify_props_cons, !append_assoc, quote_app. eauto.
Qed.

Lemma parse_items_stringify items :
  items <> [] -> Forall reads_back items ->
  forall fuel rest,
    list_sum (map (fun x => S (weight x)) items) <= fuel ->
    parse_items fuel (stringify_items items +:+ String "]" rest) = Some (items, rest).
Proof.
  induction items as [ | v vs IH ]; [ congruence | ].
  intros _ Hrb fuel rest Hfuel.
  apply Forall_cons in Hrb as [Hv Hvs].
  cbn [map] in Hfuel. rewrite list_sum_cons in Hfuel. destruct fuel as [ | fuel ]; [ lia | ].
  destruct vs as [ | w ws ].
  - rewrite stringify_items_one. cbn [parse_items].
    rewrite Hv by (simpl in *; lia || reflexivity). reflexivity.
  - rewrite stringify_items_cons, !append_assoc. cbn [parse_items].
    rewrite Hv by (lia || reflexivity).
    cbn [String.append skip_ws is_ws starts_with Ascii.eqb Bool.eqb].
    rewrite IH; [ reflexivity | congruence | assumption | simpl in *; lia ].
Qed.

Lemma parse_members_stringify props :
  props <> [] -> Forall (fun kv => reads_back (snd kv)) props ->
  forall fuel rest,
    list_sum (map (fun kv => S (weight (snd kv))) props) <= fuel ->
    parse_members fuel (stringify_props props +:+ String "}" rest) = Some (props, rest).
Proof.
  induction props as [ | [k v] ps IH ]; [ congruence | ].
  intros _ Hrb fuel rest Hfuel.
  apply Forall_cons in Hrb as [Hv Hps]. simpl in Hv.
  cbn [map] in Hfuel. rewrite list_sum_cons in Hfuel. simpl snd in Hfuel.
  destruct fuel as [ | fuel ]; [ lia | ].
  destruct ps as [ | p ps' ].
  - rewrite stringify_props_one, !append_assoc, quote_app.
    cbn [parse_members skip_ws is_ws starts_with Ascii.eqb Bool.eqb].
    rewrite parse_chars_quote_body.
    cbn [skip_ws is_ws String.append starts_with Ascii.eqb Bool.eqb].
    rewrite Hv by (simpl in *; lia || reflexivity). reflexivity.
  - rewrite stringify_props_cons, !append_assoc, quote_app.
    cbn [parse_members skip_ws is_ws starts_with Ascii.eqb Bool.eqb].
    rewrite parse_chars_quote_body.
    cbn [skip_ws is_ws String.append starts_with Ascii.eqb Bool.eqb].
    rewrite Hv by (lia || reflexivity).
    cbn [skip_ws is_ws starts_with Ascii.eqb Bool.eqb].
    rewrite IH; [ reflexivity | congruence | assumption | simpl in *; lia ].
Qed.

Lemma parse_value_stringify v : wf v = true -> reads_back v.
Proof.
  induction v as [ | b | l | s | items IH | props IH ] using json_induction;
    intros Hwf fuel rest Hfuel Hrest; simpl in Hfuel; (destruct fuel as [ | fuel ]; [ lia | ]).
  - reflexivity.
  - destruct b; reflexivity.
  - simpl in Hwf. cbn [stringify].
    destruct (number_literal_head l Hwf) as (c & r & Hl & Hc).
    destruct (opens_number c Hc) as (Ho & Hn & Ht & Hf & Hq & Hb & Hbr).
    cbn [parse_value]. rewrite Hl at 1. cbn [String.append]. rewrite skip_ws_opens by exact Ho.
    rewrite Hn, Ht, Hf, Hq, Hb, Hbr.
    change (String c (r +:+ rest)) with (String c r +:+ rest). rewrite <- Hl.
    now rewrite scan_number_literal.
  - cbn [stringify]. rewrite quote_app.
    cbn [parse_value skip_ws is_ws Ascii.eqb Bool.eqb].
    rewrite parse_chars_quote_body. reflexivity.
  - rewrite stringify_arr_app.
    destruct items as [ | v vs ]; [ reflexivity | ].
    simpl in Hwf. apply andb_prop in Hwf as [Hv Hvs].
    cbn [parse_value skip_ws is_ws Ascii.eqb Bool.eqb].
    destruct (stringify_items_head v vs (String "]" rest) Hv) as (c & r & Hr & Hc).
    rewrite Hr at 1. rewrite skip_ws_opens by exact Hc.
    destruct (opens_value_spec c Hc) as (_ & Hb & _). cbn [starts_with]. rewrite Hb.
    rewrite parse_items_stringify; [ reflexivity | congruence | | simpl in *; lia ].
    apply Forall_forall. intros x Hx.
    rewrite Forall_forall in IH. apply IH; [ exact Hx | ].
    apply list_elem_of_In in Hx. destruct Hx as [ <- | Hx ]; [ exact Hv | ].
    rewrite forallb_forall in Hvs. auto.
  - rewrite stringify_obj_app.
    destruct props as [ | [k v] ps ]; [ reflexivity | ].
    simpl in Hwf. apply andb_prop in Hwf as [Hv Hps].
    cbn [parse_value skip_ws is_ws Ascii.eqb Bool.eqb].
    destruct (stringify_props_head k v ps (String "}" rest)) as [r Hr].
    rewrite Hr at 1. cbn [skip_ws is_ws starts_with Ascii.eqb Bool.eqb].
    rewrite parse_members_stringify; [ reflexivity | congruence | | simpl in *; lia ].
    apply Forall_forall. intros x Hx.
    rewrite Forall_forall in IH. apply IH; [ exact Hx | ].
    apply list_elem_of_In in Hx. destruct Hx as [ <- | Hx ]; [ exact Hv | ].
    rewrite forallb_forall in Hps. apply (Hps x Hx).
Qed.

Lemma weight_le_length v : wf v = true -> weight v <= String.length (stringify v).
Proof.
  induction v as [ | b | l | s | items IH | props IH ] using json_induction; intros Hwf.
  - simpl; lia.
  - destruct b; simpl; lia.
  - simpl in Hwf. destruct (number_literal_head l Hwf) as (c & r & -> & _). simpl; lia.
  - simpl; lia.
  - cbn [stringify weight]. rewrite !length_append. cbn [String.length].
    fold (stringify_items items).
    enough (list_sum (map (fun x => S (weight x)) items)
            <= S (String.length (stringify_items items))) by lia.
    cbn [wf] in Hwf. rewrite forallb_forall in Hwf.
    rewrite Forall_forall in IH.
    induction items as [ | x xs IHxs ]; [ simpl; lia | ].
    assert (Hx : weight x <= String.length (stringify x)).
    { apply IH; [ left | apply Hwf; left; reflexivity ]. }
    assert (Hxs : list_sum (map (fun x => S (weight x)) xs)
                  <= S (String.length (stringify_items xs))).
    { apply IHxs; intros y Hy; [ apply IH; now right | apply Hwf; now right ]. }
    destruct xs as [ | y ys ].
    + rewrite stringify_items_one. simpl in *. lia.
    + rewrite stringify_items_cons, !length_append. cbn [map] in *.
      cbn [String.length]. rewrite !list_sum_cons in *. lia.
  - cbn [stringify weight]. rewrite !length_append. cbn [String.length].
    fold (stringify_props props).
    enough (list_sum (map (fun kv => S (weight (snd kv))) props)
            <= S (String.length (stringify_props props))) by lia.
    cbn [wf] in Hwf. rewrite forallb_forall in Hwf.
    rewrite Forall_forall in IH.
    induction props as [ | [k x] xs IHxs ]; [ simpl; lia | ].
    assert (Hx : weight x <= String.length (stringify x)).
    { apply (IH (k, x)); [ left | apply (Hwf (k, x)); left; reflexivity ]. }
    assert (Hxs : list_sum (map (fun kv => S (weight (snd kv))) xs)
                  <= S (String.length (stringify_props xs))).
    { apply IHxs; intros y Hy; [ apply IH; now right | apply Hwf; now right ]. }
    destruct xs as [ | [k' y] ys ].
    + rewrite stringify_props_one, !length_append. simpl in *. lia.
    + rewrite stringify_props_cons, !length_append. cbn [map snd] in *.
      cbn [String.length]. rewrite !list_sum_cons in *. lia.
Qed.

(** Whatever the reader returns is well formed. *)
Lemma parse_fuel_wf fuel :
  (forall s v r, parse_value fuel s = Some (v, r) -> wf v = true)
  /\ (forall s vs r, parse_items fuel s = Some (vs, r) -> forallb wf vs = true)
  /\ (forall s ps r, parse_members fuel s = Some (ps, r) ->
        forallb (fun kv => wf (snd kv)) ps = true).
Proof.
  induction fuel as [ | fuel (IHv & IHi & IHm) ]; [ repeat split; discriminate | ].
  repeat split.
  - intros s v r. cbn [parse_value].
    destruct (skip_ws s) as [ | c t ]; [ discriminate | ].
    repeat match goal with
           | |- context [ if ?b then _ else _ ] => destruct b
           end.
    + destruct (strip "ull" t); simpl; [ | discriminate ]. now intros [= <- _].
    + destruct (strip "rue" t); simpl; [ | discriminate ]. now intros [= <- _].
    + destruct (strip "alse" t); simpl; [ | discriminate ]. now intros [= <- _].
    + destruct (parse_chars t) as [ [x t'] | ]; simpl; [ | discriminate ]. now intros [= <- _].
    + destruct (starts_with "]"%char (skip_ws t)); [ now intros [= <- _] | ].
      destruct (parse_items fuel t) as [ [vs t'] | ] eqn:Hi; simpl; [ | discriminate ].
      intros [= <- _]. simpl. eapply IHi, Hi.
    + destruct (starts_with "}"%char (skip_ws t)); [ now intros [= <- _] | ].
      destruct (parse_members fuel t) as [ [ps t'] | ] eqn:Hm; simpl; [ | discriminate ].
      intros [= <- _]. simpl. eapply IHm, Hm.
    + destruct (scan_number (String c t)) as [ [lit t'] | ] eqn:Hn; simpl; [ | discriminate ].
      intros [= <- _]. simpl. eapply scan_number_sound, Hn.
  - intros s vs r. cbn [parse_items].
    destruct (parse_value fuel s) as [ [v t] | ] eqn:Hv; [ | discriminate ].
    apply IHv in Hv.
    destruct (starts_with ","%char (skip_ws t)) as [ t' | ].
    + destruct (parse_items fuel t') as [ [ws t''] | ] eqn:Hi; simpl; [ | discriminate ].
      intros [= <- _]. simpl. rewrite Hv. eapply IHi, Hi.
    + destruct (starts_with "]"%char (skip_ws t)); simpl; [ | discriminate ].
      intros [= <- _]. simpl. now rewrite Hv.
  - intros s ps r. cbn [parse_members].
    destruct (starts_with "034"%char (skip_ws s)) as [ t | ]; [ | discriminate ].
    destruct (parse_chars t) as [ [k t1] | ]; [ | discriminate ].
    destruct (starts_with ":"%char (skip_ws t1)) as [ t2 | ]; [ | discriminate ].
    destruct (parse_value fuel t2) as [ [v t3] | ] eqn:Hv; [ | discriminate ].
    apply IHv in Hv.
    destruct (starts_with ","%char (skip_ws t3)) as [ t4 | ].
    + destruct (parse_members fuel t4) as [ [qs t5] | ] eqn:Hm; simpl; [ | discriminate ].
      intros [= <- _]. simpl. rewrite Hv. eapply IHm, Hm.
    + destruct (starts_with "}"%char (skip_ws t3)); simpl; [ | discriminate ].
      intros [= <- _]. simpl. now rewrite Hv.
Qed.

Lemma parse_wf s v : parse s = Some v -> wf v = true.
Proof.
  unfold parse.
  destruct (parse_value (S (String.length s)) s) as [ [w r] | ] eqn:Hp; [ | discriminate ].
  destruct (skip_ws r); [ | discriminate ].
  intros [= <-]. eapply (proj1 (parse_fuel_wf _)), Hp.
Qed.

(** [JSON.parse (JSON.stringify v)] gives [v] back. *)
Lemma parse_stringify v : wf v = true -> parse (stringify v) = Some v.
Proof.
  intros Hwf. unfold parse.
  rewrite <- (append_empty (stringify v)) at 2.
  rewrite (parse_value_stringify v Hwf); [ reflexivity | | reflexivity ].
  pose proof (weight_le_length v Hwf). lia.
Qed.

Lemma parse_stringify_parse s v : parse s = Some v -> parse (stringify v) = Some v.
Proof. intros H. apply parse_stringify, (parse_wf s), H. Qed.

End JsonFacts.

(** ** The store and the monad *)

Section StoreFacts.

Lemma setItem_written key value st :
  denied st = false -> setItem key value st = (Ok tt, written key value st).
Proof. intros H. unfold setItem, written. destruct (denied st); [ discriminate | reflexivity ]. Qed.

Lemma setItem_denied key value st :
  denied st = true -> setItem key value st = (Throw SecurityError, st).
Proof. intros H. unfold setItem. now rewrite H. Qed.

Lemma read_collection key st :
  try_catch (let* stored := getItem key in parse_or_empty stored)
            (fun _ => ret (JArr [])) st
  = (Ok (collection key st), st).
Proof.
  unfold try_catch, bind, getItem, collection.
  destruct (denied st); [ reflexivity | ].
  destruct (items st !! key) as [ [ | c r ] | ]; try reflexivity.
  unfold parse_or_empty, JSON_parse.
  destruct (Json.parse (String c r)); reflexivity.
Qed.

Lemma getDocuments_eq st : getDocuments st = (Ok (collection documentsKey st), st).
Proof. apply read_collection. Qed.

Lemma getChatHistory_eq st : getChatHistory st = (Ok (collection chatHistoryKey st), st).
Proof. apply read_collection. Qed.

Lemma collection_wf key st : wf (collection key st) = true.
Proof.
  unfold collection. destruct (denied st); [ reflexivity | ].
  destruct (items st !! key) as [ [ | c r ] | ]; try reflexivity.
  destruct (Json.parse (String c r)) as [ v | ] eqn:Hp; [ | reflexivity ].
  exact (parse_wf _ _ Hp).
Qed.

Lemma collection_written key v st :
  denied st = false -> wf v = true ->
  collection key (written key (Json.stringify v) st) = v.
Proof.
  intros Hd Hv. unfold collection, written. simpl. rewrite Hd, lookup_insert_eq.
  destruct (stringify_head v Hv) as (c & r & Hs & _).
  rewrite Hs, <- Hs, (parse_stringify v Hv). reflexivity.
Qed.

Lemma collection_written_other key key' value st :
  key <> key' -> collection key' (written key value st) = collection key' st.
Proof.
  intros Hne. unfold collection, written. simpl.
  now rewrite lookup_insert_ne.
Qed.

End StoreFacts.

(** ** Documents *)

Section DocumentFacts.

Lemma filter_result_id_differs documentId docs :
  Forall (fun d => is_null d = false) docs ->
  filter_result (id_differs documentId) docs
  = Ok (List.filter (fun d => negb (has_id documentId d)) docs).
Proof.
  induction 1 as [ | d ds Hd _ IH ]; [ reflexivity | ].
  cbn [filter_result List.filter]. rewrite IH.
  unfold id_differs, has_id.
  destruct d; try discriminate; simpl; reflexivity.
Qed.

Lemma find_result_id_equals documentId docs :
  Forall (fun d => is_null d = false) docs ->
  Forall (fun d => has_id documentId d = false) docs ->
  find_result (id_equals documentId) docs = Ok None.
Proof.
  induction 1 as [ | d ds Hd _ IH ]; [ reflexivity | ].
  intros Hids. apply Forall_cons in Hids as [Hid Hids].
  cbn [find_result]. unfold id_equals, has_id in *.
  destruct d; try discriminate; simpl in *; try (now apply IH).
  rewrite Hid. now apply IH.
Qed.

Lemma filter_keeps_non_null (p : json -> bool) docs :
  Forall (fun d => is_null d = false) docs ->
  Forall (fun d => is_null d = false) (List.filter p docs).
Proof.
  induction 1 as [ | d ds Hd _ IH ]; simpl; [ constructor | ].
  destruct (p d); [ constructor | ]; assumption.
Qed.

Lemma filter_drops_id documentId docs :
  Forall (fun d => has_id documentId d = false)
         (List.filter (fun d => negb (has_id documentId d)) docs).
Proof.
  induction docs as [ | d ds IH ]; simpl; [ constructor | ].
  destruct (has_id documentId d) eqn:Hd; simpl; [ exact IH | now constructor ].
Qed.

Lemma filter_without_id documentId docs :
  Forall (fun d => has_id documentId d = false) docs ->
  List.filter (fun d => negb (has_id documentId d)) docs = docs.
Proof.
  induction 1 as [ | d ds Hd _ IH ]; simpl; [ reflexivity | ].
  now rewrite Hd, IH.
Qed.

Lemma wf_items_app xs ys :
  wf (JArr xs) = true -> wf (JArr ys) = true -> wf (JArr (xs ++ ys)) = true.
Proof. simpl. rewrite forallb_app. now intros -> ->. Qed.

Lemma wf_items_filter (p : json -> bool) xs :
  wf (JArr xs) = true -> wf (JArr (List.filter p xs)) = true.
Proof.
  simpl. rewrite !forallb_forall. intros H x Hx.
  apply filter_In in Hx as [Hx _]. now apply H.
Qed.

(** [deleteDocument] on a readable store holding an array without
    [null]: the write happens and the answer is [true]. *)
Lemma deleteDocument_array documentId st docs :
  denied st = false ->
  collection documentsKey st = JArr docs ->
  Forall (fun d => is_null d = false) docs ->
  deleteDocument documentId st
  = (Ok true,
     written documentsKey
       (Json.stringify (JArr (List.filter (fun d => negb (has_id documentId d)) docs))) st).
Proof.
  intros Hd Hc Hnn. unfold deleteDocument, try_catch, bind, lift.
  rewrite getDocuments_eq, Hc. cbn [as_array result_bind].
  rewrite (filter_result_id_differs _ _ Hnn), (setItem_written _ _ _ Hd). reflexivity.
Qed.

Lemma deleteDocument_denied documentId st :
  denied st = true -> deleteDocument documentId st = (Ok false, st).
Proof.
  intros Hd. unfold deleteDocument, try_catch, bind, lift.
  rewrite getDocuments_eq. unfold collection. rewrite Hd. cbn.
  now rewrite (setItem_denied _ _ _ Hd).
Qed.

Lemma getDocument_absent documentId st docs :
  collection documentsKey st = JArr docs ->
  Forall (fun d => is_null d = false) docs ->
  Forall (fun d => has_id documentId d = false) docs ->
  getDocument documentId st = (Ok JNull, st).
Proof.
  intros Hc Hnn Hids. unfold getDocument, bind, lift.
  rewrite getDocuments_eq, Hc. cbn [as_array result_bind].
  now rewrite (find_result_id_equals _ _ Hnn Hids).
Qed.

Lemma saveDocument_array document t st docs :
  denied st = false ->
  collection documentsKey st = JArr docs ->
  saveDocument document t st
  = (Ok (newDocument document t),
     written documentsKey (Json.stringify (JArr (docs ++ [newDocument document t]))) st).
Proof.
  intros Hd Hc. unfold saveDocument, bind, lift.
  rewrite getDocuments_eq, Hc. cbn [push as_array result_bind].
  now rewrite (setItem_written _ _ _ Hd).
Qed.

Lemma newDocument_wf document t : wf (newDocument document t) = true.
Proof. reflexivity. Qed.

Lemma collection_array_wf key st docs :
  collection key st = JArr docs -> wf (JArr docs) = true.
Proof. intros <-. apply collection_wf. Qed.

End DocumentFacts.

(** * The claims *)

(** ** Reading never fails (C5) *)

(** One call to either reader: the result of the [try] block with its
    [catch]. *)
Lemma collection_cases key st :
  (denied st = true \/ items st !! key = None \/ items st !! key = Some EmptyString
   \/ (exists s, items st !! key = Some s /\ Json.parse s = None) ->
   collection key st = JArr [])
  /\ (forall s v, denied st = false -> items st !! key = Some s -> Json.parse s = Some v ->
        collection key st = v).
Proof.
  unfold collection. split.
  - intros [ -> | [ -> | [ -> | (s & -> & Hs) ] ] ]; try reflexivity;
      destruct (denied st); try reflexivity.
    destruct s as [ | c r ]; [ reflexivity | now rewrite Hs ].
  - intros s v -> -> Hs. destruct s as [ | c r ]; [ discriminate | now rewrite Hs ].
Qed.

(** What the readers do in every state (the part of C5 that holds, and
    what happens instead of the part that fails). [getDocuments] and
    [getChatHistory] never throw and never change the store. They return
    the empty array when storage is denied, when the slot is absent or
    holds the empty string, and when its text, taken within the alphabet
    of the JSON reader, is not JSON; when the text is JSON they return
    what [JSON.parse] makes of it, whatever its shape. *)
Theorem readers_never_throw (st : Storage) :
  exists documents history,
    getDocuments st = (Ok documents, st)
    /\ getChatHistory st = (Ok history, st)
    /\ (denied st = true -> documents = JArr [] /\ history = JArr [])
    /\ (items st !! documentsKey = None \/ items st !! documentsKey = Some EmptyString
        \/ (exists s, items st !! documentsKey = Some s
                      /\ Json.in_alphabet s = true /\ Json.parse s = None) ->
        documents = JArr [])
    /\ (items st !! chatHistoryKey = None \/ items st !! chatHistoryKey = Some EmptyString
        \/ (exists s, items st !! chatHistoryKey = Some s
                      /\ Json.in_alphabet s = true /\ Json.parse s = None) ->
        history = JArr [])
    /\ (forall s v, denied st = false -> items st !! documentsKey = Some s ->
          Json.parse s = Some v -> documents = v)
    /\ (forall s v, denied st = false -> items st !! chatHistoryKey = Some s ->
          Json.parse s = Some v -> history = v).
Proof.
  exists (collection documentsKey st), (collection chatHistoryKey st).
  destruct (collection_cases documentsKey st) as [Hd1 Hd2].
  destruct (collection_cases chatHistoryKey st) as [Hh1 Hh2].
  split; [ apply getDocuments_eq | ]. split; [ apply getChatHistory_eq | ].
  split; [ intros Hd; split; [ apply Hd1 | apply Hh1 ]; now left | ].
  split; [ | split; [ | split; [ exact Hd2 | exact Hh2 ] ] ].
  - intros [ H | [ H | (s & Hs & _ & Hp) ] ]; apply Hd1; eauto 6.
  - intros [ H | [ H | (s & Hs & _ & Hp) ] ]; apply Hh1; eauto 6.
Qed.

(** C5 fails on the code: with a value in the slot that is JSON but not
    an array, [getDocuments] returns that value, not an empty sequence,
    against the array its own signature and documentation promise. *)
Lemma getDocuments_returns_foreign_value :
  getDocuments object_in_slot = (Ok (JObj []), object_in_slot)
  /\ fst (getDocuments object_in_slot) <> Ok (JArr []).
Proof. split; [ vm_compute; reflexivity | vm_compute; discriminate ]. Qed.

(** On that store the document slot reads as the object it holds and the
    absent history slot reads as empty. *)
Lemma readers_never_throw_witness :
  exists documents history,
    getDocuments object_in_slot = (Ok documents, object_in_slot)
    /\ getChatHistory object_in_slot = (Ok history, object_in_slot)
    /\ documents = JObj [] /\ history = JArr [].
Proof.
  destruct (readers_never_throw object_in_slot)
    as (documents & history & Hd & Hh & _ & _ & Hempty & Hparsed & _).
  exists documents, history. repeat split; try assumption.
  - apply (Hparsed "{}"); vm_compute; reflexivity.
  - apply Hempty. left. vm_compute. reflexivity.
Defined.

(** ** The two collections are independent (C9) *)

Lemma saveDocument_effect document t st :
  snd (saveDocument document t st) = st
  \/ exists value, snd (saveDocument document t st) = written documentsKey value st.
Proof.
  unfold saveDocument, bind, lift. rewrite getDocuments_eq.
  destruct (push (collection documentsKey st) (newDocument document t)) as [ docs | e ];
    [ | now left ].
  unfold setItem, written. destruct (denied st); [ now left | right; eauto ].
Qed.

Lemma deleteDocument_effect documentId st :
  snd (deleteDocument documentId st) = st
  \/ exists value, snd (deleteDocument documentId st) = written documentsKey value st.
Proof.
  unfold deleteDocument, try_catch, bind, lift. rewrite getDocuments_eq.
  match goal with
  | |- context [ result_bind ?a ?k ] => destruct (result_bind a k) as [ kept | e ]
  end; [ | now left ].
  unfold setItem, written. destruct (denied st); [ now left | right; eauto ].
Qed.

Lemma saveChatMessage_effect message t st :
  snd (saveChatMessage message t st) = st
  \/ exists value, snd (saveChatMessage message t st) = written chatHistoryKey value st.
Proof.
  unfold saveChatMessage, bind, lift. rewrite getChatHistory_eq.
  destruct (push (collection chatHistoryKey st) (newMessage message t)) as [ msgs | e ];
    [ | now left ].
  unfold setItem, written. destruct (denied st); [ now left | right; eauto ].
Qed.

Lemma written_frame key value st key' :
  key' = key \/ items (written key value st) !! key' = items st !! key'.
Proof.
  destruct (decide (key' = key)) as [ -> | Hne ]; [ now left | right ].
  unfold written. simpl. now rewrite lookup_insert_ne.
Qed.

(** C9. In every storage state, [saveDocument] and [deleteDocument] leave
    the [guestChatHistory] slot as it was, and [saveChatMessage] leaves the
    [guestDocuments] slot as it was; more generally each of them changes no
    slot other than the one of its own collection. *)
Theorem collections_independent (st : Storage) (document : DocumentData)
    (message : MessageData) (documentId : string) (t : Clock) (key : string) :
  items (snd (saveDocument document t st)) !! chatHistoryKey = items st !! chatHistoryKey
  /\ items (snd (deleteDocument documentId st)) !! chatHistoryKey = items st !! chatHistoryKey
  /\ items (snd (saveChatMessage message t st)) !! documentsKey = items st !! documentsKey
  /\ (key = documentsKey
      \/ items (snd (saveDocument document t st)) !! key = items st !! key
         /\ items (snd (deleteDocument documentId st)) !! key = items st !! key)
  /\ (key = chatHistoryKey
      \/ items (snd (saveChatMessage message t st)) !! key = items st !! key).
Proof.
  assert (Hframe : forall own other st', 
            st' = st \/ (exists value, st' = written own value st) ->
            other = own \/ items st' !! other = items st !! other).
  { intros own other st' [ -> | [value ->] ]; [ now right | apply written_frame ]. }
  pose proof (saveDocument_effect document t st) as Hs.
  pose proof (deleteDocument_effect documentId st) as Hdel.
  pose proof (saveChatMessage_effect message t st) as Hm.
  repeat split.
  - destruct (Hframe documentsKey chatHistoryKey _ Hs); [ discriminate | assumption ].
  - destruct (Hframe documentsKey chatHistoryKey _ Hdel); [ discriminate | assumption ].
  - destruct (Hframe chatHistoryKey documentsKey _ Hm); [ discriminate | assumption ].
  - destruct (Hframe documentsKey key _ Hs) as [ | H1 ]; [ now left | ].
    destruct (Hframe documentsKey key _ Hdel) as [ | H2 ]; [ now left | now right ].
  - apply (Hframe chatHistoryKey key _ Hm).
Qed.

(** ** Deleting a document (C7, C10) *)

(** C7. [deleteDocument] answers whether the write went through, not
    whether a record matched: on a store that refuses access it answers
    [false]; on a readable store holding a collection it writes the
    filtered collection and answers [true] whether or not some document
    has the given id, and when none has, the collection read back is the
    one that was there. *)
Theorem deleteDocument_absent_id (st : Storage) (docs : list json) (documentId : string) :
  (denied st = true -> deleteDocument documentId st = (Ok false, st))
  /\ (denied st = false ->
      getDocuments st = (Ok (JArr docs), st) ->
      Forall (fun d => is_null d = false) docs ->
      exists st',
        deleteDocument documentId st = (Ok true, st')
        /\ items st' !! documentsKey
           = Some (Json.stringify (JArr (List.filter (fun d => negb (has_id documentId d)) docs)))
        /\ (Forall (fun d => has_id documentId d = false) docs ->
            getDocuments st' = (Ok (JArr docs), st'))).
Proof.
  split; [ apply deleteDocument_denied | ].
  intros Hd Hget Hnn. rewrite getDocuments_eq in Hget.
  assert (Hc : collection documentsKey st = JArr docs) by congruence.
  eexists. split; [ apply (deleteDocument_array _ _ _ Hd Hc Hnn) | ].
  split; [ unfold written; simpl; apply lookup_insert_eq | ].
  intros Hids. rewrite getDocuments_eq, (filter_without_id _ _ Hids).
  rewrite collection_written; [ reflexivity | exact Hd | ].
  exact (collection_array_wf _ _ _ Hc).
Qed.

(** C10. On a readable store holding a collection, [deleteDocument]
    leaves exactly the documents whose id differs from the given one, in
    their stored order (every occurrence of the id goes), and afterwards
    [getDocument] for that id returns [null]. *)
Theorem deleteDocument_removes_all (st : Storage) (docs : list json) (documentId : string) :
  denied st = false ->
  getDocuments st = (Ok (JArr docs), st) ->
  Forall (fun d => is_null d = false) docs ->
  exists st',
    deleteDocument documentId st = (Ok true, st')
    /\ getDocuments st'
       = (Ok (JArr (List.filter (fun d => negb (has_id documentId d)) docs)), st')
    /\ Forall (fun d => has_id documentId d = false)
              (List.filter (fun d => negb (has_id documentId d)) docs)
    /\ getDocument documentId st' = (Ok JNull, st').
Proof.
  intros Hd Hget Hnn. rewrite getDocuments_eq in Hget.
  assert (Hc : collection documentsKey st = JArr docs) by congruence.
  pose proof (collection_array_wf _ _ _ Hc) as Hwf.
  set (kept := List.filter (fun d => negb (has_id documentId d)) docs).
  assert (Hc' : collection documentsKey (written documentsKey (Json.stringify (JArr kept)) st)
                = JArr kept).
  { apply collection_written; [ exact Hd | apply wf_items_filter, Hwf ]. }
  eexists. split; [ apply (deleteDocument_array _ _ _ Hd Hc Hnn) | ].
  fold kept. split; [ now rewrite getDocuments_eq, Hc' | ].
  split; [ apply filter_drops_id | ].
  apply (getDocument_absent _ _ kept Hc').
  - apply filter_keeps_non_null, Hnn.
  - apply filter_drops_id.
Qed.

(** ** Saving documents (C2) *)

Lemma newDocument_created call :
  newDocument (fst call) (snd call) = document_json (created_document call).
Proof. reflexivity. Qed.

Lemma document_json_wf d : wf (document_json d) = true.
Proof. reflexivity. Qed.

Lemma documents_wf docs : wf (JArr (map document_json docs)) = true.
Proof. simpl. induction docs as [ | d ds IH ]; [ reflexivity | exact IH ]. Qed.

Lemma saveDocuments_from calls : forall st docs,
  denied st = false ->
  collection documentsKey st = JArr docs ->
  exists st',
    saveDocuments calls st = (Ok (map document_json (map created_document calls)), st')
    /\ denied st' = false
    /\ collection documentsKey st'
       = JArr (docs ++ map document_json (map created_document calls)).
Proof.
  induction calls as [ | [document t] calls IH ]; intros st docs Hd Hc.
  - exists st. rewrite app_nil_r. auto.
  - pose proof (collection_array_wf _ _ _ Hc) as Hwf.
    set (created := document_json (created_document (document, t))).
    set (st1 := written documentsKey (Json.stringify (JArr (docs ++ [created]))) st).
    assert (Hc1 : collection documentsKey st1 = JArr (docs ++ [created])).
    { apply collection_written; [ exact Hd | ].
      apply wf_items_app; [ exact Hwf | reflexivity ]. }
    destruct (IH st1 (docs ++ [created]) Hd Hc1) as (st' & Hrun & Hd' & Hc').
    exists st'. cbn [saveDocuments]. unfold bind at 1.
    rewrite (saveDocument_array _ _ _ _ Hd Hc).
    change (newDocument document t) with created. fold st1.
    unfold bind at 1. rewrite Hrun. cbn [map]. fold created.
    repeat split; [ exact Hd' | ]. now rewrite Hc', <- app_assoc.
Qed.

Lemma timestamp_id_inj : Inj (=) (=) (fun t : Z => pretty t).
Proof. apply _. Qed.

(** Order and ids of a run of uploads (the part of C2 that holds, and
    the exact condition for the part that fails). A run of [saveDocument]
    calls from empty storage never throws; [getDocuments] then returns the
    created documents in the order of the calls; and their ids are
    pairwise distinct exactly when the clock readings of the calls are. *)
Theorem saveDocuments_in_order (calls : list (DocumentData * Clock)) :
  exists st',
    saveDocuments calls emptyStorage
    = (Ok (map document_json (map created_document calls)), st')
    /\ getDocuments st' = (Ok (JArr (map document_json (map created_document calls))), st')
    /\ (NoDup (map doc_id (map created_document calls))
        <-> NoDup (map (fun call => Date_now (snd call)) calls)).
Proof.
  destruct (saveDocuments_from calls emptyStorage [] eq_refl eq_refl) as (st' & Hrun & _ & Hc).
  exists st'. split; [ exact Hrun | ]. split; [ now rewrite getDocuments_eq, Hc | ].
  assert (Hids : map doc_id (map created_document calls)
                 = (fun t : Z => pretty t) <$> map (fun call => Date_now (snd call)) calls).
  { clear. induction calls as [ | call calls IH ]; [ reflexivity | ].
    cbn [map fmap list_fmap]. f_equal. exact IH. }
  rewrite Hids. split.
  - apply NoDup_fmap_1.
  - apply NoDup_fmap_2, timestamp_id_inj.
Qed.

(** C2 fails on the code: two calls that read the same millisecond create
    two documents with one id, although the service documents the id as
    unique. *)
Lemma same_tick_same_id :
  let a := created_document (notes_txt, tick) in
  let b := created_document (todo_txt, tick) in
  saveDocuments same_tick_uploads emptyStorage
  = (Ok [document_json a; document_json b], same_tick_store)
  /\ getDocuments same_tick_store = (Ok (JArr [document_json a; document_json b]), same_tick_store)
  /\ doc_filename a <> doc_filename b
  /\ doc_id a = doc_id b
  /\ ~ NoDup (map doc_id [a; b]).
Proof.
  intros a b. split; [ | split; [ | split; [ | split ] ] ].
  - vm_compute. reflexivity.
  - vm_compute. reflexivity.
  - vm_compute. discriminate.
  - reflexivity.
  - vm_compute. intros H. apply NoDup_cons in H as [H _]. apply H. left.
Qed.

Lemma saveDocuments_in_order_witness :
  exists st',
    saveDocuments two_uploads emptyStorage
    = (Ok (map document_json (map created_document two_uploads)), st')
    /\ getDocuments st' = (Ok (JArr (map document_json (map created_document two_uploads))), st')
    /\ NoDup (map doc_id (map created_document two_uploads)).
Proof.
  destruct (saveDocuments_in_order two_uploads) as (st' & Hrun & Hget & Hids).
  exists st'. repeat split; try assumption.
  apply Hids. cbn [two_uploads map snd Date_now tick later].
  apply NoDup_cons. split; [ | apply NoDup_singleton ].
  rewrite list_elem_of_singleton. discriminate.
Defined.

(** ** Context assembly (C3, C4) *)

Section ContextFacts.

Lemma map_result_blocks docs :
  map_result document_block (map document_json docs) = Ok (map document_text docs).
Proof.
  induction docs as [ | d ds IH ]; [ reflexivity | ].
  cbn [map map_result]. rewrite IH. reflexivity.
Qed.

Lemma map_result_sources docs :
  map_result context_source (map document_json docs) = Ok (map document_source docs).
Proof.
  induction docs as [ | d ds IH ]; [ reflexivity | ].
  cbn [map map_result]. rewrite IH. reflexivity.
Qed.

Lemma context_of_documents docs :
  context_of (map document_json docs) = Ok (blob docs, map document_source docs).
Proof.
  unfold context_of. rewrite map_result_blocks, map_result_sources. reflexivity.
Qed.

Lemma includes_string selection s :
  includes selection (Some (JStr s)) = bool_decide (s ∈ selection).
Proof.
  unfold includes. induction selection as [ | x xs IH ]; [ reflexivity | ].
  cbn [existsb strict_equals_string]. rewrite IH.
  destruct (String.eqb_spec s x) as [ -> | Hne ]; simpl.
  - symmetry. apply bool_decide_eq_true. left.
  - apply eq_true_iff_eq. rewrite !bool_decide_eq_true.
    rewrite elem_of_cons. tauto.
Qed.

Lemma filter_result_selected selection docs :
  filter_result (is_selected selection) (map document_json docs)
  = Ok (map document_json (selected_of selection docs)).
Proof.
  induction docs as [ | d ds IH ]; [ reflexivity | ].
  cbn [map filter_result]. rewrite IH.
  unfold is_selected, selected_of. cbn [document_json get_prop result_bind List.filter].
  change (lookup_prop "id" _) with (Some (JStr (doc_id d))).
  rewrite includes_string. destruct (bool_decide (doc_id d ∈ selection)); reflexivity.
Qed.

Lemma assembleContext_all st docs selectedDocuments :
  collection documentsKey st = JArr (map document_json docs) ->
  assembleContext selectedDocuments (Some true) st
  = (Ok (blob docs, map document_source docs), st).
Proof.
  intros Hc. unfold assembleContext, bind, lift. cbn [from_option id].
  rewrite getDocuments_eq, Hc. cbn [as_array result_bind].
  now rewrite context_of_documents.
Qed.

Lemma selected_of_nil docs : selected_of [] docs = [].
Proof.
  unfold selected_of. induction docs as [ | d ds IH ]; [ reflexivity | ].
  cbn [List.filter]. rewrite bool_decide_eq_false_2 by apply not_elem_of_nil. exact IH.
Qed.

Lemma assembleContext_selected st docs selection useAllDocuments :
  default false useAllDocuments = false ->
  collection documentsKey st = JArr (map document_json docs) ->
  assembleContext (Some selection) useAllDocuments st
  = (Ok (blob (selected_of selection docs), map document_source (selected_of selection docs)),
     st).
Proof.
  intros Hall Hc. unfold assembleContext. rewrite Hall.
  destruct selection as [ | first others ]; [ now rewrite selected_of_nil | ].
  unfold bind, lift. rewrite getDocuments_eq, Hc. cbn [as_array result_bind].
  rewrite filter_result_selected. cbn [result_bind].
  now rewrite context_of_documents.
Qed.

Lemma assembleContext_reads selectedDocuments useAllDocuments st :
  snd (assembleContext selectedDocuments useAllDocuments st) = st.
Proof.
  unfold assembleContext, bind, lift.
  destruct (default false useAllDocuments).
  - now rewrite getDocuments_eq.
  - destruct selectedDocuments as [ [ | first others ] | ]; try reflexivity.
    now rewrite getDocuments_eq.
Qed.

Lemma generateAIResponse_answered fetch message selectedDocuments useAllDocuments st
    context sources body data :
  assembleContext selectedDocuments useAllDocuments st = (Ok (context, sources), st) ->
  fetch chat_url (chat_body message context sources) = Response true body ->
  Json.parse body = Some data ->
  is_null data = false ->
  exists answer,
    get_prop data "response" = Ok answer
    /\ generateAIResponse fetch message selectedDocuments useAllDocuments st
       = (Ok {| response := answer;
                context_used := negb (length sources =? 0)%nat;
                context_sources := sources |}, st).
Proof.
  intros Hctx Hfetch Hbody Hdata.
  assert (Hget : exists answer, get_prop data "response" = Ok answer).
  { destruct data; try discriminate; simpl; eauto. }
  destruct Hget as [answer Hanswer]. exists answer. split; [ exact Hanswer | ].
  unfold generateAIResponse, try_catch, bind at 1. rewrite Hctx, Hfetch.
  unfold bind, JSON_parse, lift. rewrite Hbody. cbn [ret]. now rewrite Hanswer.
Qed.

End ContextFacts.

(** C3. With [useAllDocuments] set, the context blob is the blocks of all
    stored documents, one per document and in stored order, each a header
    line [--- Document: <filename> ---] followed by the content, blocks
    separated by a blank line; the source list is the [{ id, filename }]
    pairs of all documents in the same order. That blob and list are what
    the request to the backend carries, and when the backend answers, the
    list is returned as [context_sources]. *)
Theorem context_all_documents (st : Storage) (docs : list GuestDocument)
    (selectedDocuments : option (list string)) :
  getDocuments st = (Ok (JArr (map document_json docs)), st) ->
  assembleContext selectedDocuments (Some true) st
  = (Ok (String.concat (nl +:+ nl) (map document_text docs), map document_source docs), st)
  /\ (forall (fetch : Fetch) message body data,
        fetch chat_url
              (chat_body message (String.concat (nl +:+ nl) (map document_text docs))
                         (map document_source docs))
        = Response true body ->
        Json.parse body = Some data ->
        is_null data = false ->
        exists answer,
          generateAIResponse fetch message selectedDocuments (Some true) st = (Ok answer, st)
          /\ context_sources answer = map document_source docs
          /\ context_used answer = negb (length docs =? 0)%nat).
Proof.
  intros Hget. rewrite getDocuments_eq in Hget.
  assert (Hc : collection documentsKey st = JArr (map document_json docs)) by congruence.
  pose proof (assembleContext_all st docs selectedDocuments Hc) as Hctx.
  split; [ exact Hctx | ].
  intros fetch message body data Hfetch Hbody Hdata.
  destruct (generateAIResponse_answered fetch message _ _ st _ _ body data Hctx Hfetch Hbody Hdata)
    as (answer & _ & Hrun).
  eexists. split; [ exact Hrun | ]. split; [ reflexivity | ].
  cbn [context_used]. now rewrite length_map.
Qed.

(** C4. Without [useAllDocuments], a selection [S] gives the blob and the
    source list of exactly the stored documents whose id is in [S], in
    stored order and with the framing of C3; with the empty selection both
    are empty, in every storage state. *)
Theorem context_selected_documents (st : Storage) (docs : list GuestDocument)
    (selection : list string) (useAllDocuments : option bool) :
  default false useAllDocuments = false ->
  getDocuments st = (Ok (JArr (map document_json docs)), st) ->
  assembleContext (Some selection) useAllDocuments st
  = (Ok (String.concat (nl +:+ nl) (map document_text (selected_of selection docs)),
         map document_source (selected_of selection docs)), st)
  /\ (forall d, d ∈ selected_of selection docs <-> d ∈ docs /\ doc_id d ∈ selection)
  /\ (forall st0, assembleContext (Some []) useAllDocuments st0 = (Ok (EmptyString, []), st0))
  /\ (selection = [] -> selected_of selection docs = []).
Proof.
  intros Hall Hget. rewrite getDocuments_eq in Hget.
  assert (Hc : collection documentsKey st = JArr (map document_json docs)) by congruence.
  split; [ exact (assembleContext_selected st docs selection useAllDocuments Hall Hc) | ].
  split; [ | split ].
  - intros d. unfold selected_of. split.
    + intros H%list_elem_of_In%filter_In. destruct H as [H1 H2].
      split; [ now apply list_elem_of_In | now apply bool_decide_eq_true in H2 ].
    + intros [H1 H2]. apply list_elem_of_In, filter_In.
      split; [ now apply list_elem_of_In | now apply bool_decide_eq_true ].
  - intros st0. unfold assembleContext. now rewrite Hall.
  - intros ->. apply selected_of_nil.
Qed.

(** ** Expiry on resume (C6) *)

Lemma isGuestMode_active st :
  denied st = false -> items st !! "guestMode" = Some "true" ->
  isGuestMode st = (Ok true, st).
Proof. intros Hd Hg. unfold isGuestMode, bind, getItem. now rewrite Hd, Hg. Qed.

Lemma clearAllData_cleared st :
  denied st = false ->
  clearAllData st
  = (Ok tt, {| items := delete "guestMode" (delete chatHistoryKey (delete documentsKey (items st)));
               denied := false |}).
Proof.
  intros Hd. unfold clearAllData, bind, removeItem. simpl. rewrite Hd. reflexivity.
Qed.

(** C6. With guest mode active and a last-hidden timestamp in storage,
    the resume transition compares the time elapsed since that timestamp
    with 30 minutes ([30 * 60 * 1000] ms): beyond it, both collections and
    the guest-mode flag are removed and the page is reloaded; at 30
    minutes or less nothing is cleared and the store is left as it was. *)
Theorem resume_expiry (st : Storage) (now : Z) (lastActive : string) (hiddenAt : Z) :
  denied st = false ->
  items st !! "guestMode" = Some "true" ->
  items st !! "guestModeLastActive" = Some lastActive ->
  parseInt lastActive = Some hiddenAt ->
  ((now - hiddenAt > 30 * 60 * 1000)%Z ->
   exists st',
     onVisibilityChange visible now st = (Ok true, st')
     /\ items st' !! documentsKey = None
     /\ items st' !! chatHistoryKey = None
     /\ items st' !! "guestMode" = None
     /\ getDocuments st' = (Ok (JArr []), st')
     /\ getChatHistory st' = (Ok (JArr []), st'))
  /\ ((now - hiddenAt <= 30 * 60 * 1000)%Z ->
      onVisibilityChange visible now st = (Ok false, st)).
Proof.
  intros Hd Hg Hl Hp.
  assert (Hrun : onVisibilityChange visible now st
                 = if (now - hiddenAt >? expiry_ms)%Z
                   then (let* _ := clearAllData in ret true) st
                   else (Ok false, st)).
  { unfold onVisibilityChange. unfold bind at 1. rewrite (isGuestMode_active st Hd Hg).
    unfold bind at 1, getItem at 1. rewrite Hd, Hl.
    destruct lastActive as [ | c r ]; [ discriminate | ]. rewrite Hp.
    destruct (now - hiddenAt >? expiry_ms)%Z; reflexivity. }
  change expiry_ms with (30 * 60 * 1000)%Z in Hrun.
  split; intros Helapsed.
  - apply Z.gtb_gt in Helapsed. rewrite Helapsed in Hrun.
    unfold bind in Hrun. rewrite (clearAllData_cleared st Hd) in Hrun.
    eexists. split; [ exact Hrun | ].
    rewrite getDocuments_eq, getChatHistory_eq. unfold collection. cbn [items denied].
    rewrite !(lookup_delete_ne _ "guestMode") by discriminate.
    rewrite (lookup_delete_ne _ chatHistoryKey documentsKey) by discriminate.
    rewrite !lookup_delete_eq. repeat split.
  - assert (Hle : (now - hiddenAt >? 30 * 60 * 1000)%Z = false).
    { apply not_true_is_false. intros H%Z.gtb_gt. lia. }
    now rewrite Hle in Hrun.
Qed.

(** The scenario of the specification: hidden at [tick], visible again
    ten minutes later, nothing is cleared. *)
Lemma resume_expiry_witness :
  onVisibilityChange visible (Date_now later) hidden_store = (Ok false, hidden_store).
Proof.
  refine (proj2 (resume_expiry hidden_store (Date_now later) (pretty (Date_now tick))
                                (Date_now tick) _ _ _ _) _).
  - vm_compute. reflexivity.
  - vm_compute. reflexivity.
  - vm_compute. reflexivity.
  - vm_compute. reflexivity.
  - vm_compute. discriminate.
Defined.

(** The threshold itself: thirty minutes to the millisecond clear
    nothing, one millisecond more clears both collections and the flag. *)
Example resume_at_the_threshold :
  onVisibilityChange visible (Date_now tick + 1800000) hidden_store = (Ok false, hidden_store)
  /\ fst (onVisibilityChange visible (Date_now tick + 1800001) hidden_store) = Ok true
  /\ items (snd (onVisibilityChange visible (Date_now tick + 1800001) hidden_store))
     = {[ "guestModeLastActive" := "1700000000000" ]}.
Proof. split; [ | split ]; vm_compute; reflexivity. Qed.

(** ** The storage-usage estimate (C8) *)

(** [toFixed1 a b] prints the tenth nearest to [a / b], the larger one of
    two. *)
Lemma toFixed1_nearest (a b : Z) :
  (0 < b)%Z ->
  exists m : Z,
    toFixed1 a b = tenths m
    /\ (- b <= 2 * (10 * a - b * m) < b)%Z
    /\ (0 <= a -> 0 <= m)%Z.
Proof.
  intros Hb. exists ((2 * 10 * a + b) / (2 * b))%Z.
  split; [ reflexivity | ].
  pose proof (Z.div_mod (2 * 10 * a + b) (2 * b) ltac:(lia)) as Hdm.
  pose proof (Z.mod_pos_bound (2 * 10 * a + b) (2 * b) ltac:(lia)) as Hmod.
  split; [ lia | ].
  intros Ha. apply Z.div_pos; lia.
Qed.

Lemma get_length_not_null v : is_null v = false -> exists n, get_length v = Ok n.
Proof. destruct v; try discriminate; simpl; eauto. Qed.

Lemma getStorageInfo_returns st :
  is_null (collection documentsKey st) = false ->
  is_null (collection chatHistoryKey st) = false ->
  exists info,
    getStorageInfo st = (Ok info, st)
    /\ estimatedSize info
       = estimatedSize_of
           (totalBytes_of (collection documentsKey st) (collection chatHistoryKey st)).
Proof.
  intros Hd Hh.
  destruct (get_length_not_null _ Hd) as [n Hn].
  destruct (get_length_not_null _ Hh) as [k Hk].
  unfold getStorageInfo, bind, lift. rewrite getDocuments_eq, getChatHistory_eq, Hn, Hk.
  eexists. split; reflexivity.
Qed.

(** C8. Where neither collection reads as [null], [getStorageInfo]
    returns, and for the total [n] of the two serialized sizes its
    [estimatedSize] is: [n] followed by [bytes] when [n < 1024]; the tenth
    nearest to [n / 1024] followed by [KB] when [1024 <= n < 1048576]; the
    tenth nearest to [n / 1048576] followed by [MB] from [1048576] on. *)
Theorem estimatedSize_units (st : Storage) (documents history : json) :
  getDocuments st = (Ok documents, st) ->
  getChatHistory st = (Ok history, st) ->
  is_null documents = false ->
  is_null history = false ->
  exists info,
    getStorageInfo st = (Ok info, st)
    /\ let n := totalBytes_of documents history in
       ((n < 1024)%Z -> estimatedSize info = pretty n +:+ " bytes")
       /\ ((1024 <= n < 1048576)%Z ->
           exists m, estimatedSize info = tenths m +:+ " KB"
                     /\ (0 <= m)%Z /\ (- 1024 <= 2 * (10 * n - 1024 * m) < 1024)%Z)
       /\ ((1048576 <= n)%Z ->
           exists m, estimatedSize info = tenths m +:+ " MB"
                     /\ (0 <= m)%Z /\ (- 1048576 <= 2 * (10 * n - 1048576 * m) < 1048576)%Z).
Proof.
  intros Hd Hh Hnd Hnh. rewrite getDocuments_eq in Hd. rewrite getChatHistory_eq in Hh.
  assert (Hcd : collection documentsKey st = documents) by congruence.
  assert (Hch : collection chatHistoryKey st = history) by congruence.
  destruct (getStorageInfo_returns st) as (info & Hrun & Hsize); [ congruence | congruence | ].
  rewrite Hcd, Hch in Hsize.
  exists info. split; [ exact Hrun | ].
  intros n. rewrite Hsize. fold n. unfold estimatedSize_of.
  assert (Hn0 : (0 <= n)%Z) by (unfold n, totalBytes_of; lia).
  split; [ | split ].
  - intros Hlt. apply Z.ltb_lt in Hlt. now rewrite Hlt.
  - intros [Hge Hlt].
    assert (H1 : (n <? 1024)%Z = false) by (apply Z.ltb_ge; lia).
    assert (H2 : (n <? 1024 * 1024)%Z = true) by (apply Z.ltb_lt; lia).
    rewrite H1, H2.
    destruct (toFixed1_nearest n 1024 ltac:(lia)) as (m & -> & Hm & Hpos).
    exists m. repeat split; lia || auto.
  - intros Hge.
    assert (H1 : (n <? 1024)%Z = false) by (apply Z.ltb_ge; lia).
    assert (H2 : (n <? 1024 * 1024)%Z = false) by (apply Z.ltb_ge; lia).
    rewrite H1, H2.
    destruct (toFixed1_nearest n (1024 * 1024) ltac:(lia)) as (m & -> & Hm & Hpos).
    exists m. repeat split; lia || auto.
Qed.

(** The two sides of the 1024-byte boundary, on stores of exactly that
    size. *)
Lemma estimatedSize_units_witness :
  (exists info,
      getStorageInfo (padded_store 898) = (Ok info, padded_store 898)
      /\ estimatedSize info = "1023 bytes")
  /\ (exists info,
         getStorageInfo (padded_store 899) = (Ok info, padded_store 899)
         /\ estimatedSize info = "1.0 KB").
Proof.
  split.
  - destruct (estimatedSize_units (padded_store 898)
                (collection documentsKey (padded_store 898))
                (collection chatHistoryKey (padded_store 898))
                (getDocuments_eq _) (getChatHistory_eq _) eq_refl eq_refl)
      as (info & Hrun & Hbytes & _ & _).
    exists info. split; [ exact Hrun | ].
    rewrite Hbytes; [ vm_compute; reflexivity | vm_compute; reflexivity ].
  - destruct (estimatedSize_units (padded_store 899)
                (collection documentsKey (padded_store 899))
                (collection chatHistoryKey (padded_store 899))
                (getDocuments_eq _) (getChatHistory_eq _) eq_refl eq_refl)
      as (info & Hrun & _ & Hkb & _).
    exists info. split; [ exact Hrun | ].
    assert (Hn : totalBytes_of (collection documentsKey (padded_store 899))
                               (collection chatHistoryKey (padded_store 899)) = 1024%Z)
      by (vm_compute; reflexivity).
    rewrite Hn in Hkb. destruct (Hkb ltac:(lia)) as (m & -> & Hm & Hnear).
    assert (m = 10%Z) as -> by lia. vm_compute. reflexivity.
Defined.

Example estimatedSize_of_boundaries :
  estimatedSize_of 1023 = "1023 bytes"
  /\ estimatedSize_of 1024 = "1.0 KB"
  /\ estimatedSize_of 1280 = "1.3 KB"
  /\ estimatedSize_of 1048575 = "1024.0 KB"
  /\ estimatedSize_of 1048576 = "1.0 MB".
Proof. vm_compute. repeat split. Qed.

(** ** Sending a message (C1) *)

Section ChatFacts.

Lemma lookup_prop_wf k props v :
  forallb (fun kv => wf (snd kv)) props = true -> lookup_prop k props = Some v -> wf v = true.
Proof.
  induction props as [ | [k' x] rest IH ]; [ discriminate | ].
  cbn [forallb lookup_prop snd]. intros [Hx Hrest]%andb_prop.
  destruct (lookup_prop k rest) as [ w | ] eqn:Hl.
  - intros [= <-]. now apply IH.
  - destruct (String.eqb k k'); [ | discriminate ]. now intros [= <-].
Qed.

Lemma get_prop_wf data k v :
  wf data = true -> get_prop data k = Ok v -> wf_value v = true.
Proof.
  destruct data; simpl; intros Hwf; intros [= <-]; try reflexivity.
  destruct (lookup_prop k props) as [ w | ] eqn:Hl; [ | reflexivity ].
  exact (lookup_prop_wf _ _ _ Hwf Hl).
Qed.


Lemma generateAIResponse_total fetch message selectedDocuments useAllDocuments st :
  exists answer,
    generateAIResponse fetch message selectedDocuments useAllDocuments st = (Ok answer, st)
    /\ wf_value (response answer) = true
    /\ ((exists error,
            answer = {| response := Some (JStr (apology error));
                        context_used := false;
                        context_sources := [] |})
        \/ (exists context sources body data,
               assembleContext selectedDocuments useAllDocuments st = (Ok (context, sources), st)
               /\ fetch chat_url (chat_body message context sources) = Response true body
               /\ Json.parse body = Some data
               /\ get_prop data "response" = Ok (response answer)
               /\ context_sources answer = sources)).
Proof.
  pose proof (assembleContext_reads selectedDocuments useAllDocuments st) as Hst.
  unfold generateAIResponse, try_catch, bind at 1.
  destruct (assembleContext selectedDocuments useAllDocuments st)
    as [ [ [context sources] | e ] st1 ]; simpl in Hst; subst st1.
  2: { eexists. split; [ reflexivity | ]. split; [ reflexivity | left; eauto ]. }
  destruct (fetch chat_url (chat_body message context sources)) as [ e | [ | ] body ] eqn:Hfetch.
  - eexists. split; [ reflexivity | ]. split; [ reflexivity | left; eauto ].
  - unfold bind, JSON_parse, lift.
    destruct (Json.parse body) as [ data | ] eqn:Hbody.
    + cbn [ret]. destruct (get_prop data "response") as [ answer | e ] eqn:Hanswer.
      * eexists. split; [ reflexivity | ]. cbn [response context_sources].
        split; [ exact (get_prop_wf _ _ _ (parse_wf _ _ Hbody) Hanswer) | ].
        right. exists context, sources, body, data. auto.
      * eexists. split; [ reflexivity | ]. split; [ reflexivity | left; eauto ].
    + eexists. split; [ reflexivity | ]. split; [ reflexivity | left; eauto ].
  - eexists. split; [ reflexivity | ]. split; [ reflexivity | left; eauto ].
Qed.

Lemma saveChatMessage_array message t st history :
  denied st = false ->
  collection chatHistoryKey st = JArr history ->
  saveChatMessage message t st
  = (Ok (newMessage message t),
     written chatHistoryKey (Json.stringify (JArr (history ++ [newMessage message t]))) st).
Proof.
  intros Hd Hc. unfold saveChatMessage, bind, lift.
  rewrite getChatHistory_eq, Hc. cbn [push as_array result_bind].
  now rewrite (setItem_written _ _ _ Hd).
Qed.

Lemma newMessage_wf message t :
  wf_value (data_response message) = true -> wf (newMessage message t) = true.
Proof.
  destruct message as [text [ answer | ] [ sources | ] ]; simpl; intros H;
    rewrite ?H; reflexivity.
Qed.

Lemma newMessage_response message t :
  get_prop (newMessage message t) "response" = Ok (data_response message)
  /\ get_prop (newMessage message t) "message" = Ok (Some (JStr (data_message message))).
Proof. destruct message as [text [ answer | ] [ sources | ] ]; split; reflexivity. Qed.

End ChatFacts.




(** ** The theorems at work on the sample stores *)

Lemma context_all_documents_witness :
  assembleContext None (Some true) two_uploads_store
  = (Ok (String.concat (nl +:+ nl) (map document_text (map created_document two_uploads)),
         map document_source (map created_document two_uploads)), two_uploads_store).
Proof.
  refine (proj1 (context_all_documents two_uploads_store (map created_document two_uploads)
                                       None _)).
  vm_compute. reflexivity.
Defined.

Lemma context_selected_documents_witness :
  assembleContext (Some ["1700000600000"; "7"]) None two_uploads_store
  = (Ok (document_text (created_document (todo_txt, later)),
         [document_source (created_document (todo_txt, later))]), two_uploads_store).
Proof.
  refine (eq_trans
            (proj1 (context_selected_documents two_uploads_store
                      (map created_document two_uploads) ["1700000600000"; "7"] None _ _)) _).
  - reflexivity.
  - vm_compute. reflexivity.
  - vm_compute. reflexivity.
Defined.

Lemma deleteDocument_absent_id_witness :
  exists st',
    deleteDocument "42" two_uploads_store = (Ok true, st')
    /\ getDocuments st'
       = (Ok (JArr (map document_json (map created_document two_uploads))), st').
Proof.
  destruct (proj2 (deleteDocument_absent_id two_uploads_store
                     (map document_json (map created_document two_uploads)) "42"))
    as (st' & Hdelete & _ & Hsame).
  - vm_compute. reflexivity.
  - vm_compute. reflexivity.
  - repeat constructor.
  - exists st'. split; [ exact Hdelete | ]. apply Hsame. repeat constructor.
Defined.

Lemma deleteDocument_removes_all_witness :
  exists st',
    deleteDocument "1700000000000" same_tick_store = (Ok true, st')
    /\ getDocuments st' = (Ok (JArr []), st')
    /\ getDocument "1700000000000" st' = (Ok JNull, st').
Proof.
  destruct (deleteDocument_removes_all same_tick_store
              (map document_json (map created_document same_tick_uploads)) "1700000000000")
    as (st' & Hdelete & Hkept & _ & Hgone).
  - vm_compute. reflexivity.
  - vm_compute. reflexivity.
  - repeat constructor.
  - exists st'. split; [ exact Hdelete | ]. split; [ exact Hkept | exact Hgone ].
Defined.

(** The scenario of the specification: one upload, one message sent with
    all documents as context, one stored message whose [context_documents]
    lists the upload. *)
Example scenario_history :
  exists msg sources,
    getChatHistory scenario_store = (Ok (JArr [msg]), scenario_store)
    /\ get_prop msg "response" = Ok (Some (JStr "It says hello."))
    /\ get_prop msg "context_documents" = Ok (Some (JStr sources))
    /\ Json.parse sources
       = Some (JArr [ JObj [ ("id", JStr "1700000000000"); ("filename", JStr "notes.txt") ] ]).
Proof.
  eexists (JObj [ ("message", JStr "summarize"); ("response", JStr "It says hello.");
                  ("context_documents", JStr _); ("id", JStr _); ("created_at", JStr _) ]).
  eexists. split; [ vm_compute; reflexivity | ].
  split; [ reflexivity | ]. split; [ reflexivity | ]. vm_compute. reflexivity.
Qed.

(** * Reading numbers back *)

Section ParseIntFacts.

Lemma digit_value_char d :
  (d < 10)%N -> digit_value 10 (pretty_N_char d) = Some (Z.of_N d).
Proof.
  intros Hd.
  assert (d = 0 \/ d = 1 \/ d = 2 \/ d = 3 \/ d = 4 \/ d = 5 \/ d = 6 \/ d = 7 \/ d = 8 \/ d = 9)%N
    as Hcases by lia.
  repeat (destruct Hcases as [ -> | Hcases ]; [ reflexivity | ]). subst. reflexivity.
Qed.

Lemma is_digit_char d : Json.is_digit (pretty_N_char d) = true.
Proof.
  unfold pretty_N_char. repeat case_match; reflexivity.
Qed.

(** Reading back the digits that [pretty_N_go] puts in front of a text. *)
Lemma digits_prefix_pretty_go x :
  (0 < x)%N ->
  exists p : Z,
    forall acc s,
      digits_prefix 10 acc (pretty_N_go x s)
      = digits_prefix 10 (Some (default 0 acc * p + Z.of_N x)%Z) s.
Proof.
  induction (N.lt_wf_0 x) as [x _ IH]. intros Hx.
  assert (Hd : (x `mod` 10 < 10)%N) by (apply N.mod_lt; lia).
  destruct (decide (x `div` 10 = 0)%N) as [Hq | Hq].
  - exists 10%Z. intros acc s. rewrite pretty_N_go_step by exact Hx.
    rewrite Hq, pretty_N_go_0. cbn [digits_prefix]. rewrite (digit_value_char _ Hd).
    pose proof (N.div_mod x 10 ltac:(lia)) as Hdm. rewrite Hq in Hdm.
    assert (Hm : (x `mod` 10 = x)%N) by lia. rewrite Hm. reflexivity.
  - destruct (IH (x `div` 10)%N) as [p Hp].
    { apply N.div_lt; lia. }
    { apply N.neq_0_lt_0. exact Hq. }
    exists (p * 10)%Z. intros acc s. rewrite pretty_N_go_step by exact Hx.
    rewrite Hp. cbn [digits_prefix]. rewrite (digit_value_char _ Hd). cbn [default from_option id].
    f_equal. f_equal.
    pose proof (N.div_mod x 10 ltac:(lia)) as Hdm.
    set (q := (x `div` 10)%N) in *. set (d := (x `mod` 10)%N) in *.
    set (a := default 0%Z acc). lia.
Qed.

Lemma all_digits_pretty_go x s :
  all_chars Json.is_digit s = true -> all_chars Json.is_digit (pretty_N_go x s) = true.
Proof.
  revert s. induction (N.lt_wf_0 x) as [x _ IH]. intros s Hs.
  destruct (decide (0 < x)%N) as [Hx | Hx].
  - rewrite pretty_N_go_step by exact Hx. apply IH; [ apply N.div_lt; lia | ].
    cbn [all_chars]. now rewrite is_digit_char.
  - assert (x = 0%N) as -> by lia. now rewrite pretty_N_go_0.
Qed.

Lemma pretty_N_digits (x : N) :
  exists c r, pretty x = String c r /\ all_chars Json.is_digit (String c r) = true
              /\ digits_prefix 10 None (String c r) = Some (Z.of_N x).
Proof.
  unfold pretty, pretty_N. destruct (decide (x = 0%N)) as [ -> | Hx ].
  - exists "0"%char, EmptyString. repeat split.
  - destruct (digits_prefix_pretty_go x ltac:(lia)) as [p Hp].
    pose proof (all_digits_pretty_go x EmptyString eq_refl) as Hall.
    pose proof (Hp None EmptyString) as Hv.
    cbn [digits_prefix default from_option id] in Hv.
    remember (pretty_N_go x EmptyString) as w eqn:Hw. clear Hw Hp.
    destruct w as [ | c r ]; [ discriminate Hv | ].
    exists c, r. split; [ reflexivity | ]. split; [ exact Hall | ].
    rewrite Hv. f_equal; lia.
Qed.

(** [parseInt] on a text of decimal digits reads them all in base ten. *)
Lemma parseInt_digits c r :
  all_chars Json.is_digit (String c r) = true ->
  parseInt (String c r) = digits_prefix 10 None (String c r)
  /\ parseInt (String "-" (String c r)) = Z.mul (-1) <$> digits_prefix 10 None (String c r).
Proof.
  cbn [all_chars]. intros [Hc Hr]%andb_prop.
  destruct r as [ | c2 r2 ].
  - destruct c as [[] [] [] [] [] [] [] []]; try discriminate; split; vm_compute; reflexivity.
  - cbn [all_chars] in Hr. apply andb_prop in Hr as [Hc2 Hr2].
    assert (Hx : Ascii.eqb c2 "x" = false /\ Ascii.eqb c2 "X" = false).
    { destruct c2 as [[] [] [] [] [] [] [] []]; try discriminate; split; reflexivity. }
    destruct Hx as [Hx1 Hx2].
    assert (Hradix : forall c', Json.is_digit c' = true ->
              match String c' (String c2 r2) with
              | String "0" (String "x" q) => (16%Z, q)
              | String "0" (String "X" q) => (16%Z, q)
              | _ => (10%Z, String c' (String c2 r2))
              end = (10%Z, String c' (String c2 r2))).
    { intros c' Hc'. destruct c' as [[] [] [] [] [] [] [] []]; try discriminate; try reflexivity.
      destruct c2 as [[] [] [] [] [] [] [] []]; try discriminate; reflexivity. }
    split.
    + unfold parseInt.
      assert (Hs : drop_while is_js_space (String c (String c2 r2)) = String c (String c2 r2)).
      { destruct c as [[] [] [] [] [] [] [] []]; try discriminate; reflexivity. }
      rewrite Hs.
      assert (Hsign : match String c (String c2 r2) with
                      | String "-" q => ((-1)%Z, q)
                      | String "+" q => (1%Z, q)
                      | _ => (1%Z, String c (String c2 r2))
                      end = (1%Z, String c (String c2 r2))).
      { destruct c as [[] [] [] [] [] [] [] []]; try discriminate; reflexivity. }
      rewrite Hsign, (Hradix c Hc).
      destruct (digits_prefix 10 None (String c (String c2 r2))) as [ z | ]; [ | reflexivity ].
      cbn. f_equal. destruct z; reflexivity.
    + unfold parseInt. cbn [drop_while is_js_space]. rewrite (Hradix c Hc). reflexivity.
Qed.

(** [parseInt(n.toString())] is [n]. *)
Lemma parseInt_pretty (z : Z) : parseInt (pretty z) = Some z.
Proof.
  unfold pretty, pretty_Z. destruct z as [ | p | p ].
  - reflexivity.
  - destruct (pretty_N_digits (N.pos p)) as (c & r & Hs & Hall & Hval).
    change (pretty p) with (pretty (N.pos p)). rewrite Hs.
    rewrite (proj1 (parseInt_digits c r Hall)), Hval. reflexivity.
  - destruct (pretty_N_digits (N.pos p)) as (c & r & Hs & Hall & Hval).
    change (pretty p) with (pretty (N.pos p)). rewrite Hs.
    change ("-" +:+ String c r) with (String "-" (String c r)).
    rewrite (proj2 (parseInt_digits c r Hall)), Hval. reflexivity.
Qed.

End ParseIntFacts.

(** * Texts the service writes are within the alphabet *)

Section AlphabetFacts.

#[local] Arguments String.append : simpl nomatch.

Lemma scans_through_empty : scans_through EmptyString.
Proof. intros rest. reflexivity. Qed.

Lemma scans_through_app a b : scans_through a -> scans_through b -> scans_through (a +:+ b).
Proof. intros Ha Hb rest. now rewrite append_assoc, Ha, Hb. Qed.

Lemma scans_through_plain p :
  all_chars (fun c => negb (Ascii.eqb c "092"%char)) p = true -> scans_through p.
Proof.
  induction p as [ | c p IH ]; intros Hp rest; [ reflexivity | ].
  cbn [all_chars] in Hp. apply andb_true_iff in Hp as [ Hc Hp ].
  simpl. apply negb_true_iff in Hc. rewrite Hc. now apply IH.
Qed.

Lemma scans_through_quote_char c : scans_through (quote_char c).
Proof. intros rest. destruct c as [ [] [] [] [] [] [] [] [] ]; reflexivity. Qed.

Lemma scans_through_quote_body s : scans_through (quote_body s).
Proof.
  induction s as [ | c s IH ]; [ apply scans_through_empty | ].
  cbn [quote_body]. apply scans_through_app; [ apply scans_through_quote_char | exact IH ].
Qed.

Lemma scans_through_quote s : scans_through (quote s).
Proof.
  unfold quote.
  change (String "034"%char (quote_body s +:+ String "034"%char EmptyString))
    with (String "034"%char EmptyString +:+ (quote_body s +:+ String "034"%char EmptyString)).
  apply scans_through_app; [ now apply scans_through_plain | ].
  apply scans_through_app; [ apply scans_through_quote_body | now apply scans_through_plain ].
Qed.

Lemma numchar_plain lit :
  all_chars is_numchar lit = true ->
  all_chars (fun c => negb (Ascii.eqb c "092"%char)) lit = true.
Proof.
  induction lit as [ | c lit IH ]; [ reflexivity | ].
  cbn [all_chars]. intros [ Hc Hl ]%andb_true_iff. rewrite (IH Hl), andb_true_r.
  destruct (Ascii.eqb_spec c "092"%char) as [ -> | ]; [ discriminate Hc | reflexivity ].
Qed.

Lemma scans_through_concat (pieces : list string) :
  Forall scans_through pieces -> scans_through (String.concat "," pieces).
Proof.
  induction 1 as [ | p pieces Hp _ IH ]; [ apply scans_through_empty | ].
  destruct pieces as [ | q pieces ]; [ exact Hp | ].
  change (String.concat "," (p :: q :: pieces))
    with (p +:+ ("," +:+ String.concat "," (q :: pieces))).
  apply scans_through_app; [ exact Hp | ].
  apply scans_through_app; [ now apply scans_through_plain | exact IH ].
Qed.

Lemma scans_through_stringify v : wf v = true -> scans_through (stringify v).
Proof.
  induction v as [ | b | lit | s | items IH | props IH ] using json_induction; intros Hwf.
  - now apply scans_through_plain.
  - destruct b; now apply scans_through_plain.
  - cbn [stringify]. apply scans_through_plain, numchar_plain.
    cbn [wf] in Hwf. unfold number_literal in Hwf.
    now apply andb_true_iff in Hwf as [ Hall _ ].
  - apply scans_through_quote.
  - cbn [stringify].
    apply scans_through_app; [ now apply scans_through_plain | ].
    apply scans_through_app; [ | now apply scans_through_plain ].
    apply scans_through_concat. cbn [wf] in Hwf.
    induction IH as [ | x items Hx _ IHitems ]; [ constructor | ].
    cbn [forallb] in Hwf. apply andb_true_iff in Hwf as [ Hwx Hwitems ].
    cbn [map]. constructor; [ now apply Hx | now apply IHitems ].
  - cbn [stringify].
    apply scans_through_app; [ now apply scans_through_plain | ].
    apply scans_through_app; [ | now apply scans_through_plain ].
    apply scans_through_concat. cbn [wf] in Hwf.
    induction IH as [ | kv props Hkv _ IHprops ]; [ constructor | ].
    cbn [forallb] in Hwf. apply andb_true_iff in Hwf as [ Hwkv Hwprops ].
    cbn [map]. constructor; [ | now apply IHprops ].
    apply scans_through_app; [ apply scans_through_quote | ].
    apply scans_through_app; [ now apply scans_through_plain | now apply Hkv ].
Qed.

(** Every text [JSON.stringify] produces is within the alphabet of the
    reader: what the service writes to a slot, and a request body. *)
Lemma in_alphabet_stringify v : wf v = true -> in_alphabet (stringify v) = true.
Proof.
  intros Hwf. rewrite <- (append_empty (stringify v)).
  now rewrite (scans_through_stringify v Hwf).
Qed.

End AlphabetFacts.

(** * More of the service *)

Section WriterFacts.

Lemma as_array_not_array v : is_array v = false -> as_array v = Throw TypeError.
Proof. destruct v; try reflexivity; discriminate. Qed.

Lemma as_array_is_array v : is_array v = true -> exists items, v = JArr items.
Proof. destruct v; try discriminate. eauto. Qed.

Lemma collection_denied key st : denied st = true -> collection key st = JArr [].
Proof. intros H. unfold collection. now rewrite H. Qed.

Lemma collection_garbled key st stored :
  items st !! key = Some stored -> Json.parse stored = None -> collection key st = JArr [].
Proof.
  intros Hs Hp. unfold collection. destruct (denied st); [ reflexivity | ].
  rewrite Hs. destruct stored as [ | c r ]; [ reflexivity | now rewrite Hp ].
Qed.

Lemma removeItem_denied key st :
  denied st = true -> removeItem key st = (Throw SecurityError, st).
Proof. intros H. unfold removeItem. now rewrite H. Qed.

Lemma removeItem_deleted key st :
  denied st = false -> removeItem key st = (Ok tt, without_keys [key] st).
Proof. intros H. unfold removeItem, without_keys. now rewrite H. Qed.

Lemma getItem_denied key st :
  denied st = true -> getItem key st = (Throw SecurityError, st).
Proof. intros H. unfold getItem. now rewrite H. Qed.

Lemma getItem_read key st :
  denied st = false -> getItem key st = (Ok (items st !! key), st).
Proof. intros H. unfold getItem. now rewrite H. Qed.

Lemma without_keys_lookup keys st key :
  items (without_keys keys st) !! key
  = if bool_decide (key ∈ keys) then None else items st !! key.
Proof.
  unfold without_keys. cbn [items]. induction keys as [ | k keys IH ]; cbn [foldr].
  - reflexivity.
  - destruct (decide (key = k)) as [ -> | Hne ].
    + rewrite lookup_delete_eq, bool_decide_eq_true_2; [ reflexivity | apply elem_of_cons; now left ].
    + rewrite lookup_delete_ne by congruence. rewrite IH.
      destruct (decide (key ∈ keys)) as [ Hin | Hout ].
      * rewrite !bool_decide_eq_true_2; [ reflexivity | apply elem_of_cons; now right | assumption ].
      * rewrite !bool_decide_eq_false_2; [ reflexivity | | assumption ].
        intros [ ? | ? ]%elem_of_cons; congruence.
Qed.

Lemma clearAllData_without st :
  denied st = false -> clearAllData st = (Ok tt, without_keys guest_keys st).
Proof.
  intros Hd. rewrite (clearAllData_cleared st Hd). unfold without_keys, guest_keys.
  cbn [foldr]. rewrite Hd. do 2 f_equal.
  rewrite (delete_delete _ "guestMode" chatHistoryKey).
  rewrite (delete_delete _ "guestMode" documentsKey).
  apply delete_delete.
Qed.

Lemma storage_eq st st' : items st = items st' -> denied st = denied st' -> st = st'.
Proof. destruct st, st'. cbn. now intros -> ->. Qed.

Lemma filter_result_total documentId docs kept :
  filter_result (id_differs documentId) docs = Ok kept ->
  Forall (fun d => is_null d = false) docs.
Proof.
  revert kept. induction docs as [ | d docs IH ]; intros kept H; [ constructor | ].
  cbn [filter_result] in H. unfold id_differs at 1 in H.
  destruct d; try discriminate H; constructor; try reflexivity;
    cbn [get_prop result_bind] in H;
    destruct (filter_result (id_differs documentId) docs) as [ ys | e ];
    try discriminate H; eauto.
Qed.

Lemma find_result_first documentId before doc after :
  Forall (fun d => is_null d = false) before ->
  Forall (fun d => has_id documentId d = false) before ->
  has_id documentId doc = true ->
  find_result (id_equals documentId) (before ++ doc :: after) = Ok (Some doc).
Proof.
  intros Hnn Hids Hdoc. induction before as [ | d before IH ]; cbn [app find_result].
  - unfold id_equals, has_id in *. destruct (get_prop doc "id") as [ v | e ]; [ | discriminate ].
    cbn [result_bind]. now rewrite Hdoc.
  - inversion Hnn as [ | ? ? Hd Hnn' ]; inversion Hids as [ | ? ? Hi Hids' ]; subst.
    unfold id_equals at 1. unfold has_id in Hi.
    destruct d; try discriminate Hd; cbn [get_prop result_bind] in *;
      try (apply IH; assumption).
    rewrite Hi. apply IH; assumption.
Qed.

Lemma has_id_truthy documentId doc : has_id documentId doc = true -> truthy doc = true.
Proof. destruct doc; try discriminate; reflexivity. Qed.

End WriterFacts.

(** X1. When the [guestDocuments] slot holds JSON text that is not an
    array (an object, a string, a number, a boolean or [null]),
    [saveDocument] throws a [TypeError] at [documents.push] and leaves the
    store as it was: nothing is saved. *)
Theorem saveDocument_not_an_array (st : Storage) (document : DocumentData) (t : Clock) :
  is_array (collection documentsKey st) = false ->
  saveDocument document t st = (Throw TypeError, st).
Proof.
  intros Hna. unfold saveDocument, bind, lift, push. rewrite getDocuments_eq.
  now rewrite (as_array_not_array _ Hna).
Qed.

Lemma saveDocument_not_an_array_witness :
  is_array (collection documentsKey object_in_slot) = false
  /\ saveDocument notes_txt tick object_in_slot = (Throw TypeError, object_in_slot).
Proof.
  split; [ reflexivity | apply (saveDocument_not_an_array object_in_slot notes_txt tick) ].
  reflexivity.
Defined.

(** X2. When the [guestDocuments] slot holds text that is not JSON (a
    text within the alphabet of the JSON reader that the reader refuses),
    [saveDocument] succeeds and overwrites the slot with an array holding
    the new document alone: [getDocuments] swallowed the parse error and
    returned the empty array, so the old text is lost. *)
Theorem saveDocument_replaces_garbled_slot (st : Storage) (stored : string)
    (document : DocumentData) (t : Clock) :
  denied st = false ->
  items st !! documentsKey = Some stored ->
  Json.in_alphabet stored = true ->
  Json.parse stored = None ->
  exists st',
    saveDocument document t st = (Ok (newDocument document t), st')
    /\ items st' !! documentsKey = Some (Json.stringify (JArr [newDocument document t]))
    /\ getDocuments st' = (Ok (JArr [newDocument document t]), st').
Proof.
  intros Hd Hs _ Hp.
  pose proof (saveDocument_array document t st [] Hd (collection_garbled _ _ _ Hs Hp)) as Hsave.
  cbn [app] in Hsave. eexists. split; [ exact Hsave | ]. split.
  - unfold written. cbn [items]. apply lookup_insert_eq.
  - rewrite getDocuments_eq. rewrite (collection_written _ (JArr [newDocument document t]) st Hd).
    + reflexivity.
    + cbn [wf forallb]. now rewrite newDocument_wf.
Qed.

Lemma saveDocument_replaces_garbled_slot_witness :
  exists st',
    saveDocument notes_txt tick garbled_store = (Ok (newDocument notes_txt tick), st')
    /\ items st' !! documentsKey = Some (Json.stringify (JArr [newDocument notes_txt tick]))
    /\ getDocuments st' = (Ok (JArr [newDocument notes_txt tick]), st').
Proof.
  apply (saveDocument_replaces_garbled_slot garbled_store "not json" notes_txt tick);
    reflexivity.
Defined.

(** X3. On a browser that refuses access to storage the writers fail
    without changing anything: [saveDocument], [saveChatMessage] and
    [clearAllData] throw the [SecurityError], and so do the [beforeunload]
    and [visibilitychange] listeners, which have no [try] block. *)
Theorem writers_on_denied_storage (st : Storage) (document : DocumentData)
    (message : MessageData) (t : Clock) (visibilityState : VisibilityState) (now : Z) :
  denied st = true ->
  saveDocument document t st = (Throw SecurityError, st)
  /\ saveChatMessage message t st = (Throw SecurityError, st)
  /\ clearAllData st = (Throw SecurityError, st)
  /\ onBeforeUnload st = (Throw SecurityError, st)
  /\ onVisibilityChange visibilityState now st = (Throw SecurityError, st).
Proof.
  intros Hd. split; [ | split; [ | split; [ | split ] ] ].
  - unfold saveDocument, bind, lift. rewrite getDocuments_eq, (collection_denied _ _ Hd).
    cbn [push as_array result_bind]. now rewrite (setItem_denied _ _ _ Hd).
  - unfold saveChatMessage, bind, lift. rewrite getChatHistory_eq, (collection_denied _ _ Hd).
    cbn [push as_array result_bind]. now rewrite (setItem_denied _ _ _ Hd).
  - unfold clearAllData, bind. now rewrite (removeItem_denied _ _ Hd).
  - unfold onBeforeUnload, isGuestMode, bind. now rewrite (getItem_denied _ _ Hd).
  - destruct visibilityState; unfold onVisibilityChange, isGuestMode, bind;
      now rewrite (getItem_denied _ _ Hd).
Qed.

Lemma writers_on_denied_storage_witness :
  saveDocument notes_txt tick denied_store = (Throw SecurityError, denied_store)
  /\ saveChatMessage {| data_message := "hi"; data_response := None;
                        data_context_documents := None |} tick denied_store
     = (Throw SecurityError, denied_store)
  /\ clearAllData denied_store = (Throw SecurityError, denied_store)
  /\ onBeforeUnload denied_store = (Throw SecurityError, denied_store)
  /\ onVisibilityChange visible 0 denied_store = (Throw SecurityError, denied_store).
Proof.
  apply (writers_on_denied_storage denied_store notes_txt _ tick visible 0). reflexivity.
Defined.

(** X4. [deleteDocument] never throws. When it answers [false] the store
    is as it was. It answers [true] exactly through the write: storage is
    accessible, the slot read as an array without [null] in it, and the
    slot now holds the elements whose [id] is not the given one, in their
    old order. *)
Theorem deleteDocument_outcome (st : Storage) (documentId : string) :
  exists success,
    fst (deleteDocument documentId st) = Ok success
    /\ (success = false -> snd (deleteDocument documentId st) = st)
    /\ (success = true ->
        exists docs,
          denied st = false
          /\ collection documentsKey st = JArr docs
          /\ Forall (fun d => is_null d = false) docs
          /\ snd (deleteDocument documentId st)
             = written documentsKey
                 (Json.stringify (JArr (List.filter (fun d => negb (has_id documentId d)) docs)))
                 st).
Proof.
  destruct (denied st) eqn:Hd.
  { exists false. rewrite (deleteDocument_denied _ _ Hd). repeat split; discriminate. }
  destruct (is_array (collection documentsKey st)) eqn:Ha.
  - destruct (as_array_is_array _ Ha) as (docs & Hc).
    destruct (filter_result (id_differs documentId) docs) as [ kept | e ] eqn:Hf.
    + pose proof (filter_result_total _ _ _ Hf) as Hnn.
      exists true. rewrite (deleteDocument_array _ _ _ Hd Hc Hnn).
      split; [ reflexivity | split; [ discriminate | ] ].
      intros _. exists docs. repeat split; assumption.
    + exists false. unfold deleteDocument, try_catch, bind, lift.
      rewrite getDocuments_eq, Hc. cbn [as_array result_bind]. rewrite Hf.
      repeat split; discriminate.
  - exists false. unfold deleteDocument, try_catch, bind, lift.
    rewrite getDocuments_eq, (as_array_not_array _ Ha).
    repeat split; discriminate.
Qed.

(** X5. [getDocument] returns the first element of the stored array whose
    [id] is the given string, whatever follows it. *)
Theorem getDocument_first_match (st : Storage) (documentId : string)
    (before : list json) (doc : json) (after : list json) :
  collection documentsKey st = JArr (before ++ doc :: after) ->
  Forall (fun d => is_null d = false) before ->
  Forall (fun d => has_id documentId d = false) before ->
  has_id documentId doc = true ->
  getDocument documentId st = (Ok doc, st).
Proof.
  intros Hc Hnn Hids Hdoc. unfold getDocument, bind, lift.
  rewrite getDocuments_eq, Hc. cbn [as_array result_bind].
  rewrite (find_result_first _ _ _ _ Hnn Hids Hdoc).
  now rewrite (has_id_truthy _ _ Hdoc).
Qed.

Lemma getDocument_first_match_witness :
  getDocument "1700000000000" same_tick_store = (Ok (newDocument notes_txt tick), same_tick_store).
Proof.
  apply (getDocument_first_match same_tick_store "1700000000000" []
           (newDocument notes_txt tick) [newDocument todo_txt tick]).
  - reflexivity.
  - constructor.
  - constructor.
  - reflexivity.
Defined.

(** X6. Saving then looking up. On an accessible store whose documents
    are an array without [null] and without the id of the clock reading,
    [saveDocument] followed by [getDocument] on the new id returns the
    document just saved. *)
Theorem getDocument_after_saveDocument (st : Storage) (docs : list json)
    (document : DocumentData) (t : Clock) :
  denied st = false ->
  collection documentsKey st = JArr docs ->
  Forall (fun d => is_null d = false) docs ->
  Forall (fun d => has_id (timestamp_id t) d = false) docs ->
  exists st',
    saveDocument document t st = (Ok (newDocument document t), st')
    /\ getDocument (timestamp_id t) st' = (Ok (newDocument document t), st').
Proof.
  intros Hd Hc Hnn Hids. eexists. split; [ exact (saveDocument_array _ _ _ _ Hd Hc) | ].
  assert (Hnew : has_id (timestamp_id t) (newDocument document t) = true).
  { unfold has_id, newDocument. cbn [get_prop].
    assert (Hl : forall props, lookup_prop "id"
               (props ++ [("id", JStr (timestamp_id t)); ("created_at", JStr (toISOString t))])
               = Some (JStr (timestamp_id t))).
    { induction props as [ | [k v] props IH ]; [ reflexivity | ].
      cbn [app lookup_prop]. now rewrite IH. }
    rewrite Hl. cbn [strict_equals_string]. apply String.eqb_refl. }
  unfold getDocument, bind, lift. rewrite getDocuments_eq.
  rewrite (collection_written _ (JArr (docs ++ [newDocument document t])) st Hd).
  - cbn [as_array result_bind].
    rewrite (find_result_first _ _ _ [] Hnn Hids Hnew).
    now rewrite (has_id_truthy _ _ Hnew).
  - apply wf_items_app; [ exact (collection_array_wf _ _ _ Hc) | ].
    cbn [wf forallb]. now rewrite newDocument_wf.
Qed.

Lemma getDocument_after_saveDocument_witness :
  exists st',
    saveDocument todo_txt later (snd (saveDocument notes_txt tick emptyStorage))
    = (Ok (newDocument todo_txt later), st')
    /\ getDocument (timestamp_id later) st' = (Ok (newDocument todo_txt later), st').
Proof.
  apply (getDocument_after_saveDocument (snd (saveDocument notes_txt tick emptyStorage))
           [newDocument notes_txt tick] todo_txt later).
  - reflexivity.
  - reflexivity.
  - repeat constructor.
  - repeat constructor.
Defined.

(** X7. [clearAllData] on an accessible store removes the three keys
    [guestDocuments], [guestChatHistory] and [guestMode] and no other
    (the [guestModeLastActive] timestamp stays); both collections then
    read as empty, and a second call changes nothing. *)
Theorem clearAllData_removes_guest_keys (st : Storage) :
  denied st = false ->
  exists st',
    clearAllData st = (Ok tt, st')
    /\ (forall key, items st' !! key
                    = if bool_decide (key ∈ guest_keys) then None else items st !! key)
    /\ getDocuments st' = (Ok (JArr []), st')
    /\ getChatHistory st' = (Ok (JArr []), st')
    /\ clearAllData st' = (Ok tt, st').
Proof.
  intros Hd. exists (without_keys guest_keys st).
  split; [ exact (clearAllData_without st Hd) | ].
  split; [ intros key; apply without_keys_lookup | ].
  assert (Hd' : denied (without_keys guest_keys st) = false) by exact Hd.
  split; [ | split ].
  - rewrite getDocuments_eq. unfold collection. now rewrite Hd', without_keys_lookup.
  - rewrite getChatHistory_eq. unfold collection. now rewrite Hd', without_keys_lookup.
  - rewrite (clearAllData_without _ Hd'). f_equal.
    apply storage_eq; [ | reflexivity ].
    apply map_eq. intros key. rewrite !without_keys_lookup.
    now destruct (bool_decide (key ∈ guest_keys)).
Qed.

Lemma clearAllData_removes_guest_keys_witness :
  exists st',
    clearAllData hidden_store = (Ok tt, st')
    /\ (forall key, items st' !! key
                    = if bool_decide (key ∈ guest_keys) then None else items hidden_store !! key)
    /\ getDocuments st' = (Ok (JArr []), st')
    /\ getChatHistory st' = (Ok (JArr []), st')
    /\ clearAllData st' = (Ok tt, st').
Proof. apply (clearAllData_removes_guest_keys hidden_store). reflexivity. Defined.

(** * More of the page lifecycle *)

Section LifecycleFacts.

Lemma pretty_Z_cons (z : Z) : exists c r, pretty z = String c r.
Proof.
  pose proof (parseInt_pretty z) as H. destruct (pretty z) as [ | c r ]; [ discriminate H | eauto ].
Qed.

Lemma isGuestMode_read st :
  denied st = false ->
  isGuestMode st
  = (Ok (match items st !! "guestMode" with Some s => String.eqb s "true" | None => false end), st).
Proof. intros Hd. unfold isGuestMode, bind. now rewrite (getItem_read _ _ Hd). Qed.

End LifecycleFacts.

(** X8. Hiding the page and coming back. In a guest session on an
    accessible store, the [hidden] event at time [t0] writes [t0] under
    [guestModeLastActive] and nothing else, and the [visible] event that
    follows at time [t1] reads that number back: it clears the guest data
    and reloads exactly when [t1 - t0] exceeds 1 800 000 ms, and otherwise
    does nothing. *)
Theorem hide_then_resume (st : Storage) (t0 t1 : Z) :
  denied st = false ->
  items st !! "guestMode" = Some "true" ->
  exists st1,
    onVisibilityChange hidden t0 st = (Ok false, st1)
    /\ st1 = written "guestModeLastActive" (pretty t0) st
    /\ onVisibilityChange visible t1 st1
       = if (t1 - t0 >? 1800000)%Z then (Ok true, without_keys guest_keys st1)
         else (Ok false, st1).
Proof.
  intros Hd Hg. eexists. split; [ | split; [ reflexivity | ] ].
  - unfold onVisibilityChange, bind. rewrite (isGuestMode_active st Hd Hg).
    now rewrite (setItem_written _ _ _ Hd).
  - set (st1 := written "guestModeLastActive" (pretty t0) st).
    assert (Hd1 : denied st1 = false) by exact Hd.
    assert (Hg1 : items st1 !! "guestMode" = Some "true").
    { unfold st1, written. cbn [items]. now rewrite lookup_insert_ne by discriminate. }
    assert (Hl1 : items st1 !! "guestModeLastActive" = Some (pretty t0)).
    { unfold st1, written. cbn [items]. apply lookup_insert_eq. }
    unfold onVisibilityChange, bind.
    rewrite (isGuestMode_active st1 Hd1 Hg1), (getItem_read _ _ Hd1), Hl1.
    destruct (pretty_Z_cons t0) as (c & r & Hp). rewrite Hp, <- Hp, parseInt_pretty.
    change expiry_ms with 1800000%Z.
    destruct (t1 - t0 >? 1800000)%Z; [ | reflexivity ].
    now rewrite (clearAllData_without st1 Hd1).
Qed.

Lemma hide_then_resume_witness :
  exists st1,
    onVisibilityChange hidden 1700000000000 guest_store = (Ok false, st1)
    /\ st1 = written "guestModeLastActive" (pretty 1700000000000%Z) guest_store
    /\ onVisibilityChange visible 1700001800001 st1
       = if (1700001800001 - 1700000000000 >? 1800000)%Z
         then (Ok true, without_keys guest_keys st1)
         else (Ok false, st1).
Proof.
  apply (hide_then_resume guest_store 1700000000000 1700001800001); reflexivity.
Defined.

(** X9. The expiry fires once. After a [visible] event that cleared the
    guest data, the [guestMode] flag is gone while the
    [guestModeLastActive] timestamp is still in the store, and any later
    [visible] event does nothing. *)
Theorem expiry_fires_once (st : Storage) (now now' : Z) :
  fst (onVisibilityChange visible now st) = Ok true ->
  exists st',
    snd (onVisibilityChange visible now st) = st'
    /\ items st' !! "guestMode" = None
    /\ items st' !! "guestModeLastActive" = items st !! "guestModeLastActive"
    /\ onVisibilityChange visible now' st' = (Ok false, st').
Proof.
  intros Hr. destruct (denied st) eqn:Hd.
  { revert Hr. unfold onVisibilityChange, isGuestMode, bind.
    rewrite (getItem_denied _ _ Hd). discriminate. }
  revert Hr. unfold onVisibilityChange at 1 2, bind.
  rewrite (isGuestMode_read st Hd), (getItem_read _ _ Hd).
  destruct (match items st !! "guestMode" with
            | Some s => String.eqb s "true" | None => false end); [ | discriminate ].
  destruct (items st !! "guestModeLastActive") as [ [ | c r ] | ] eqn:Hl; try discriminate.
  destruct (parseInt (String c r)) as [ hiddenAt | ]; [ | discriminate ].
  destruct (now - hiddenAt >? expiry_ms)%Z; [ | discriminate ].
  rewrite (clearAllData_without st Hd). intros _. cbn [snd].
  set (st' := without_keys guest_keys st).
  assert (Hd' : denied st' = false) by exact Hd.
  assert (Hg' : items st' !! "guestMode" = None).
  { unfold st'. now rewrite without_keys_lookup. }
  exists st'. split; [ reflexivity | ]. split; [ exact Hg' | ]. split.
  - unfold st'. now rewrite without_keys_lookup.
  - unfold onVisibilityChange, bind.
    rewrite (isGuestMode_read st' Hd'), Hg', (getItem_read _ _ Hd'). reflexivity.
Qed.

Lemma expiry_fires_once_witness :
  exists st',
    snd (onVisibilityChange visible 1700001800001 hidden_store) = st'
    /\ items st' !! "guestMode" = None
    /\ items st' !! "guestModeLastActive" = items hidden_store !! "guestModeLastActive"
    /\ onVisibilityChange visible 1700009999999 st' = (Ok false, st').
Proof.
  apply (expiry_fires_once hidden_store 1700001800001 1700009999999). reflexivity.
Defined.

(** X10. Coming back without a usable timestamp. On an accessible store,
    the [visible] event does nothing when the [guestMode] flag is not
    exactly ["true"], and also when the [guestModeLastActive] slot is
    absent, empty or does not start with a number, so that [parseInt]
    gives [NaN]. *)
Theorem resume_keeps_data (st : Storage) (now : Z) :
  denied st = false ->
  (items st !! "guestMode" <> Some "true"
   \/ forall lastActive, items st !! "guestModeLastActive" = Some lastActive ->
                         parseInt lastActive = None) ->
  onVisibilityChange visible now st = (Ok false, st).
Proof.
  intros Hd Hcase. unfold onVisibilityChange, bind.
  rewrite (isGuestMode_read st Hd), (getItem_read _ _ Hd).
  destruct Hcase as [ Hg | Hl ].
  - destruct (items st !! "guestMode") as [ s | ]; [ | reflexivity ].
    destruct (String.eqb_spec s "true") as [ -> | Hne ]; [ now destruct Hg | reflexivity ].
  - destruct (match items st !! "guestMode" with
              | Some s => String.eqb s "true" | None => false end); [ | reflexivity ].
    destruct (items st !! "guestModeLastActive") as [ [ | c r ] | ]; try reflexivity.
    now rewrite (Hl _ eq_refl).
Qed.

Lemma resume_keeps_data_witness :
  onVisibilityChange visible 1700009999999
    (written "guestModeLastActive" "yesterday" guest_store)
  = (Ok false, written "guestModeLastActive" "yesterday" guest_store).
Proof.
  apply (resume_keeps_data (written "guestModeLastActive" "yesterday" guest_store)
           1700009999999).
  - reflexivity.
  - right. intros lastActive H. vm_compute in H. injection H as <-. reflexivity.
Defined.

(** * More of the storage report and the chat request *)

(** X11. [getStorageInfo] throws exactly when one of the two slots holds
    the JSON text [null]: the readers return [null], and [documents.length]
    or [chatHistory.length] is a [TypeError]. In every other state it
    returns, and in no case does it change the store. *)
Theorem getStorageInfo_throws_iff_null (st : Storage) :
  (is_null (collection documentsKey st) || is_null (collection chatHistoryKey st) = true
   /\ getStorageInfo st = (Throw TypeError, st))
  \/ (is_null (collection documentsKey st) || is_null (collection chatHistoryKey st) = false
      /\ exists info, getStorageInfo st = (Ok info, st)).
Proof.
  destruct (is_null (collection documentsKey st)) eqn:Hn1.
  - left. split; [ reflexivity | ]. unfold getStorageInfo, bind, lift.
    rewrite getDocuments_eq, getChatHistory_eq.
    destruct (collection documentsKey st); try discriminate Hn1. reflexivity.
  - destruct (is_null (collection chatHistoryKey st)) eqn:Hn2.
    + left. split; [ reflexivity | ]. unfold getStorageInfo, bind, lift.
      rewrite getDocuments_eq, getChatHistory_eq.
      destruct (get_length_not_null _ Hn1) as (n & ->).
      destruct (collection chatHistoryKey st); try discriminate Hn2. reflexivity.
    + right. split; [ reflexivity | ].
      destruct (getStorageInfo_returns st Hn1 Hn2) as (info & Hi & _). eauto.
Qed.

Section RequestFacts.

Lemma assembleContext_no_context selectedDocuments useAllDocuments st :
  default false useAllDocuments = false ->
  selectedDocuments = None \/ selectedDocuments = Some [] ->
  assembleContext selectedDocuments useAllDocuments st = (Ok (EmptyString, []), st).
Proof.
  intros Hu Hs. unfold assembleContext. rewrite Hu. now destruct Hs as [ -> | -> ].
Qed.

End RequestFacts.

(** X12. [generateAIResponse] never throws and never writes: in every
    store, for every backend behaviour, it returns a result and leaves the
    store as it was. In that result [context_used] is true exactly when
    [context_sources] is not empty. *)
Theorem generateAIResponse_context_used (fetch : Fetch) (message : string)
    (selectedDocuments : option (list string)) (useAllDocuments : option bool)
    (st : Storage) :
  exists answer,
    generateAIResponse fetch message selectedDocuments useAllDocuments st = (Ok answer, st)
    /\ (context_used answer = true <-> context_sources answer <> []).
Proof.
  unfold generateAIResponse, try_catch, bind.
  pose proof (assembleContext_reads selectedDocuments useAllDocuments st) as Hst.
  destruct (assembleContext selectedDocuments useAllDocuments st) as [ [ [context sources] | e ] st0 ];
    cbn [snd] in Hst; subst st0.
  - destruct (fetch chat_url (chat_body message context sources)) as [ error | [ | ] body ].
    + eexists. split; [ reflexivity | ]. cbn. split; [ discriminate | congruence ].
    + unfold JSON_parse, throw, ret, lift.
      destruct (Json.parse body) as [ data | ].
      * destruct (get_prop data "response") as [ answer | e ].
        -- eexists. split; [ reflexivity | ]. cbn [context_used context_sources].
           destruct sources; cbn; split; congruence.
        -- eexists. split; [ reflexivity | ]. cbn. split; [ discriminate | congruence ].
      * eexists. split; [ reflexivity | ]. cbn. split; [ discriminate | congruence ].
    + eexists. split; [ reflexivity | ]. cbn. split; [ discriminate | congruence ].
  - eexists. split; [ reflexivity | ]. cbn. split; [ discriminate | congruence ].
Qed.

(** X13. Without context the stored documents play no part. When
    [useAllDocuments] is false or missing and [selectedDocuments] is
    missing or empty, the request body carries the empty context and no
    sources, and the result of [generateAIResponse] is the same in every
    store. *)
Theorem no_context_ignores_storage (fetch : Fetch) (message : string)
    (selectedDocuments : option (list string)) (useAllDocuments : option bool)
    (st st' : Storage) :
  default false useAllDocuments = false ->
  selectedDocuments = None \/ selectedDocuments = Some [] ->
  assembleContext selectedDocuments useAllDocuments st = (Ok (EmptyString, []), st)
  /\ fst (generateAIResponse fetch message selectedDocuments useAllDocuments st)
     = fst (generateAIResponse fetch message selectedDocuments useAllDocuments st')
  /\ forall answer,
       fst (generateAIResponse fetch message selectedDocuments useAllDocuments st) = Ok answer ->
       context_used answer = false /\ context_sources answer = [].
Proof.
  intros Hu Hs.
  pose proof (assembleContext_no_context _ _ st Hu Hs) as Ha.
  pose proof (assembleContext_no_context _ _ st' Hu Hs) as Ha'.
  split; [ exact Ha | ].
  unfold generateAIResponse, try_catch, bind. rewrite Ha, Ha'.
  destruct (fetch chat_url (chat_body message EmptyString [])) as [ error | [ | ] body ];
    unfold JSON_parse, throw, ret, lift.
  - split; [ reflexivity | ]. intros answer [= <-]. split; reflexivity.
  - destruct (Json.parse body) as [ data | ].
    + destruct (get_prop data "response") as [ answer | e ];
        (split; [ reflexivity | ]; intros a [= <-]; split; reflexivity).
    + split; [ reflexivity | ]. intros answer [= <-]. split; reflexivity.
  - split; [ reflexivity | ]. intros answer [= <-]. split; reflexivity.
Qed.

Lemma no_context_ignores_storage_witness :
  assembleContext None (Some false) emptyStorage = (Ok (EmptyString, []), emptyStorage)
  /\ fst (generateAIResponse hello_answer "hi" None (Some false) emptyStorage)
     = fst (generateAIResponse hello_answer "hi" None (Some false) two_uploads_store)
  /\ forall answer,
       fst (generateAIResponse hello_answer "hi" None (Some false) emptyStorage) = Ok answer ->
       context_used answer = false /\ context_sources answer = [].
Proof.
  apply (no_context_ignores_storage hello_answer "hi" None (Some false)
           emptyStorage two_uploads_store).
  - reflexivity.
  - now left.
Defined.


(** * Text extraction *)

Section ExtractionFacts.

(** The [try] block of [extractTextFromFile] in terms of the reply. *)
Lemma extractTextFromFile_reply fetch file :
  match reply_field (fetch extract_url file) "extracted_text" with
  | Some v => extractTextFromFile fetch file = Ok v
  | None =>
      exists error,
        extractTextFromFile fetch file
        = if is_text_file file then readAsText file
          else Ok (Some (JStr ("[Error extracting text from " +:+ file_name file +:+ "]: "
                               +:+ render_error error)))
  end.
Proof.
  unfold extractTextFromFile, reply_field.
  destruct (fetch extract_url file) as [ error | [ | ] body ]; cbn [catch_result].
  - eauto.
  - destruct (Json.parse body) as [ data | ]; cbn [catch_result]; [ | eauto ].
    destruct (get_prop data "extracted_text") as [ v | e ]; cbn [catch_result]; eauto.
  - eauto.
Qed.

End ExtractionFacts.

(** X14. [extractTextFromFile] rejects in one situation only: the backend
    path failed, the file counts as a text file, and reading it failed;
    the error is then ["Failed to read text file"]. For every other file
    and backend behaviour the promise resolves. *)
Theorem extractTextFromFile_rejection (fetch : FetchFile) (file : File) (error : exn) :
  extractTextFromFile fetch file = Throw error ->
  reply_field (fetch extract_url file) "extracted_text" = None
  /\ is_text_file file = true
  /\ file_text file = None
  /\ error = Exn "Error" "Failed to read text file".
Proof.
  intros H. pose proof (extractTextFromFile_reply fetch file) as Hr.
  destruct (reply_field (fetch extract_url file) "extracted_text") as [ v | ].
  - rewrite Hr in H. discriminate H.
  - destruct Hr as (e & Hr). rewrite Hr in H.
    destruct (is_text_file file); [ | discriminate H ].
    unfold readAsText in H. destruct (file_text file); [ discriminate H | ].
    injection H as <-. repeat split.
Qed.

Lemma extractTextFromFile_rejection_witness :
  reply_field (no_extraction extract_url unreadable_file) "extracted_text" = None
  /\ is_text_file unreadable_file = true
  /\ file_text unreadable_file = None
  /\ Exn "Error" "Failed to read text file" = Exn "Error" "Failed to read text file".
Proof.
  apply (extractTextFromFile_rejection no_extraction unreadable_file). reflexivity.
Defined.

(** X15. The fallback for text files. For a file whose type starts with
    [text/] or whose name ends in [.txt] in any letter case, and whose
    text can be read, [extractTextFromFile] resolves: to the
    [extracted_text] of the backend's reply when the backend path
    succeeds, and to the text of the file itself in every case of
    failure; the error placeholder is never produced. The reply is taken
    within the alphabet of the JSON reader, so that a body the reader
    refuses is one [response.json()] rejects. *)
Theorem extractTextFromFile_text_file (fetch : FetchFile) (file : File) (text : string) :
  is_text_file file = true ->
  file_text file = Some text ->
  reply_in_alphabet (fetch extract_url file) = true ->
  extractTextFromFile fetch file
  = Ok (match reply_field (fetch extract_url file) "extracted_text" with
        | Some v => v
        | None => Some (JStr text)
        end).
Proof.
  intros Ht Hf _. pose proof (extractTextFromFile_reply fetch file) as Hr.
  destruct (reply_field (fetch extract_url file) "extracted_text") as [ v | ]; [ exact Hr | ].
  destruct Hr as (e & ->). rewrite Ht. unfold readAsText. now rewrite Hf.
Qed.

Lemma extractTextFromFile_text_file_witness :
  extractTextFromFile no_extraction notes_file
  = Ok (match reply_field (no_extraction extract_url notes_file) "extracted_text" with
        | Some v => v
        | None => Some (JStr "hello")
        end).
Proof.
  apply (extractTextFromFile_text_file no_extraction notes_file "hello"); reflexivity.
Defined.

(** X16. For a file that does not count as a text file
    [extractTextFromFile] always resolves: to the [extracted_text] of the
    backend's reply, or, when the backend path failed, to a placeholder
    that names the file and the error, so the upload handler stores the
    placeholder as the document's content. The reply is taken within the
    alphabet of the JSON reader, so that a body the reader refuses is one
    [response.json()] rejects. *)
Theorem extractTextFromFile_other_file (fetch : FetchFile) (file : File) :
  is_text_file file = false ->
  reply_in_alphabet (fetch extract_url file) = true ->
  exists v,
    extractTextFromFile fetch file = Ok v
    /\ (reply_field (fetch extract_url file) "extracted_text" = Some v
        \/ (reply_field (fetch extract_url file) "extracted_text" = None
            /\ exists error,
                 v = Some (JStr ("[Error extracting text from " +:+ file_name file +:+ "]: "
                                 +:+ render_error error)))).
Proof.
  intros Ht _. pose proof (extractTextFromFile_reply fetch file) as Hr.
  destruct (reply_field (fetch extract_url file) "extracted_text") as [ v | ].
  - exists v. split; [ exact Hr | now left ].
  - destruct Hr as (e & ->). rewrite Ht. eexists. split; [ reflexivity | ].
    right. split; [ reflexivity | eauto ].
Qed.

Lemma extractTextFromFile_other_file_witness :
  exists v,
    extractTextFromFile no_extraction scan_file = Ok v
    /\ (reply_field (no_extraction extract_url scan_file) "extracted_text" = Some v
        \/ (reply_field (no_extraction extract_url scan_file) "extracted_text" = None
            /\ exists error,
                 v = Some (JStr ("[Error extracting text from " +:+ file_name scan_file +:+ "]: "
                                 +:+ render_error error)))).
Proof. apply (extractTextFromFile_other_file no_extraction scan_file); reflexivity. Defined.

(** * The lists of the page *)

Section ListingFacts.

Lemma map_result_app {A B : Type} (f : A -> result B) xs ys xs' ys' :
  map_result f xs = Ok xs' -> map_result f ys = Ok ys' ->
  map_result f (xs ++ ys) = Ok (xs' ++ ys').
Proof.
  revert xs'. induction xs as [ | x xs IH ]; intros xs' Hx Hy; cbn [map_result app] in *.
  - injection Hx as <-. exact Hy.
  - destruct (f x) as [ y | e ]; [ | discriminate Hx ]. cbn [result_bind] in *.
    destruct (map_result f xs) as [ zs | e ]; [ | discriminate Hx ]. cbn [result_bind] in *.
    injection Hx as <-. now rewrite (IH zs eq_refl Hy).
Qed.

Lemma map_result_throws {A B : Type} (f : A -> result B) xs x e :
  In x xs -> f x = Throw e -> exists e', map_result f xs = Throw e'.
Proof.
  intros Hin Hx. induction xs as [ | y xs IH ]; [ destruct Hin | ].
  cbn [map_result]. destruct Hin as [ -> | Hin ].
  - rewrite Hx. cbn [result_bind]. eauto.
  - destruct (f y) as [ z | e0 ]; cbn [result_bind]; [ | eauto ].
    destruct (IH Hin) as (e' & ->). cbn [result_bind]. eauto.
Qed.

Lemma convert_document_json d : convert_document (document_json d) = Ok (listed_document d).
Proof. reflexivity. Qed.

Lemma map_result_convert_documents docs :
  map_result convert_document (map document_json docs) = Ok (map listed_document docs).
Proof.
  induction docs as [ | d docs IH ]; [ reflexivity | ].
  cbn [map map_result]. rewrite convert_document_json, IH. reflexivity.
Qed.

Lemma loadDocuments_eq st :
  loadDocuments st
  = (match (let* items := as_array (collection documentsKey st) in
            map_result convert_document items)%R with
     | Ok listed => Ok (Some listed)
     | Throw _ => Ok None
     end, st).
Proof.
  unfold loadDocuments, try_catch, bind, lift. rewrite getDocuments_eq.
  now destruct (result_bind (as_array (collection documentsKey st)) _).
Qed.

Lemma loadChatHistory_eq st :
  loadChatHistory st
  = (match (let* items := as_array (collection chatHistoryKey st) in
            map_result convert_message items)%R with
     | Ok listed => Ok (Some listed)
     | Throw _ => Ok None
     end, st).
Proof.
  unfold loadChatHistory, try_catch, bind, lift. rewrite getChatHistory_eq.
  now destruct (result_bind (as_array (collection chatHistoryKey st)) _).
Qed.

Lemma saveDocument_props document t :
  saveDocument document t = saveDocumentProps (DocumentData_props document) t.
Proof. reflexivity. Qed.

Lemma saveDocumentProps_array props t st docs :
  denied st = false ->
  collection documentsKey st = JArr docs ->
  saveDocumentProps props t st
  = (Ok (JObj (props ++ [ ("id", JStr (timestamp_id t)); ("created_at", JStr (toISOString t)) ])),
     written documentsKey
       (Json.stringify
          (JArr (docs ++ [ JObj (props ++ [ ("id", JStr (timestamp_id t));
                                            ("created_at", JStr (toISOString t)) ]) ]))) st).
Proof.
  intros Hd Hc. unfold saveDocumentProps, bind, lift.
  rewrite getDocuments_eq, Hc. cbn [push as_array result_bind].
  now rewrite (setItem_written _ _ _ Hd).
Qed.

Lemma saveDocumentProps_throws props t st :
  denied st = true \/ is_array (collection documentsKey st) = false ->
  exists e, saveDocumentProps props t st = (Throw e, st).
Proof.
  intros Hcase. unfold saveDocumentProps, bind, lift, push. rewrite getDocuments_eq.
  destruct (is_array (collection documentsKey st)) eqn:Ha.
  - destruct Hcase as [ Hd | ? ]; [ | discriminate ].
    destruct (as_array_is_array _ Ha) as (docs & ->). cbn [as_array result_bind].
    rewrite (setItem_denied _ _ _ Hd). eauto.
  - rewrite (as_array_not_array _ Ha). cbn [result_bind]. eauto.
Qed.

Lemma timestamp_id_parses t : parseInt (timestamp_id t) = Some (Date_now t).
Proof. apply parseInt_pretty. Qed.

End ListingFacts.

(** X17. The document list after a run of uploads. Starting from the
    empty store, after any run of [saveDocument] calls [loadDocuments]
    lists one entry per call, in call order; the entry's numeric [id] is
    the [Date.now()] reading of the call, read back from its decimal
    string by [parseInt], and its [content_length] is the length of the
    content. *)
Theorem loadDocuments_after_saveDocuments (calls : list (DocumentData * Clock)) :
  exists st',
    snd (saveDocuments calls emptyStorage) = st'
    /\ loadDocuments st' = (Ok (Some (map listed_document (map created_document calls))), st')
    /\ map ui_doc_id (map listed_document (map created_document calls))
       = map (fun call => Some (Date_now (snd call))) calls
    /\ map ui_doc_content_length (map listed_document (map created_document calls))
       = map (fun call =>
                Some (JNum (pretty (Z.of_nat (String.length (data_content (fst call)))))))
             calls.
Proof.
  destruct (saveDocuments_from calls emptyStorage [] eq_refl eq_refl) as (st' & Hs & Hd & Hc).
  exists st'. rewrite Hs. split; [ reflexivity | ]. split; [ | split ].
  - rewrite loadDocuments_eq, Hc. cbn [app as_array result_bind].
    now rewrite map_result_convert_documents.
  - rewrite !map_map. apply map_ext. intros [document t].
    cbn [listed_document created_document ui_doc_id doc_id snd]. apply timestamp_id_parses.
  - rewrite !map_map. apply map_ext. intros [document t]. reflexivity.
Qed.

(** X18. One stored element without usable content hides the whole list.
    When the stored array holds [null], or an element whose [content] is
    missing or [null], [doc.content.length] throws inside [loadDocuments]
    and no list is produced, whatever the other elements are. *)
Theorem loadDocuments_fails_without_content (st : Storage) (docs : list json) (doc : json) :
  collection documentsKey st = JArr docs ->
  In doc docs ->
  doc = JNull \/ get_prop doc "content" = Ok None \/ get_prop doc "content" = Ok (Some JNull) ->
  loadDocuments st = (Ok None, st).
Proof.
  intros Hc Hin Hbad. rewrite loadDocuments_eq, Hc. cbn [as_array result_bind].
  assert (Hthrow : exists e, convert_document doc = Throw e).
  { destruct Hbad as [ -> | [ Hnone | Hnull ] ].
    - eexists. reflexivity.
    - unfold convert_document.
      destruct doc; try discriminate Hnone; cbn [get_prop result_bind] in *;
        try (eexists; reflexivity).
      injection Hnone as ->. eexists. reflexivity.
    - unfold convert_document.
      destruct doc; try discriminate Hnull; cbn [get_prop result_bind] in *.
      injection Hnull as ->. eexists. reflexivity. }
  destruct Hthrow as (e & He).
  now destruct (map_result_throws convert_document docs doc e Hin He) as (e' & ->).
Qed.

Lemma loadDocuments_fails_without_content_witness :
  loadDocuments
    (written documentsKey
       (Json.stringify (JArr [ newDocument notes_txt tick; document_without_content scan_file later ]))
       emptyStorage)
  = (Ok None,
     written documentsKey
       (Json.stringify (JArr [ newDocument notes_txt tick; document_without_content scan_file later ]))
       emptyStorage).
Proof.
  apply (loadDocuments_fails_without_content _
           [ newDocument notes_txt tick; document_without_content scan_file later ]
           (document_without_content scan_file later)).
  - reflexivity.
  - right. left. reflexivity.
  - right. left. reflexivity.
Defined.

(** * Uploading *)

(** X19. An upload that found text. On an accessible store holding an
    array of documents, when text extraction resolves to a string,
    [handleFileUpload] stores the document (file name, text, the file's
    type or ["unknown"] when the type is empty, the clock reading as id)
    after the ones already there, gives the page the refreshed list ending
    with the new entry, and adds the confirmation message. *)
Theorem handleFileUpload_lists_document (fetch : FetchFile) (file : File) (text : string)
    (t t' : Clock) (st : Storage) (docs : list GuestDocument) :
  denied st = false ->
  collection documentsKey st = JArr (map document_json docs) ->
  extractTextFromFile fetch file = Ok (Some (JStr text)) ->
  exists st',
    handleFileUpload fetch (Some file) t t' st
    = (Ok (Uploaded (Some (map listed_document (docs ++ [uploaded_document file text t])))
                    (upload_message file t')), st')
    /\ getDocuments st'
       = (Ok (JArr (map document_json (docs ++ [uploaded_document file text t]))), st')
    /\ ui_doc_id (listed_document (uploaded_document file text t)) = Some (Date_now t).
Proof.
  intros Hd Hc He.
  set (st' := written documentsKey
                (Json.stringify (JArr (map document_json (docs ++ [uploaded_document file text t]))))
                st).
  assert (Hc' : collection documentsKey st'
                = JArr (map document_json (docs ++ [uploaded_document file text t]))).
  { apply (collection_written _ _ st Hd). apply documents_wf. }
  exists st'. split; [ | split ].
  - unfold handleFileUpload, try_catch, bind, lift. rewrite He.
    rewrite (saveDocumentProps_array _ t st _ Hd Hc).
    change (JObj (upload_props file (Some (JStr text))
                  ++ [("id", JStr (timestamp_id t)); ("created_at", JStr (toISOString t))]))
      with (document_json (uploaded_document file text t)).
    change (map document_json docs ++ [document_json (uploaded_document file text t)])
      with (map document_json docs ++ map document_json [uploaded_document file text t]).
    rewrite <- map_app. fold st'.
    rewrite loadDocuments_eq, Hc'. cbn [as_array result_bind].
    rewrite map_result_convert_documents. reflexivity.
  - rewrite getDocuments_eq. now rewrite Hc'.
  - apply timestamp_id_parses.
Qed.

Lemma handleFileUpload_lists_document_witness :
  exists st',
    handleFileUpload no_extraction (Some notes_file) tick later emptyStorage
    = (Ok (Uploaded (Some (map listed_document ([] ++ [uploaded_document notes_file "hello" tick])))
                    (upload_message notes_file later)), st')
    /\ getDocuments st'
       = (Ok (JArr (map document_json ([] ++ [uploaded_document notes_file "hello" tick]))), st')
    /\ ui_doc_id (listed_document (uploaded_document notes_file "hello" tick))
       = Some (Date_now tick).
Proof.
  apply (handleFileUpload_lists_document no_extraction notes_file "hello" tick later
           emptyStorage []); reflexivity.
Defined.

(** X20. An upload whose reply has no text. When the extraction backend
    answers successfully with JSON that has no [extracted_text], the
    promise resolves to [undefined]; [handleFileUpload] then stores the
    document without a [content] property and still adds the
    confirmation message, but the refresh of the list fails, and so does
    every later [loadDocuments] while that element is stored. *)
Theorem handleFileUpload_without_text (fetch : FetchFile) (file : File) (t t' : Clock)
    (st : Storage) (docs : list json) :
  denied st = false ->
  collection documentsKey st = JArr docs ->
  reply_field (fetch extract_url file) "extracted_text" = Some None ->
  exists st',
    handleFileUpload fetch (Some file) t t' st
    = (Ok (Uploaded None (upload_message file t')), st')
    /\ getDocuments st' = (Ok (JArr (docs ++ [document_without_content file t])), st')
    /\ loadDocuments st' = (Ok None, st').
Proof.
  intros Hd Hc Hr.
  pose proof (extractTextFromFile_reply fetch file) as He. rewrite Hr in He.
  set (st' := written documentsKey
                (Json.stringify (JArr (docs ++ [document_without_content file t]))) st).
  assert (Hc' : collection documentsKey st' = JArr (docs ++ [document_without_content file t])).
  { apply (collection_written _ _ st Hd).
    apply wf_items_app; [ exact (collection_array_wf _ _ _ Hc) | reflexivity ]. }
  assert (Hl : loadDocuments st' = (Ok None, st')).
  { rewrite loadDocuments_eq, Hc'. cbn [as_array result_bind].
    destruct (map_result_throws convert_document (docs ++ [document_without_content file t])
                (document_without_content file t) TypeError) as (e & ->);
      [ apply in_or_app; right; now left | reflexivity | reflexivity ]. }
  exists st'. split; [ | split ].
  - unfold handleFileUpload, try_catch, bind, lift. rewrite He.
    rewrite (saveDocumentProps_array _ t st _ Hd Hc).
    change (JObj (upload_props file None
                  ++ [("id", JStr (timestamp_id t)); ("created_at", JStr (toISOString t))]))
      with (document_without_content file t).
    fold st'. now rewrite Hl.
  - rewrite getDocuments_eq. now rewrite Hc'.
  - exact Hl.
Qed.

Lemma handleFileUpload_without_text_witness :
  exists st',
    handleFileUpload empty_extraction (Some scan_file) tick later emptyStorage
    = (Ok (Uploaded None (upload_message scan_file later)), st')
    /\ getDocuments st' = (Ok (JArr ([] ++ [document_without_content scan_file tick])), st')
    /\ loadDocuments st' = (Ok None, st').
Proof.
  apply (handleFileUpload_without_text empty_extraction scan_file tick later emptyStorage []);
    reflexivity.
Defined.

(** X21. What [handleFileUpload] does, case by case. It never throws.
    With no file chosen it does nothing. With a file: when text
    extraction rejects, when storage is denied, or when the
    [guestDocuments] slot does not read as an array, the handler ends in
    its [catch], with the store as it was and no message added. In every
    other case the slot is rewritten with the old documents followed by
    the new one (file name, extracted text, type or ["unknown"], id and
    time of the clock reading), the page gets what [loadDocuments] makes
    of the new store, and the confirmation for that file is added. *)
Theorem handleFileUpload_effect (fetch : FetchFile) (file : option File) (t t' : Clock)
    (st : Storage) :
  match file with
  | None => handleFileUpload fetch file t t' st = (Ok NoFile, st)
  | Some chosen =>
      match extractTextFromFile fetch chosen with
      | Throw _ => handleFileUpload fetch file t t' st = (Ok UploadFailed, st)
      | Ok extractedText =>
          if denied st then handleFileUpload fetch file t t' st = (Ok UploadFailed, st)
          else
            match collection documentsKey st with
            | JArr docs =>
                let created :=
                  JObj (upload_props chosen extractedText
                        ++ [ ("id", JStr (timestamp_id t));
                             ("created_at", JStr (toISOString t)) ]) in
                let st' :=
                  written documentsKey (Json.stringify (JArr (docs ++ [created]))) st in
                exists listed,
                  loadDocuments st' = (Ok listed, st')
                  /\ handleFileUpload fetch file t t' st
                     = (Ok (Uploaded listed (upload_message chosen t')), st')
            | _ => handleFileUpload fetch file t t' st = (Ok UploadFailed, st)
            end
      end
  end.
Proof.
  destruct file as [ file | ]; [ | reflexivity ].
  unfold handleFileUpload, try_catch, bind, lift.
  destruct (extractTextFromFile fetch file) as [ extractedText | e ]; [ | reflexivity ].
  destruct (denied st) eqn:Hd.
  { now destruct (saveDocumentProps_throws (upload_props file extractedText) t st
                    (or_introl Hd)) as (e & ->). }
  destruct (collection documentsKey st) as [ | b | lit | text | docs | props ] eqn:Hc.
  5:{ rewrite (saveDocumentProps_array _ t st docs Hd Hc). cbn zeta.
      rewrite loadDocuments_eq.
      destruct (result_bind (as_array _) _); eexists; split; reflexivity. }
  all: assert (Ha : is_array (collection documentsKey st) = false) by now rewrite Hc.
  all: now destruct (saveDocumentProps_throws (upload_props file extractedText) t st
                       (or_intror Ha)) as (e & ->).
Qed.

Lemma handleFileUpload_effect_witness :
  exists listed,
    loadDocuments
      (written documentsKey
         (Json.stringify (JArr [ document_json (uploaded_document notes_file "hello" tick) ]))
         emptyStorage)
    = (Ok listed,
       written documentsKey
         (Json.stringify (JArr [ document_json (uploaded_document notes_file "hello" tick) ]))
         emptyStorage)
    /\ handleFileUpload no_extraction (Some notes_file) tick later emptyStorage
       = (Ok (Uploaded listed (upload_message notes_file later)),
          written documentsKey
            (Json.stringify (JArr [ document_json (uploaded_document notes_file "hello" tick) ]))
            emptyStorage).
Proof.
  exact (handleFileUpload_effect no_extraction (Some notes_file) tick later emptyStorage).
Defined.

(** * Sending and reloading *)

Section HistoryFacts.

Lemma saveChatMessage_throws message t st :
  denied st = true \/ is_array (collection chatHistoryKey st) = false ->
  exists e, saveChatMessage message t st = (Throw e, st).
Proof.
  intros Hcase. unfold saveChatMessage, bind, lift, push. rewrite getChatHistory_eq.
  destruct (is_array (collection chatHistoryKey st)) eqn:Ha.
  - destruct Hcase as [ Hd | ? ]; [ | discriminate ].
    destruct (as_array_is_array _ Ha) as (history & ->). cbn [as_array result_bind].
    rewrite (setItem_denied _ _ _ Hd). eauto.
  - rewrite (as_array_not_array _ Ha). cbn [result_bind]. eauto.
Qed.

Lemma newMessage_props message t :
  get_prop (newMessage message t) "id" = Ok (Some (JStr (timestamp_id t)))
  /\ get_prop (newMessage message t) "context_documents"
     = Ok (JStr <$> data_context_documents message)
  /\ get_prop (newMessage message t) "created_at" = Ok (Some (JStr (toISOString t))).
Proof. destruct message as [text [ answer | ] [ sources | ] ]; repeat split; reflexivity. Qed.

Lemma convert_message_new message t :
  convert_message (newMessage message t)
  = Ok {| entry_id := Some (Date_now t);
          entry_user_id := -1;
          entry_message := Some (JStr (data_message message));
          entry_response := data_response message;
          entry_context_documents := JStr <$> data_context_documents message;
          entry_created_at := Some (JStr (toISOString t)) |}.
Proof.
  unfold convert_message.
  destruct (newMessage_props message t) as (-> & -> & ->).
  destruct (newMessage_response message t) as (-> & ->).
  cbn [result_bind]. unfold parseInt_value. cbn [ToString_value ToString].
  now rewrite timestamp_id_parses.
Qed.

End HistoryFacts.

(** X22. When the answer cannot be saved. If storage is denied, or the
    [guestChatHistory] slot holds JSON that is not an array,
    [saveChatMessage] throws inside [handleSendMessage]: whatever the
    backend answered is dropped, the pending entry gets the fixed text
    ["Sorry, I encountered an error. Please try again."] with the id and
    time of the moment of sending, and the store is as it was. *)
Theorem handleSendMessage_persist_failure (fetch : Fetch) (inputMessage : string)
    (contextMode : ContextMode) (selectedDocuments : list Z) (t0 t1 : Clock) (st : Storage) :
  blank inputMessage = false ->
  denied st = true \/ is_array (collection chatHistoryKey st) = false ->
  handleSendMessage fetch inputMessage false contextMode selectedDocuments t0 t1 st
  = (Ok (Some (sorry_message inputMessage t0)), st).
Proof.
  intros Hb Hcase. unfold handleSendMessage. rewrite Hb. cbn [orb].
  unfold try_catch, bind.
  destruct (generateAIResponse_total fetch inputMessage
              (useSelectedDocs_of contextMode selectedDocuments)
              (Some (useAllDocs_of contextMode)) st) as (answer & -> & _).
  match goal with
  | |- context [ saveChatMessage ?m t1 st ] =>
      destruct (saveChatMessage_throws m t1 st Hcase) as (e & ->)
  end.
  reflexivity.
Qed.

Lemma handleSendMessage_persist_failure_witness :
  handleSendMessage hello_answer "summarize" false mode_none [] tick later
    (written chatHistoryKey "{}" emptyStorage)
  = (Ok (Some (sorry_message "summarize" tick)), written chatHistoryKey "{}" emptyStorage).
Proof.
  apply (handleSendMessage_persist_failure hello_answer "summarize" mode_none [] tick later
           (written chatHistoryKey "{}" emptyStorage)).
  - reflexivity.
  - right. reflexivity.
Defined.

(** X23. What is shown after sending is what a reload shows. On an
    accessible store whose history is an array that [loadChatHistory] can
    convert, a message sent through [handleSendMessage] is stored, and
    [loadChatHistory] afterwards lists the old entries followed by exactly
    the entry that was put on the page: same numeric id (the [Date.now()]
    reading at saving), same text, same response, same
    [context_documents], same time. *)
Theorem loadChatHistory_after_send (fetch : Fetch) (inputMessage : string)
    (contextMode : ContextMode) (selectedDocuments : list Z) (t0 t1 : Clock)
    (st : Storage) (history : list json) (old : list HistoryEntry) :
  denied st = false ->
  blank inputMessage = false ->
  collection chatHistoryKey st = JArr history ->
  map_result convert_message history = Ok old ->
  exists shown st',
    handleSendMessage fetch inputMessage false contextMode selectedDocuments t0 t1 st
    = (Ok (Some shown), st')
    /\ ui_id shown = Some (Date_now t1)
    /\ loadChatHistory st' = (Ok (Some (old ++ [entry_of shown])), st').
Proof.
  intros Hd Hb Hc Hold. unfold handleSendMessage. rewrite Hb. cbn [orb].
  unfold try_catch, bind.
  destruct (generateAIResponse_total fetch inputMessage
              (useSelectedDocs_of contextMode selectedDocuments)
              (Some (useAllDocs_of contextMode)) st) as (answer & -> & Hwf & _).
  set (message := {| data_message := inputMessage;
                     data_response := response answer;
                     data_context_documents := context_documents_of (context_sources answer) |}).
  rewrite (saveChatMessage_array message t1 st history Hd Hc).
  destruct (newMessage_props message t1) as (Hid & Hcd & Hca).
  unfold lift. rewrite Hid, Hcd, Hca.
  set (st' := written chatHistoryKey
                (Json.stringify (JArr (history ++ [newMessage message t1]))) st).
  assert (Hc' : collection chatHistoryKey st' = JArr (history ++ [newMessage message t1])).
  { apply (collection_written _ _ st Hd).
    apply wf_items_app; [ exact (collection_array_wf _ _ _ Hc) | ].
    cbn [wf forallb]. now rewrite (newMessage_wf message t1 Hwf). }
  eexists _, st'. split; [ reflexivity | ]. split.
  - cbn [ui_id]. unfold parseInt_value. cbn [ToString_value ToString].
    apply timestamp_id_parses.
  - rewrite loadChatHistory_eq, Hc'. cbn [as_array result_bind].
    assert (Hnew : map_result convert_message [newMessage message t1]
                   = Ok [ {| entry_id := Some (Date_now t1);
                             entry_user_id := -1;
                             entry_message := Some (JStr inputMessage);
                             entry_response := response answer;
                             entry_context_documents :=
                               JStr <$> context_documents_of (context_sources answer);
                             entry_created_at := Some (JStr (toISOString t1)) |} ]).
    { cbn [map_result]. rewrite convert_message_new. reflexivity. }
    rewrite (map_result_app convert_message history [newMessage message t1] old _ Hold Hnew).
    unfold entry_of, parseInt_value. cbn [ToString_value ToString].
    rewrite timestamp_id_parses. reflexivity.
Qed.

Lemma loadChatHistory_after_send_witness :
  exists shown st',
    handleSendMessage hello_answer "summarize" false mode_all [] tick later two_uploads_store
    = (Ok (Some shown), st')
    /\ ui_id shown = Some (Date_now later)
    /\ loadChatHistory st' = (Ok (Some ([] ++ [entry_of shown])), st').
Proof.
  apply (loadChatHistory_after_send hello_answer "summarize" mode_all [] tick later
           two_uploads_store [] []); reflexivity.
Defined.

(** * Selecting and deleting on the page *)

Section SelectionFacts.

Lemma same_value_zero_spec a b : same_value_zero a b = true <-> a = b.
Proof.
  destruct a as [ x | ], b as [ y | ]; cbn.
  - rewrite Z.eqb_eq. split; congruence.
  - split; discriminate.
  - split; discriminate.
  - split; reflexivity.
Qed.

Lemma strict_differs_number a z : strict_differs a (Some z) = true <-> a <> Some z.
Proof.
  destruct a as [ x | ]; cbn.
  - rewrite negb_true_iff, Z.eqb_neq. split; congruence.
  - split; [ discriminate | reflexivity ].
Qed.

Lemma includes_number documentId prev :
  existsb (fun id => same_value_zero id documentId) prev = true <-> In documentId prev.
Proof.
  rewrite existsb_exists. split.
  - intros (x & Hin & Hx). apply same_value_zero_spec in Hx. now subst.
  - intros Hin. exists documentId. split; [ exact Hin | now apply same_value_zero_spec ].
Qed.

Lemma selection_kept page documentId :
  page_contextMode page = mode_selected \/ page_selectedDocuments page = [] ->
  page_contextMode (without_document documentId page) = mode_selected
  \/ page_selectedDocuments (without_document documentId page) = [].
Proof. intros [ H | H ]; [ now left | right ]. cbn. now rewrite H. Qed.

Lemma selection_step_kept event page :
  page_contextMode page = mode_selected \/ page_selectedDocuments page = [] ->
  page_contextMode (selection_step event page) = mode_selected
  \/ page_selectedDocuments (selection_step event page) = [].
Proof.
  intros Hinv. destruct event as [ mode | documentId | documentId ].
  - destruct mode; unfold selection_step, handleContextModeChange; cbn; auto.
  - unfold selection_step. destruct (page_contextMode page) eqn:Hm.
    + right. destruct Hinv as [ Hinv | Hinv ]; [ congruence | exact Hinv ].
    + left. reflexivity.
    + right. destruct Hinv as [ Hinv | Hinv ]; [ congruence | exact Hinv ].
  - now apply selection_kept.
Qed.

End SelectionFacts.

(** X24. Ticking a document toggles it and touches nothing else. For a
    numeric id, after [handleDocumentSelect] the id is selected exactly
    when it was not selected before, and every other id is selected
    exactly when it was. *)
Theorem handleDocumentSelect_toggles (z : Z) (prev : list (option Z)) (x : option Z) :
  In x (handleDocumentSelect (Some z) prev)
  <-> (x = Some z /\ ~ In (Some z) prev) \/ (x <> Some z /\ In x prev).
Proof.
  unfold handleDocumentSelect.
  destruct (existsb (fun id => same_value_zero id (Some z)) prev) eqn:Hin.
  - apply includes_number in Hin. rewrite filter_In, strict_differs_number. tauto.
  - assert (Hout : ~ In (Some z) prev).
    { intros H. apply includes_number in H. congruence. }
    rewrite in_app_iff. cbn [In].
    destruct (decide (x = Some z)) as [ -> | Hne ]; [ tauto | ].
    split.
    + intros [ H | [ H | [] ] ]; [ now right | congruence ].
    + intros [ [ H _ ] | [ _ H ] ]; [ congruence | now left ].
Qed.

(** X25. The selection is empty outside the [selected] mode. From the
    initial page, after any sequence of mode changes, ticks (the check box
    is rendered in [selected] mode only) and deletions, either the context
    mode is [selected] or no document is selected. *)
Theorem selection_empty_outside_selected_mode (events : list SelectionEvent) :
  page_contextMode (selection_run events initial_page) = mode_selected
  \/ page_selectedDocuments (selection_run events initial_page) = [].
Proof.
  assert (Hgen : forall page,
             page_contextMode page = mode_selected \/ page_selectedDocuments page = [] ->
             page_contextMode (selection_run events page) = mode_selected
             \/ page_selectedDocuments (selection_run events page) = []).
  { induction events as [ | event events IH ]; intros page Hinv; [ exact Hinv | ].
    cbn [selection_run]. apply IH. now apply selection_step_kept. }
  apply Hgen. now right.
Qed.

(** X26. Deleting a listed document. After [handleDeleteDocument] has
    put a document id other than 0 in the modal (a safe integer, which
    [toString] prints in full decimal digits), on an accessible store
    whose documents are an array without [null], [confirmDelete] removes
    from the store every document whose string id is the decimal form of
    that number, removes the number from the page's document list and
    from the selection, keeps every other selected id, and closes the
    modal. *)
Theorem confirmDelete_removes (page : Page) (st : Storage) (z : Z) (docs : list json) :
  z <> 0%Z ->
  safe_integer z = true ->
  denied st = false ->
  collection documentsKey st = JArr docs ->
  Forall (fun d => is_null d = false) docs ->
  exists page' st',
    confirmDelete (handleDeleteDocument (Some z) page) st = (Ok page', st')
    /\ getDocuments st'
       = (Ok (JArr (List.filter (fun d => negb (has_id (pretty z) d)) docs)), st')
    /\ Forall (fun doc => ui_doc_id doc <> Some z) (page_documents page')
    /\ (forall x, In x (page_selectedDocuments page')
                  <-> x <> Some z /\ In x (page_selectedDocuments page))
    /\ page_isModalOpen page' = false
    /\ page_documentToDelete page' = None
    /\ page_contextMode page' = page_contextMode page.
Proof.
  intros Hz _ Hd Hc Hnn. unfold confirmDelete.
  cbn [handleDeleteDocument page_documentToDelete nothing_to_delete].
  rewrite (proj2 (Z.eqb_neq z 0) Hz).
  unfold try_catch, bind. cbn [number_toString].
  rewrite (deleteDocument_array (pretty z) st docs Hd Hc Hnn).
  eexists _, _. split; [ reflexivity | ].
  split; [ | split; [ | split; [ | repeat split ] ] ].
  - rewrite getDocuments_eq. rewrite (collection_written _ _ st Hd); [ reflexivity | ].
    apply wf_items_filter. exact (collection_array_wf _ _ _ Hc).
  - cbn. apply Forall_forall. intros doc Hin. apply list_elem_of_In in Hin.
    apply filter_In in Hin as [ _ Hdiff ].
    now apply strict_differs_number.
  - intros x. cbn. rewrite filter_In, strict_differs_number. tauto.
Qed.

Lemma confirmDelete_removes_witness :
  exists page' st',
    confirmDelete (handleDeleteDocument (Some 1700000600000%Z) two_uploads_page)
                  two_uploads_store
    = (Ok page', st')
    /\ getDocuments st'
       = (Ok (JArr (List.filter (fun d => negb (has_id (pretty 1700000600000%Z) d))
                                [ newDocument notes_txt tick; newDocument todo_txt later ])), st')
    /\ Forall (fun doc => ui_doc_id doc <> Some 1700000600000%Z) (page_documents page')
    /\ (forall x, In x (page_selectedDocuments page')
                  <-> x <> Some 1700000600000%Z /\ In x (page_selectedDocuments two_uploads_page))
    /\ page_isModalOpen page' = false
    /\ page_documentToDelete page' = None
    /\ page_contextMode page' = page_contextMode two_uploads_page.
Proof.
  apply (confirmDelete_removes two_uploads_page two_uploads_store 1700000600000
           [ newDocument notes_txt tick; newDocument todo_txt later ]).
  - lia.
  - reflexivity.
  - reflexivity.
  - reflexivity.
  - repeat constructor.
Defined.

(** * The session *)

Section SessionFacts.

Lemma written_lookup_other key value st key' :
  key <> key' -> items (written key value st) !! key' = items st !! key'.
Proof. intros Hne. unfold written. cbn [items]. now rewrite lookup_insert_ne. Qed.

Lemma restoreSession_guest st :
  denied st = false -> items st !! "guestMode" = Some "true" ->
  restoreSession st = (Ok guest_session, st).
Proof.
  intros Hd Hg. unfold restoreSession, bind. rewrite !(getItem_read _ _ Hd), Hg. reflexivity.
Qed.

Lemma restoreSession_signed_out st :
  denied st = false ->
  match items st !! "guestMode" with
  | Some flag => String.eqb flag "true"
  | None => false
  end = false ->
  items st !! "token" = None ->
  restoreSession st = (Ok signed_out, st).
Proof.
  intros Hd Hg Ht. unfold restoreSession, bind. rewrite !(getItem_read _ _ Hd), Hg, Ht.
  reflexivity.
Qed.

Lemma without_keys_app keys keys' st :
  without_keys keys (without_keys keys' st) = without_keys (keys ++ keys') st.
Proof. unfold without_keys. cbn [items denied]. now rewrite foldr_app. Qed.

Lemma restoreSession_cases st :
  denied st = false ->
  (exists r, restoreSession st = (r, st))
  \/ (match items st !! "guestMode" with
      | Some flag => String.eqb flag "true"
      | None => false
      end = false
      /\ restoreSession st
         = (Ok signed_out, without_keys [ "user" ] (without_keys [ "token" ] st))).
Proof.
  intros Hd. unfold restoreSession, bind. rewrite !(getItem_read _ _ Hd).
  destruct (match items st !! "guestMode" with
            | Some flag => String.eqb flag "true" | None => false end) eqn:Hg;
    [ left; eexists; reflexivity | ].
  destruct (items st !! "token") as [ [ | tc tr ] | ];
    [ left; eexists; reflexivity | | left; eexists; reflexivity ].
  destruct (items st !! "user") as [ [ | c r ] | ];
    [ left; eexists; reflexivity | | left; eexists; reflexivity ].
  unfold try_catch, bind, JSON_parse.
  destruct (Json.parse (String c r)) as [ user | ]; [ left; eexists; reflexivity | ].
  right. split; [ reflexivity | ].
  unfold throw. now rewrite !removeItem_deleted by exact Hd.
Qed.

Lemma logout_without s st :
  denied st = false ->
  logout s st
  = (Ok {| auth_user := JNull; auth_isGuestMode := false; auth_isLoading := auth_isLoading s |},
     without_keys [ "guestChatHistory" ]
       (without_keys [ "guestDocuments" ]
          (without_keys [ "guestMode" ]
             (without_keys [ "user" ] (without_keys [ "token" ] st))))).
Proof.
  intros Hd. unfold logout, bind.
  repeat (rewrite removeItem_deleted by exact Hd). reflexivity.
Qed.

Lemma hidden_store_cases now st :
  snd (onVisibilityChange hidden now st) = st
  \/ snd (onVisibilityChange hidden now st) = written "guestModeLastActive" (pretty now) st.
Proof.
  destruct (denied st) eqn:Hd.
  - left. unfold onVisibilityChange, isGuestMode, bind.
    now rewrite (getItem_denied _ _ Hd).
  - unfold onVisibilityChange, bind. rewrite (isGuestMode_read st Hd).
    destruct (match items st !! "guestMode" with
              | Some s => String.eqb s "true" | None => false end); [ | now left ].
    rewrite (setItem_written _ _ _ Hd). now right.
Qed.

Lemma handleSendMessage_effect fetch inputMessage isLoading contextMode selectedDocuments
    t0 t1 st :
  snd (handleSendMessage fetch inputMessage isLoading contextMode selectedDocuments t0 t1 st)
  = st
  \/ exists value,
       snd (handleSendMessage fetch inputMessage isLoading contextMode selectedDocuments
              t0 t1 st)
       = written chatHistoryKey value st.
Proof.
  unfold handleSendMessage.
  destruct (blank inputMessage || isLoading); [ now left | ].
  unfold try_catch, bind.
  destruct (generateAIResponse_total fetch inputMessage
              (useSelectedDocs_of contextMode selectedDocuments)
              (Some (useAllDocs_of contextMode)) st) as (answer & -> & _).
  match goal with
  | |- context [ saveChatMessage ?m t1 st ] =>
      pose proof (saveChatMessage_effect m t1 st) as He;
      destruct (saveChatMessage m t1 st) as [ [ created | e ] st2 ]
  end; cbn [snd] in He.
  - unfold lift.
    destruct (get_prop created "id"); cbn;
      [ destruct (get_prop created "context_documents"); cbn;
        [ destruct (get_prop created "created_at"); cbn | ] | ]; exact He.
  - exact He.
Qed.

(** A guest session on an accessible store stays one under every action. *)
Lemma after_action_guest action st :
  denied st = false /\ items st !! "guestMode" = Some "true" ->
  denied (after_action action st) = false
  /\ items (after_action action st) !! "guestMode" = Some "true".
Proof.
  intros [ Hd Hg ].
  assert (Hw : forall key value, key <> "guestMode" ->
             denied (written key value st) = false
             /\ items (written key value st) !! "guestMode" = Some "true").
  { intros key value Hne. split; [ exact Hd | ]. now rewrite written_lookup_other. }
  destruct action as [ document t | documentId | fetch inputMessage isLoading contextMode
                       selectedDocuments t0 t1 | now ]; cbn [after_action].
  - destruct (saveDocument_effect document t st) as [ -> | (value & ->) ];
      [ now split | now apply Hw ].
  - destruct (deleteDocument_effect documentId st) as [ -> | (value & ->) ];
      [ now split | now apply Hw ].
  - destruct (handleSendMessage_effect fetch inputMessage isLoading contextMode
                selectedDocuments t0 t1 st) as [ -> | (value & ->) ];
      [ now split | now apply Hw ].
  - destruct (hidden_store_cases now st) as [ -> | -> ]; [ now split | now apply Hw ].
Qed.

Lemma after_actions_guest actions : forall st,
  denied st = false /\ items st !! "guestMode" = Some "true" ->
  denied (after_actions actions st) = false
  /\ items (after_actions actions st) !! "guestMode" = Some "true".
Proof.
  induction actions as [ | action actions IH ]; intros st Hinv; [ exact Hinv | ].
  cbn [after_actions]. apply IH. now apply after_action_guest.
Qed.

End SessionFacts.

(** X27. Mounting twice is mounting once. The effect that restores the
    session, run again on the store it left, returns the same state and
    changes nothing more: a damaged [user] text is removed together with
    the token on the first run, so it cannot fail a second time. *)
Theorem restoreSession_idempotent (st : Storage) :
  restoreSession (snd (restoreSession st)) = restoreSession st.
Proof.
  destruct (denied st) eqn:Hd.
  { unfold restoreSession, bind. rewrite (getItem_denied _ _ Hd). cbn [snd].
    now rewrite (getItem_denied _ _ Hd). }
  destruct (restoreSession_cases st Hd) as [ (r & Hr) | (Hg & Hr) ].
  - rewrite Hr. cbn [snd]. exact Hr.
  - rewrite Hr. cbn [snd]. apply restoreSession_signed_out.
    + exact Hd.
    + rewrite !without_keys_lookup. exact Hg.
    + rewrite !without_keys_lookup. reflexivity.
Qed.

(** X28. Guest mode wins over a stored login. On an accessible store,
    [enterGuestMode] writes the [guestMode] flag and nothing else, and the
    mount effect run on that store sets up the guest user whatever [token]
    and [user] hold. *)
Theorem guest_mode_takes_precedence (s : AuthState) (st : Storage) :
  denied st = false ->
  exists st',
    enterGuestMode s st
    = (Ok {| auth_user := guest_user; auth_isGuestMode := true;
             auth_isLoading := auth_isLoading s |}, st')
    /\ st' = written "guestMode" "true" st
    /\ restoreSession st' = (Ok guest_session, st').
Proof.
  intros Hd. exists (written "guestMode" "true" st). split; [ | split; [ reflexivity | ] ].
  - unfold enterGuestMode, bind. now rewrite (setItem_written _ _ _ Hd).
  - apply restoreSession_guest; [ exact Hd | ]. unfold written. cbn [items].
    apply lookup_insert_eq.
Qed.

Lemma guest_mode_takes_precedence_witness :
  exists st',
    enterGuestMode signed_out damaged_login_store
    = (Ok {| auth_user := guest_user; auth_isGuestMode := true;
             auth_isLoading := auth_isLoading signed_out |}, st')
    /\ st' = written "guestMode" "true" damaged_login_store
    /\ restoreSession st' = (Ok guest_session, st').
Proof. apply (guest_mode_takes_precedence signed_out damaged_login_store). reflexivity. Defined.

(** X29. [logout] ends every kind of session. On an accessible store it
    removes the five keys [token], [user], [guestMode], [guestDocuments]
    and [guestChatHistory] and no other; afterwards both collections read
    as empty and the mount effect finds nobody signed in. *)
Theorem logout_ends_session (s : AuthState) (st : Storage) :
  denied st = false ->
  exists st',
    logout s st
    = (Ok {| auth_user := JNull; auth_isGuestMode := false;
             auth_isLoading := auth_isLoading s |}, st')
    /\ (forall key, items st' !! key
                    = if bool_decide (key ∈ session_keys) then None else items st !! key)
    /\ getDocuments st' = (Ok (JArr []), st')
    /\ getChatHistory st' = (Ok (JArr []), st')
    /\ restoreSession st' = (Ok signed_out, st').
Proof.
  intros Hd. eexists. split; [ exact (logout_without s st Hd) | ].
  match goal with |- (forall key, items ?x !! key = _) /\ _ => set (st' := x) end.
  assert (Hd' : denied st' = false) by exact Hd.
  assert (Hl : forall key, items st' !! key
                           = if bool_decide (key ∈ session_keys) then None else items st !! key).
  { intros key. unfold st'. rewrite !without_keys_app. cbn [app].
    rewrite without_keys_lookup.
    rewrite (bool_decide_ext _ (key ∈ session_keys)); [ reflexivity | ].
    unfold session_keys. rewrite !elem_of_cons, !elem_of_nil. tauto. }
  split; [ exact Hl | ]. split; [ | split ].
  - rewrite getDocuments_eq. unfold collection. now rewrite Hd', Hl.
  - rewrite getChatHistory_eq. unfold collection. now rewrite Hd', Hl.
  - apply restoreSession_signed_out; [ exact Hd' | now rewrite Hl | now rewrite Hl ].
Qed.

Lemma logout_ends_session_witness :
  exists st',
    logout guest_session hidden_store
    = (Ok {| auth_user := JNull; auth_isGuestMode := false;
             auth_isLoading := auth_isLoading guest_session |}, st')
    /\ (forall key, items st' !! key
                    = if bool_decide (key ∈ session_keys) then None
                      else items hidden_store !! key)
    /\ getDocuments st' = (Ok (JArr []), st')
    /\ getChatHistory st' = (Ok (JArr []), st')
    /\ restoreSession st' = (Ok signed_out, st').
Proof. apply (logout_ends_session guest_session hidden_store). reflexivity. Defined.

(** X30. Guest data does not outlive the page. Starting from any
    accessible store, after [enterGuestMode] and any sequence of uploads,
    deletions, sent messages and [hidden] events, the [beforeunload]
    listener still finds the [guestMode] flag and removes the documents,
    the chat history and the flag, whatever errors the actions ran
    into. *)
Theorem guest_data_cleared_on_unload (s : AuthState) (st : Storage)
    (actions : list GuestAction) :
  denied st = false ->
  exists st',
    onBeforeUnload (after_actions actions (snd (enterGuestMode s st))) = (Ok tt, st')
    /\ items st' !! "guestMode" = None
    /\ items st' !! documentsKey = None
    /\ items st' !! chatHistoryKey = None
    /\ getDocuments st' = (Ok (JArr []), st')
    /\ getChatHistory st' = (Ok (JArr []), st').
Proof.
  intros Hd.
  assert (Hinv : denied (snd (enterGuestMode s st)) = false
                 /\ items (snd (enterGuestMode s st)) !! "guestMode" = Some "true").
  { unfold enterGuestMode, bind. rewrite (setItem_written _ _ _ Hd). cbn [snd ret].
    split; [ exact Hd | ]. unfold written. cbn [items]. apply lookup_insert_eq. }
  apply (after_actions_guest actions) in Hinv as [ Hd2 Hg2 ].
  set (st2 := after_actions actions (snd (enterGuestMode s st))) in *.
  exists (without_keys guest_keys st2).
  assert (Hd' : denied (without_keys guest_keys st2) = false) by exact Hd2.
  split; [ | split; [ | split; [ | split; [ | split ] ] ] ].
  - unfold onBeforeUnload, bind. rewrite (isGuestMode_active st2 Hd2 Hg2).
    exact (clearAllData_without st2 Hd2).
  - now rewrite without_keys_lookup.
  - now rewrite without_keys_lookup.
  - now rewrite without_keys_lookup.
  - rewrite getDocuments_eq. unfold collection. now rewrite Hd', without_keys_lookup.
  - rewrite getChatHistory_eq. unfold collection. now rewrite Hd', without_keys_lookup.
Qed.

Lemma guest_data_cleared_on_unload_witness :
  exists st',
    onBeforeUnload
      (after_actions
         [ DoUpload notes_txt tick;
           DoHide 1700000000000;
           DoSend hello_answer "summarize" false mode_all [] tick later;
           DoDelete "1700000000000" ]
         (snd (enterGuestMode signed_out emptyStorage)))
    = (Ok tt, st')
    /\ items st' !! "guestMode" = None
    /\ items st' !! documentsKey = None
    /\ items st' !! chatHistoryKey = None
    /\ getDocuments st' = (Ok (JArr []), st')
    /\ getChatHistory st' = (Ok (JArr []), st').
Proof.
  apply (guest_data_cleared_on_unload signed_out emptyStorage
           [ DoUpload notes_txt tick;
             DoHide 1700000000000;
             DoSend hello_answer "summarize" false mode_all [] tick later;
             DoDelete "1700000000000" ]).
  reflexivity.
Defined.
